(** * Forecast project: trainer, forecaster and strategist

    A shallow embedding of the analysis service
    ([model_trainer.py], [forecaster.py], [strategist.py]) together with the
    properties its specification states about it.

    Conventions of the embedding:
    - Python floats and numpy float64 values are exact rationals ([Q]);
      rounding is not modelled, except where an integer is read off a
      float: the split position [int(len * (1 - test_size))] is computed
      in IEEE 754 double arithmetic ([float64]).  [float('inf')] is the
      constructor [Inf] of [xfloat]; a pandas NaN is the cell [None].
    - Python exceptions are the [Raise] branch of [result]; a [try/except
      Exception] block is [try_except].
    - The fitting libraries (scikit-learn, statsmodels) are outside the
      repository: their outcome on given data is a field of [learners]. *)

From Stdlib Require Import QArith Qround ZArith Lia Lqa Ascii String DecimalString.
From Stdlib Require SpecFloat.
From stdpp Require Import base list strings gmap sorting.

(** ** Python runtime *)

Inductive exn : Type :=
| IndexError
| ZeroDivisionError
| ValueError
| TypeError
| AttributeError
| LibraryError.

Inductive result (A : Type) : Type :=
| Ok (a : A)
| Raise (e : exn).
Arguments Ok {A} a.
Arguments Raise {A} e.

#[global] Instance result_ret : MRet result := fun A a => Ok a.
#[global] Instance result_bind : MBind result :=
  fun A B f m => match m with Ok a => f a | Raise e => Raise e end.

(** [try: body  except Exception: handler] *)
Definition try_except {A} (body : result A) (handler : exn -> result A) : result A :=
  match body with
  | Ok a => Ok a
  | Raise e => handler e
  end.

Definition Qlt_bool (a b : Q) : bool := negb (Qle_bool b a).

(** [a / b] on Python floats: a zero divisor raises.  (A numpy float64
    divisor gives inf or nan with a warning instead; the rationals have
    neither, and every property below that divides excludes a zero
    divisor or divides by an element of a plain Python list.) *)
Definition py_div (a b : Q) : result Q :=
  if Qeq_bool b 0 then Raise ZeroDivisionError else Ok (a / b)%Q.

(** A double: an IEEE 754 binary64 number (53 bits of precision), with
    the operations of the Standard Library's specification, which round
    to nearest, ties to even. *)
Definition float64 : Type := SpecFloat.spec_float.

(** [float(z)] *)
Definition float_of_Z (z : Z) : float64 := SpecFloat.binary_normalize 53 1024 z 0 false.

(** The double that the decimal [q] denotes: the one nearest to it
    ([0.2] is [float_of_Q (2 # 10)]). *)
Definition float_of_Q (q : Q) : float64 :=
  SpecFloat.SFdiv 53 1024 (float_of_Z (Qnum q)) (float_of_Z (Z.pos (Qden q))).

(** [x - y] and [x * y] on doubles *)
Definition float_sub (x y : float64) : float64 := SpecFloat.SFsub 53 1024 x y.

Definition float_mul (x y : float64) : float64 := SpecFloat.SFmul 53 1024 x y.

(** [int(x)]: truncation toward zero.  (On an infinity or a NaN [int]
    raises; the service calls it on the product of a length, which is
    below 2^63, and one minus the test size, which is finite for every
    test size between 0 and 1, and the properties below that read a
    split position assume such a test size.) *)
Definition py_int (x : float64) : Z :=
  match x with
  | SpecFloat.S754_finite s m e =>
      let v := Z.shiftl (Z.pos m) e in
      if s then (- v)%Z else v
  | _ => 0%Z
  end.

(** A non-negative float or [float('inf')] (an RMSE or a MAPE). *)
Inductive xfloat : Type :=
| Finite (q : Q)
| Inf.

(** [a < b] *)
Definition xlt (a b : xfloat) : bool :=
  match a, b with
  | Finite x, Finite y => Qlt_bool x y
  | Finite _, Inf => true
  | Inf, _ => false
  end.

(** The bound [k] of a slice, as Python normalises it for a sequence of
    length [len]: a negative [k] counts from the end, and the result is
    clipped to [0 .. len]. *)
Definition slice_bound (len : nat) (k : Z) : nat :=
  if (k <? 0)%Z then Z.to_nat (Z.of_nat len + k) else Nat.min (Z.to_nat k) len.

(** [l[:k]] *)
Definition slice_to {A} (k : Z) (l : list A) : list A :=
  take (slice_bound (length l) k) l.

(** [l[k:]] *)
Definition slice_from {A} (k : Z) (l : list A) : list A :=
  drop (slice_bound (length l) k) l.

(** [l[i]] and [l[i] = v] on a numpy array, [0 <= i] *)
Definition np_get {A} (l : list A) (i : nat) : result A :=
  match l !! i with
  | Some x => Ok x
  | None => Raise IndexError
  end.

Definition np_set {A} (l : list A) (i : nat) (v : A) : result (list A) :=
  if decide (i < length l) then Ok (<[i:=v]> l) else Raise IndexError.

(** [l[-1]] *)
Definition py_last {A} (l : list A) : result A :=
  match last l with
  | Some x => Ok x
  | None => Raise IndexError
  end.

(** [l[0]] *)
Definition py_first {A} (l : list A) : result A :=
  match l with
  | x :: _ => Ok x
  | [] => Raise IndexError
  end.

(** [for x in xs: st = body st x], stopping at the first exception *)
Fixpoint for_each {S A} (body : S -> A -> result S) (xs : list A) (st : S) : result S :=
  match xs with
  | [] => Ok st
  | x :: xs' =>
      match body st x with
      | Ok st' => for_each body xs' st'
      | Raise e => Raise e
      end
  end.

(** ** The pandas operations the service uses

    A frame is stored by column; the row labels of a frame loaded from the
    price series are the positions [0, 1, ...] of the (strictly increasing)
    timestamps. *)

Definition cell : Type := option Q.

Record DataFrame : Type := {
  index : list nat;
  columns : list (string * list cell)
}.

Record Series : Type := {
  s_index : list nat;
  s_values : list cell
}.

(** The frame [load_data] returns: one column, [Close], without NaN. *)
Definition frame_of_close (close : list Q) : DataFrame :=
  {| index := seq 0 (length close); columns := [("Close"%string, Some <$> close)] |}.

Definition len (df : DataFrame) : nat := length (index df).

Definition column_names (df : DataFrame) : list string := fst <$> columns df.

Fixpoint lookup_column (name : string) (cols : list (string * list cell)) : list cell :=
  match cols with
  | [] => []
  | (n, v) :: cs => if String.eqb n name then v else lookup_column name cs
  end.

(** [df[name]] (the column is present wherever the service reads one) *)
Definition getitem (name : string) (df : DataFrame) : list cell :=
  lookup_column name (columns df).

Fixpoint assign_column (name : string) (v : list cell) (cols : list (string * list cell))
  : list (string * list cell) :=
  match cols with
  | [] => [(name, v)]
  | (n, w) :: cs =>
      if String.eqb n name then (n, v) :: cs else (n, w) :: assign_column name v cs
  end.

(** [df[name] = v] *)
Definition setitem (name : string) (v : list cell) (df : DataFrame) : DataFrame :=
  {| index := index df; columns := assign_column name v (columns df) |}.

(** [col.shift(k)] *)
Definition shift (k : Z) (col : list cell) : list cell :=
  let n := length col in
  if (0 <=? k)%Z then take n (replicate (Z.to_nat k) None ++ col)
  else drop (Z.to_nat (- k)) col ++ replicate (Nat.min (Z.to_nat (- k)) n) None.

Definition is_number (c : option cell) : bool :=
  match c with
  | Some (Some _) => true
  | _ => false
  end.

Definition row_complete (df : DataFrame) (p : nat) : bool :=
  forallb (fun c : string * list cell => is_number (c.2 !! p)) (columns df).

(** The entries of [l] at positions [ps], in that order. *)
Definition select {A} `{Inhabited A} (ps : list nat) (l : list A) : list A :=
  (fun p => l !!! p) <$> ps.

(** The rows at positions [ps], in that order. *)
Definition take_rows (ps : list nat) (df : DataFrame) : DataFrame :=
  {| index := select ps (index df);
     columns := (fun c : string * list cell => (c.1, select ps c.2)) <$> columns df |}.

(** [df.dropna()] *)
Definition dropna (df : DataFrame) : DataFrame :=
  take_rows (List.filter (row_complete df) (seq 0 (len df))) df.

Definition name_in (names : list string) (n : string) : bool :=
  existsb (String.eqb n) names.

(** [df.drop(names, axis=1)] *)
Definition drop_columns (names : list string) (df : DataFrame) : DataFrame :=
  {| index := index df;
     columns := List.filter (fun c : string * list cell => negb (name_in names c.1)) (columns df) |}.

(** [df.iloc[:k]] and [df.iloc[k:]] *)
Definition iloc_to (k : Z) (df : DataFrame) : DataFrame :=
  {| index := slice_to k (index df);
     columns := (fun c : string * list cell => (c.1, slice_to k c.2)) <$> columns df |}.

Definition iloc_from (k : Z) (df : DataFrame) : DataFrame :=
  {| index := slice_from k (index df);
     columns := (fun c : string * list cell => (c.1, slice_from k c.2)) <$> columns df |}.

Definition series_of (name : string) (df : DataFrame) : Series :=
  {| s_index := index df; s_values := getitem name df |}.

Definition series_iloc_to (k : Z) (s : Series) : Series :=
  {| s_index := slice_to k (s_index s); s_values := slice_to k (s_values s) |}.

Definition series_iloc_from (k : Z) (s : Series) : Series :=
  {| s_index := slice_from k (s_index s); s_values := slice_from k (s_values s) |}.

(** The row at position [p], one cell per column. *)
Definition row_at (df : DataFrame) (p : nat) : list cell :=
  (fun c : string * list cell => c.2 !!! p) <$> columns df.

(** [df.values] *)
Definition values (df : DataFrame) : list (list cell) :=
  row_at df <$> seq 0 (len df).

(** [str(i)] for a non-negative integer *)
Definition py_str (i : nat) : string := NilEmpty.string_of_uint (Nat.to_uint i).

(** The name [f'lag_{i}'] *)
Definition lag_name (i : nat) : string := "lag_" +:+ py_str i.

(** ** Fitted models

    A fitted scikit-learn regressor predicts one value from one feature
    row; a fitted statsmodels ARIMA forecasts a number of steps at once.
    Either call may raise. *)

Inductive sklearn_class : Type :=
| RandomForestRegressor
| Ridge
| LinearRegression.

Inductive Model : Type :=
| Sklearn (cls : sklearn_class) (predict : list cell -> result Q)
| ARIMAResultsWrapper (forecast : Z -> result (list Q)).

(** [type(model).__name__] *)
Definition type_name (m : Model) : string :=
  match m with
  | Sklearn RandomForestRegressor _ => "RandomForestRegressor"
  | Sklearn Ridge _ => "Ridge"
  | Sklearn LinearRegression _ => "LinearRegression"
  | ARIMAResultsWrapper _ => "ARIMAResultsWrapper"
  end.

(** [model.predict([features])[0]] *)
Definition model_predict (m : Model) (features : list cell) : result Q :=
  match m with
  | Sklearn _ predict => predict features
  | ARIMAResultsWrapper _ => Raise LibraryError
  end.

(** [model.forecast(steps=days)] followed by [.tolist()] *)
Definition model_forecast (m : Model) (days : Z) : result (list Q) :=
  match m with
  | Sklearn _ _ => Raise AttributeError
  | ARIMAResultsWrapper forecast => forecast days
  end.

(** What a training function returns: the source has functions returning
    three values and one returning four. *)
Inductive py_tuple : Type :=
| Tuple3 (m : option Model) (rmse mape : xfloat)
| Tuple4 (m : option Model) (rmse mape : xfloat) (label : string).

(** [model, rmse, mape = t] *)
Definition unpack3 (t : py_tuple) : result (option Model * xfloat * xfloat) :=
  match t with
  | Tuple3 m rmse mape => Ok (m, rmse, mape)
  | Tuple4 _ _ _ _ => Raise ValueError
  end.

(** ** model_trainer.py *)

Module ModelTrainer.

(** The four tables [prepare_ml_data] returns. *)
Record ml_data : Type := {
  X_train : DataFrame;
  X_test : DataFrame;
  y_train : Series;
  y_test : Series
}.

(** The outcome of the library calls of one training function: fitting on
    the train part, predicting the test part, and computing
    [np.sqrt(mean_squared_error ...)] and
    [mean_absolute_percentage_error ...].  The metrics validate their
    input, so an RMSE is a non-negative float or infinite, never NaN. *)
Record learners : Type := {
  random_forest : ml_data -> result ((list cell -> result Q) * xfloat * xfloat);
  ridge : ml_data -> result ((list cell -> result Q) * xfloat * xfloat);
  arima : list Q -> list Q -> result ((Z -> result (list Q)) * xfloat * xfloat);
  linear_regression : ml_data -> result ((list cell -> result Q) * xfloat * xfloat)
}.

(** [self]: the frame's [Close] column and [test_size] (default 0.2),
    the decimal the caller wrote; the code computes with the double
    nearest to it. *)
Record t : Type := {
  df : list Q;
  test_size : Q
}.

Definition default_test_size : Q := 2 # 10.

(** [int(n * (1 - self.test_size))], in double arithmetic as the code
    computes it *)
Definition split_idx (self : t) (n : nat) : Z :=
  py_int (float_mul (float_of_Z (Z.of_nat n))
            (float_sub (float_of_Z 1) (float_of_Q (test_size self)))).

(** [for i in range(1, 31): df_processed[f'lag_{i}'] =
    df_processed['Close'].shift(i)] on a copy of [self.df] *)
Definition with_lags (self : t) : DataFrame :=
  foldl (fun d i => setitem (lag_name i) (shift (Z.of_nat i) (getitem "Close" d)) d)
        (frame_of_close (df self)) (seq 1 30).

(** [df_processed['target'] = df_processed['Close'].shift(-1)] *)
Definition with_target (self : t) : DataFrame :=
  let d := with_lags self in
  setitem "target" (shift (-1) (getitem "Close" d)) d.

(** [df_processed = df_processed.dropna()] *)
Definition df_processed (self : t) : DataFrame := dropna (with_target self).

(** [X = df_processed.drop(['target', 'Close'], axis=1)] *)
Definition features (self : t) : DataFrame :=
  drop_columns ["target"; "Close"]%string (df_processed self).

(** [y = df_processed['target']] *)
Definition target (self : t) : Series :=
  series_of "target" (df_processed self).

Definition prepare_ml_data (self : t) : ml_data :=
  let X := features self in
  let y := target self in
  let k := split_idx self (len X) in
  {| X_train := iloc_to k X;
     X_test := iloc_from k X;
     y_train := series_iloc_to k y;
     y_test := series_iloc_from k y |}.

Definition train_random_forest (lib : learners) (self : t) : result py_tuple :=
  try_except
    (let d := prepare_ml_data self in
     '(predict, rmse, mape) ← random_forest lib d;
     Ok (Tuple3 (Some (Sklearn RandomForestRegressor predict)) rmse mape))
    (fun _ => Ok (Tuple3 None Inf Inf)).

Definition train_ridge_regression (lib : learners) (self : t) : result py_tuple :=
  try_except
    (let d := prepare_ml_data self in
     '(predict, rmse, mape) ← ridge lib d;
     Ok (Tuple3 (Some (Sklearn Ridge predict)) rmse mape))
    (fun _ => Ok (Tuple3 None Inf Inf)).

(** The split of the raw close series in [train_arima]. *)
Definition arima_split (self : t) : list Q * list Q :=
  let data := df self in
  let k := split_idx self (length data) in
  (slice_to k data, slice_from k data).

Definition train_arima (lib : learners) (self : t) : result py_tuple :=
  try_except
    (let '(train_data, test_data) := arima_split self in
     '(forecast, rmse, mape) ← arima lib train_data test_data;
     Ok (Tuple3 (Some (ARIMAResultsWrapper forecast)) rmse mape))
    (fun _ => Ok (Tuple3 None Inf Inf)).

Definition train_simple_lstm (lib : learners) (self : t) : result py_tuple :=
  try_except
    (let d := prepare_ml_data self in
     '(predict, rmse, mape) ← linear_regression lib d;
     Ok (Tuple4 (Some (Sklearn LinearRegression predict)) rmse mape
           "Linear Regression (LSTM placeholder)"))
    (fun _ => Ok (Tuple4 None Inf Inf "Failed")).

Definition models_to_train (lib : learners) (self : t) : list (string * result py_tuple) :=
  [ ("Random Forest"%string, train_random_forest lib self);
    ("Ridge Regression"%string, train_ridge_regression lib self);
    ("ARIMA"%string, train_arima lib self);
    ("LSTM"%string, train_simple_lstm lib self) ].

(** The variables of the selection loop, with [self.results]. *)
Record selection : Type := {
  best_model : option Model;
  best_rmse : xfloat;
  best_model_name : string;
  results : gmap string (xfloat * xfloat)
}.

Definition selection_init : selection :=
  {| best_model := None; best_rmse := Inf; best_model_name := ""; results := ∅ |}.

(** One iteration of [for model_name, train_func in models_to_train]; the
    second component is what [train_func()] does. *)
Definition select_step (st : selection) (cand : string * result py_tuple) : selection :=
  let '(model_name, call) := cand in
  match t ← call; unpack3 t with
  | Ok (m, rmse, mape) =>
      let st' :=
        if bool_decide (m <> None) && xlt rmse (best_rmse st)
        then {| best_model := m; best_rmse := rmse; best_model_name := model_name;
                results := results st |}
        else st in
      {| best_model := best_model st'; best_rmse := best_rmse st';
         best_model_name := best_model_name st';
         results := <[model_name := (rmse, mape)]> (results st') |}
  | Raise _ => st
  end.

Definition select_loop (cands : list (string * result py_tuple)) : selection :=
  foldl select_step selection_init cands.

(** The selection over an arbitrary candidate list, with the fallback to
    the persistence model. *)
Definition select_best (cands : list (string * result py_tuple))
  : option Model * xfloat * string :=
  let st := select_loop cands in
  match best_model st with
  | None => (None, Inf, "Persistence"%string)
  | Some m => (Some m, best_rmse st, best_model_name st)
  end.

Definition train_and_select_best (lib : learners) (self : t)
  : option Model * xfloat * string :=
  select_best (models_to_train lib self).

End ModelTrainer.

(** ** forecaster.py *)

(** [s.lower()] on ASCII letters *)
Definition lower_ascii (c : ascii) : ascii :=
  let n := nat_of_ascii c in
  if (65 <=? n) && (n <=? 90) then ascii_of_nat (n + 32) else c.

Fixpoint lower (s : string) : string :=
  match s with
  | EmptyString => EmptyString
  | String c s' => String (lower_ascii c) (lower s')
  end.

(** [sub in s] *)
Fixpoint contains (sub s : string) : bool :=
  String.prefix sub s ||
  match s with
  | EmptyString => false
  | String _ s' => contains sub s'
  end.

Module Forecaster.

Record t : Type := {
  model : option Model;
  historical_data : list Q;
  current_price : Q
}.

(** [__init__]: [historical_data['Close'].iloc[-1]] needs one observation. *)
Definition init (m : option Model) (historical_data : list Q) : result t :=
  p ← py_last historical_data;
  Ok {| model := m; historical_data := historical_data; current_price := p |}.

(** [for i in range(1, 31): df_processed[f'lag_{i}'] =
    df_processed['Close'].shift(i)] on a copy of [self.historical_data] *)
Definition with_lags (self : t) : DataFrame :=
  foldl (fun d i => setitem (lag_name i) (shift (Z.of_nat i) (getitem "Close" d)) d)
        (frame_of_close (historical_data self)) (seq 1 30).

Definition _get_last_features (self : t) : result (list cell) :=
  let last_row := drop_columns ["Close"%string] (iloc_from (-1) (with_lags self)) in
  py_first (values last_row).

(** [range(29, 0, -1)] *)
Definition shift_range : list nat := rev (seq 1 29).

Definition _update_features (current_features : list cell) (new_price : Q)
  : result (list cell) :=
  new_features ←
    for_each (fun new_features i =>
                v ← np_get new_features (i - 1);
                np_set new_features i v)
             shift_range current_features;
  np_set new_features 0 (Some new_price).

(** [self.model.predict([current_features])[0]] *)
Definition predict_next (self : t) (current_features : list cell) : result Q :=
  match model self with
  | Some m => model_predict m current_features
  | None => Raise AttributeError
  end.

(** The body of the loop of [_recursive_forecast_ml], on the pair
    [(forecast, current_features)]. *)
Definition forecast_step (self : t) (st : list Q * list cell) : result (list Q * list cell) :=
  let '(forecast, current_features) := st in
  next_price ← predict_next self current_features;
  current_features' ← _update_features current_features next_price;
  Ok (forecast ++ [next_price], current_features').

(** The [try] block of [_recursive_forecast_ml] after [n] iterations. *)
Definition recursive_loop (self : t) (n : nat) : result (list Q * list cell) :=
  current_features ← _get_last_features self;
  for_each (fun st (_ : nat) => forecast_step self st) (seq 0 n) ([], current_features).

Definition _recursive_forecast_ml (self : t) (days : Z) : list Q :=
  match recursive_loop self (Z.to_nat days) with
  | Ok st => st.1
  | Raise _ => replicate (Z.to_nat days) (current_price self)
  end.

(** [forecast].  [[self.current_price] * days] is [replicate]: the list
    is empty for a negative [days].  (Python refuses a repetition count
    above [sys.maxsize = 2^63 - 1] with [OverflowError], in the [try]
    block and again in its handler, and a list too long for the memory
    with [MemoryError]; the property below that excludes every exception
    bounds [days].) *)
Definition forecast (self : t) (days : Z) : result (list Q * Q) :=
  let persistence := (replicate (Z.to_nat days) (current_price self), current_price self) in
  try_except
    (match model self with
     | None => Ok persistence
     | Some m =>
         let model_type := lower (type_name m) in
         if contains "arima" model_type || contains "holt" model_type then
           f ← model_forecast m days;
           Ok (f, current_price self)
         else if contains "forest" model_type || contains "ridge" model_type
                 || contains "regression" model_type then
           Ok (_recursive_forecast_ml self days, current_price self)
         else Ok persistence
     end)
    (fun _ => Ok persistence).

End Forecaster.

(** ** strategist.py *)

#[global] Instance Q_inhabited : Inhabited Q := populate 0%Q.

(** [range(lo, hi)] for [0 <= lo]; [hi] is a difference of lengths that
    Python may make negative, where the range is empty as it is here. *)
Definition py_range (lo hi : nat) : list nat := seq lo (hi - lo).

(** [l[a:b]] for [0 <= a <= b] *)
Definition py_slice {A} (a b : nat) (l : list A) : list A := take (b - a) (drop a l).

(** The strings ['buy'], ['sell'] and ['hold']. *)
Inductive action : Type :=
| buy
| sell
| hold.

Definition action_eqb (a b : action) : bool :=
  match a, b with
  | buy, buy | sell, sell | hold, hold => true
  | _, _ => false
  end.

(** A turning point [(day, price)] and a signal [(action, day, price)]. *)
Definition point : Type := nat * Q.
Definition signal : Type := action * nat * Q.

(** One line of the transaction log. *)
Inductive transaction : Type :=
| Purchase (day : nat) (price shares_bought : Q)
| Sale (day : nat) (price cash : Q)
| FinalSale (day : nat) (price cash : Q)
| HoldPurchase (price : Q)
| HoldSale (day : nat) (price : Q).

Record profit_info : Type := {
  initial_investment : Q;
  final_value : Q;
  profit : Q;
  profit_percent : Q;
  transactions : list transaction;
  total_profit : Q
}.

(** The two shapes [calculate_profit] returns. *)
Inductive profit_return : Type :=
| NoSignals
| Computed (profit : Q) (info : profit_info).

(** The texts [generate_recommendations] can return. *)
Inductive recommendation : Type :=
| Strategy (buys sells : list point) (plan : list signal)
| HoldPosition
| BuyAndHold.

(** [(day, price) in points] *)
Definition point_in (pt : point) (points : list point) : bool :=
  existsb (fun q : point => (q.1 =? pt.1) && Qeq_bool q.2 pt.2) points.

Fixpoint insert_by_day (pt : point) (l : list point) : list point :=
  match l with
  | [] => [pt]
  | q :: l' => if pt.1 <? q.1 then pt :: q :: l' else q :: insert_by_day pt l'
  end.

(** [sorted(points, key=lambda x: x[0])]: stable *)
Definition sorted_by_day (points : list point) : list point :=
  foldl (fun acc pt => insert_by_day pt acc) [] points.

Module InvestmentStrategist.

Record t : Type := {
  forecast_prices : list Q;
  investment_amount : Q
}.

Definition days (self : t) : nat := length (forecast_prices self).

(** One iteration of the loop of [find_local_extrema]. *)
Definition extrema_step (prices : list Q) (window : nat)
    (st : list point * list point) (i : nat) : list point * list point :=
  let '(buy_points, sell_points) := st in
  let p := prices !!! i in
  let before := py_slice (i - window) i prices in
  let after := py_slice (i + 1) (i + window + 1) prices in
  let buy_points' :=
    if forallb (Qle_bool p) before && forallb (Qle_bool p) after
    then buy_points ++ [(i, p)] else buy_points in
  let sell_points' :=
    if forallb (fun q => Qle_bool q p) before && forallb (fun q => Qle_bool q p) after
    then sell_points ++ [(i, p)] else sell_points in
  (buy_points', sell_points').

Definition find_local_extrema (self : t) (window : nat) : list point * list point :=
  foldl (extrema_step (forecast_prices self) window) ([], [])
        (py_range window (days self - window)).

(** One iteration of the loop of [generate_trading_signals], on
    [(signals, current_action)]. *)
Definition signal_step (buy_points sell_points : list point)
    (st : list signal * action) (pt : point) : list signal * action :=
  let '(signals, current_action) := st in
  if point_in pt buy_points && negb (action_eqb current_action buy)
  then (signals ++ [(buy, pt.1, pt.2)], buy)
  else if point_in pt sell_points && action_eqb current_action buy
  then (signals ++ [(sell, pt.1, pt.2)], sell)
  else st.

Definition generate_trading_signals (buy_points sell_points : list point) : list signal :=
  let all_points := sorted_by_day (buy_points ++ sell_points) in
  (foldl (signal_step buy_points sell_points) ([], hold) all_points).1.

(** The variables of the simulation. *)
Record portfolio : Type := {
  cash : Q;
  shares : Q;
  log : list transaction
}.

Definition portfolio_init (self : t) : portfolio :=
  {| cash := investment_amount self; shares := 0; log := [] |}.

(** One iteration of the loop of [calculate_profit]. *)
Definition trade (st : portfolio) (s : signal) : result portfolio :=
  let '(a, day, price) := s in
  if action_eqb a buy && Qlt_bool 0 (cash st) then
    shares_bought ← py_div (cash st) price;
    Ok {| cash := 0; shares := shares st + shares_bought;
          log := log st ++ [Purchase day price shares_bought] |}
  else if action_eqb a sell && Qlt_bool 0 (shares st) then
    let c := (shares st * price)%Q in
    Ok {| cash := c; shares := 0; log := log st ++ [Sale day price c] |}
  else Ok st.

(** The final valuation. *)
Definition liquidate (self : t) (st : portfolio) : result portfolio :=
  if Qlt_bool 0 (shares st) then
    final_price ← py_last (forecast_prices self);
    let c := (shares st * final_price)%Q in
    Ok {| cash := c; shares := shares st;
          log := log st ++ [FinalSale (days self) final_price c] |}
  else Ok st.

Definition calculate_profit (self : t) (trading_signals : list signal) : result profit_return :=
  match trading_signals with
  | [] => Ok NoSignals
  | _ =>
      st ← for_each trade trading_signals (portfolio_init self);
      st' ← liquidate self st;
      let profit := (cash st' - investment_amount self)%Q in
      ratio ← py_div profit (investment_amount self);
      Ok (Computed profit
            {| initial_investment := investment_amount self;
               final_value := cash st';
               profit := profit;
               profit_percent := ratio * 100;
               transactions := log st';
               total_profit := profit |})
  end.

Definition _format_recommendations (signals : list signal)
    (buy_points sell_points : list point) : recommendation :=
  match signals with
  | [] => HoldPosition
  | _ => Strategy (take 3 buy_points) (take 3 sell_points) (take 5 signals)
  end.

Definition _generate_fallback_recommendations (self : t)
  : result (recommendation * profit_info) :=
  initial_price ← py_first (forecast_prices self);
  final_price ← py_last (forecast_prices self);
  shares ← py_div (investment_amount self) initial_price;
  let final_value := (shares * final_price)%Q in
  let profit := (final_value - investment_amount self)%Q in
  ratio ← py_div profit (investment_amount self);
  Ok (BuyAndHold,
      {| initial_investment := investment_amount self;
         final_value := final_value;
         profit := profit;
         profit_percent := ratio * 100;
         transactions := [HoldPurchase initial_price; HoldSale (days self) final_price];
         total_profit := profit |}).

Definition generate_recommendations (self : t) : result (recommendation * profit_info) :=
  try_except
    (let '(buy_points, sell_points) := find_local_extrema self 3 in
     match buy_points, sell_points with
     | [], [] => _generate_fallback_recommendations self
     | _, _ =>
         let signals := generate_trading_signals buy_points sell_points in
         match signals with
         | [] => _generate_fallback_recommendations self
         | _ =>
             r ← calculate_profit self signals;
             match r with
             | Computed _ info =>
                 Ok (_format_recommendations signals buy_points sell_points, info)
             | NoSignals => Raise TypeError
             end
         end
     end)
    (fun _ => _generate_fallback_recommendations self).

End InvestmentStrategist.

(** ** data_loader.py *)

Module DataLoader.

(** What stops [load_data]: the download raised, the frame is empty, it
    has no [Close] column ([KeyError]), or too few rows are left. *)
Inductive failure : Type :=
| DownloadFailed
| NoData
| NoCloseColumn
| InsufficientData (n : nat).

(** [df.empty]: no row or no column *)
Definition empty (df : DataFrame) : bool :=
  (len df =? 0) || (length (columns df) =? 0).

(** [df[['Close']].copy()] (the column names of a downloaded frame are
    distinct) *)
Definition close_only (df : DataFrame) : failure + DataFrame :=
  if name_in (column_names df) "Close"
  then inr {| index := index df; columns := [("Close"%string, getitem "Close" df)] |}
  else inl NoCloseColumn.

(** The [try] block of [load_data]; [history] is what
    [yf.Ticker(ticker).history(start, end)] gives, [None] when it
    raises. *)
Definition load_body (history : option DataFrame) : failure + DataFrame :=
  match history with
  | None => inl DownloadFailed
  | Some df =>
      if empty df then inl NoData
      else match close_only df with
           | inl e => inl e
           | inr df1 =>
               let df2 := dropna df1 in
               if len df2 <? 100 then inl (InsufficientData (len df2)) else inr df2
           end
  end.

(** [load_data]: the [except] clause logs the failure and returns
    [None]. *)
Definition load_data (history : option DataFrame) : option DataFrame :=
  match load_body history with
  | inr df => Some df
  | inl _ => None
  end.

End DataLoader.

(** ** Vocabulary of the properties *)

(** The price [i] steps before time [t], NaN when the series does not
    reach that far back. *)
Definition lag_cell (close : list Q) (t i : nat) : cell :=
  if i <=? t then close !! (t - i) else None.

(** The vector [lag_1 .. lag_30] at time [t]. *)
Definition lag_row (close : list Q) (t : nat) : list cell :=
  lag_cell close t <$> seq 1 30.

(** The feature layout in the words of the specification: the lags, then
    the rolling mean, the rolling standard deviation and the fractional
    price change (the column names are those of
    [DataLoader.prepare_features]). *)
Definition spec_feature_columns : list string :=
  (lag_name <$> seq 1 30) ++ ["rolling_mean_7"; "rolling_std_7"; "price_change"]%string.

(** What the selection loop reads from a candidate: its name, model and
    RMSE, when its training function returned three values with a
    model. *)
Definition scored (c : string * result py_tuple) : option (string * Model * xfloat) :=
  match c.2 with
  | Ok (Tuple3 (Some m) rmse _) => Some (c.1, m, rmse)
  | _ => None
  end.

(** The loop variables after the candidates [cands]: no model and RMSE
    infinite when no scored candidate has a finite RMSE; otherwise the
    first scored candidate whose RMSE no scored candidate beats. *)
Definition selection_invariant (cands : list (string * result py_tuple))
    (st : ModelTrainer.selection) : Prop :=
  match ModelTrainer.best_model st with
  | None =>
      ModelTrainer.best_rmse st = Inf
      /\ forall j c n m r, cands !! j = Some c -> scored c = Some (n, m, r) ->
           xlt r Inf = false
  | Some m =>
      exists i c,
        cands !! i = Some c
        /\ scored c = Some (ModelTrainer.best_model_name st, m, ModelTrainer.best_rmse st)
        /\ forall j c' n' m' r', cands !! j = Some c' -> scored c' = Some (n', m', r') ->
             xlt r' (ModelTrainer.best_rmse st) = false
             /\ (j < i -> xlt (ModelTrainer.best_rmse st) r' = true)
  end.

(** The action of a signal. *)
Definition signal_action (s : signal) : action := s.1.1.

(** The price of a signal. *)
Definition signal_price (s : signal) : Q := s.2.

(** The signals alternate, starting with a buy: the signal at an even
    position is a buy, the one at an odd position a sell. *)
Definition alternates (signals : list signal) : Prop :=
  forall i s, signals !! i = Some s ->
    signal_action s = (if Nat.even i then buy else sell).

(** What the loop of [generate_trading_signals] keeps true of
    [(signals, current_action)]: the signals alternate, and
    [current_action] is ['buy'] exactly after an odd number of them. *)
Definition signals_invariant (st : list signal * action) : Prop :=
  alternates st.1 /\ action_eqb st.2 buy = negb (Nat.even (length st.1)).

(** The portfolio is all cash or all shares. *)
Definition fully_cash_or_invested (st : InvestmentStrategist.portfolio) : Prop :=
  (0 < InvestmentStrategist.cash st /\ InvestmentStrategist.shares st == 0)%Q
  \/ (InvestmentStrategist.cash st == 0 /\ 0 < InvestmentStrategist.shares st)%Q.

(** The error pair recorded for a fit: its RMSE and MAPE, or infinite
    both when the fit failed. *)
Definition fit_errors {A} (r : result (A * xfloat * xfloat)) : xfloat * xfloat :=
  match r with
  | Ok (_, rmse, mape) => (rmse, mape)
  | Raise _ => (Inf, Inf)
  end.

(** The feature vector after the predictions [path], made from the seed
    vector [seed]: the predictions, newest first, then the seed, cut to
    thirty entries. *)
Definition rolled (seed : list cell) (path : list Q) : list cell :=
  take 30 ((Some <$> rev path) ++ seed).

(** The two tests of the loop of [find_local_extrema] at day [i]. *)
Definition lowest_within (prices : list Q) (window i : nat) : bool :=
  forallb (Qle_bool (prices !!! i)) (py_slice (i - window) i prices)
  && forallb (Qle_bool (prices !!! i)) (py_slice (i + 1) (i + window + 1) prices).

Definition highest_within (prices : list Q) (window i : nat) : bool :=
  forallb (fun q => Qle_bool q (prices !!! i)) (py_slice (i - window) i prices)
  && forallb (fun q => Qle_bool q (prices !!! i)) (py_slice (i + 1) (i + window + 1) prices).

(** Day [i] is a local minimum of the path for [window]: it has [window]
    days on either side, and no price at most [window] days away from it
    is lower. *)
Definition local_min (prices : list Q) (window i : nat) : Prop :=
  window <= i /\ i + window < length prices
  /\ forall j q, i - window <= j <= i + window -> prices !! j = Some q ->
       (prices !!! i <= q)%Q.

(** Day [i] is a local maximum of the path for [window]. *)
Definition local_max (prices : list Q) (window i : nat) : Prop :=
  window <= i /\ i + window < length prices
  /\ forall j q, i - window <= j <= i + window -> prices !! j = Some q ->
       (q <= prices !!! i)%Q.

(** The strategist on the path with every price negated. *)
Definition negated (self : InvestmentStrategist.t) : InvestmentStrategist.t :=
  {| InvestmentStrategist.forecast_prices :=
       Qopp <$> InvestmentStrategist.forecast_prices self;
     InvestmentStrategist.investment_amount := InvestmentStrategist.investment_amount self |}.

(** The points [pts] with every price negated. *)
Definition mirror (pts : list point) : list point :=
  (fun pt : point => (pt.1, (- pt.2)%Q)) <$> pts.

(** Every price of the path is below, or above, the next one. *)
Definition strictly_increasing (prices : list Q) : Prop :=
  forall i p q, prices !! i = Some p -> prices !! (S i) = Some q -> (p < q)%Q.

Definition strictly_decreasing (prices : list Q) : Prop :=
  forall i p q, prices !! i = Some p -> prices !! (S i) = Some q -> (q < p)%Q.

(** The day of a signal. *)
Definition signal_day (s : signal) : nat := s.1.2.

(** The positions of a column that hold a number. *)
Definition numbers_at (col : list cell) (n : nat) : list nat :=
  List.filter (fun p => is_number (col !! p)) (seq 0 n).

(** The strategist on a persistence forecast: the price [c] repeated [n]
    times. *)
Definition flat (n : nat) (c amount : Q) : InvestmentStrategist.t :=
  {| InvestmentStrategist.forecast_prices := replicate n c;
     InvestmentStrategist.investment_amount := amount |}.

(** The days [3 .. n - 4] of a path of [n] days, each at the price [c]. *)
Definition inner_days (n : nat) (c : Q) : list point :=
  (fun i => (i, c)) <$> seq 3 (n - 6).

(** A purchase and a sale at each of the points [pts], in turn. *)
Definition round_trips (pts : list point) : list signal :=
  pts ≫= (fun pt => [(buy, pt.1, pt.2); (sell, pt.1, pt.2)]).

(** Every point of [pts] twice. *)
Definition twice (pts : list point) : list point :=
  pts ≫= (fun pt => [pt; pt]).



(** ** Sample inputs *)

(** Forty closing prices, 100, 101, ..., 139. *)
Definition sample_close : list Q := (fun i => inject_Z (Z.of_nat i)) <$> seq 100 40.

Definition sample_trainer : ModelTrainer.t :=
  {| ModelTrainer.df := sample_close; ModelTrainer.test_size := ModelTrainer.default_test_size |}.

(** Library outcomes in which every fit succeeds and the linear regression
    behind the [LSTM] entry has the lowest error: RMSE 3 for the random
    forest, 2 for the ridge regression, 4 for ARIMA and 1 for the linear
    regression. *)
Definition lowest_error_linear : ModelTrainer.learners :=
  {| ModelTrainer.random_forest := fun _ => Ok (fun _ => Ok 0%Q, Finite 3, Finite 3);
     ModelTrainer.ridge := fun _ => Ok (fun _ => Ok 0%Q, Finite 2, Finite 2);
     ModelTrainer.arima := fun _ _ => Ok (fun _ => Ok [], Finite 4, Finite 4);
     ModelTrainer.linear_regression := fun _ => Ok (fun _ => Ok 0%Q, Finite 1, Finite 1) |}.

(** The forecaster on the sample series; 139 is its last close. *)
Definition sample_forecaster (m : option Model) : Forecaster.t :=
  {| Forecaster.model := m;
     Forecaster.historical_data := sample_close;
     Forecaster.current_price := 139 |}.

(** A fitted ridge regression that predicts 5 from a vector whose [lag_1]
    is 138 and fails on any other vector. *)
Definition predict_once (features : list cell) : result Q :=
  match features with
  | Some q :: _ => if Qeq_bool q 138 then Ok 5%Q else Raise LibraryError
  | _ => Raise LibraryError
  end.

Definition failing_forecaster : Forecaster.t :=
  sample_forecaster (Some (Sklearn Ridge predict_once)).

(** The forecast of the worked scenario, with 1000 to invest. *)
Definition scenario : InvestmentStrategist.t :=
  {| InvestmentStrategist.forecast_prices := [100; 90; 80; 90; 100; 90; 80]%Q;
     InvestmentStrategist.investment_amount := 1000 |}.




(** An empty forecast path. *)
Definition empty_forecast (amount : Q) : InvestmentStrategist.t :=
  {| InvestmentStrategist.forecast_prices := [];
     InvestmentStrategist.investment_amount := amount |}.

(** A single-point forecast at price zero. *)
Definition zero_forecast (amount : Q) : InvestmentStrategist.t :=
  {| InvestmentStrategist.forecast_prices := [0%Q];
     InvestmentStrategist.investment_amount := amount |}.

(** Library outcomes in which every fit fails. *)
Definition failing_learners : ModelTrainer.learners :=
  {| ModelTrainer.random_forest := fun _ => Raise LibraryError;
     ModelTrainer.ridge := fun _ => Raise LibraryError;
     ModelTrainer.arima := fun _ _ => Raise LibraryError;
     ModelTrainer.linear_regression := fun _ => Raise LibraryError |}.

(** A fitted ridge regression that always predicts 7. *)
Definition constant_forecaster : Forecaster.t :=
  sample_forecaster (Some (Sklearn Ridge (fun _ => Ok 7%Q))).

(** A forecast that rises by one every day, with 100 to invest. *)
Definition rising : InvestmentStrategist.t :=
  {| InvestmentStrategist.forecast_prices := [1; 2; 3; 4; 5; 6; 7; 8]%Q;
     InvestmentStrategist.investment_amount := 100 |}.

(** A downloaded frame of 101 days with two columns, the first [Close]
    missing. *)
Definition sample_history : DataFrame :=
  {| index := seq 0 101;
     columns := [("Open"%string, replicate 101 (Some 1%Q));
                 ("Close"%string, None :: replicate 100 (Some 2%Q))] |}.

(** 121 closing prices, 100 .. 220, which give 90 supervised rows, with
    a test size of 0.3. *)
Definition long_trainer : ModelTrainer.t :=
  {| ModelTrainer.df := (fun i => inject_Z (Z.of_nat i)) <$> seq 100 121;
     ModelTrainer.test_size := 3 # 10 |}.

(** A test size of 0.9 (no series). *)
Definition mostly_test : ModelTrainer.t :=
  {| ModelTrainer.df := []; ModelTrainer.test_size := 9 # 10 |}.


(** * Properties *)

(** ** Arithmetic *)

Lemma Qlt_bool_true (a b : Q) : Qlt_bool a b = true <-> (a < b)%Q.
Proof.
  unfold Qlt_bool. rewrite negb_true_iff. split.
  - intros H. apply Qnot_le_lt. intros Hle. apply Qle_bool_iff in Hle. congruence.
  - intros H. destruct (Qle_bool b a) eqn:E; [|reflexivity].
    apply Qle_bool_iff in E. exfalso. apply (Qlt_not_le _ _ H E).
Qed.

Lemma Qlt_bool_false (a b : Q) : Qlt_bool a b = false <-> ~ (a < b)%Q.
Proof.
  rewrite <- Qlt_bool_true. destruct (Qlt_bool a b); split; congruence.
Qed.

Lemma py_div_positive (a b : Q) : (0 < b)%Q -> py_div a b = Ok (a / b)%Q.
Proof.
  intros Hb. unfold py_div. destruct (Qeq_bool b 0) eqn:E; [|reflexivity].
  apply Qeq_bool_eq in E. rewrite E in Hb. exfalso. apply (Qlt_irrefl 0), Hb.
Qed.

Lemma xlt_irrefl (a : xfloat) : xlt a a = false.
Proof. destruct a as [q|]; [|reflexivity]. apply Qlt_bool_false, Qlt_irrefl. Qed.

(** [a < b] and not [c < b] give [a < c] and not [c < a]. *)
Lemma xlt_below (a b c : xfloat) :
  xlt a b = true -> xlt c b = false -> xlt a c = true /\ xlt c a = false.
Proof.
  destruct a as [x|], b as [y|], c as [z|]; cbn; try discriminate;
    try (intros _ _; split; reflexivity).
  rewrite !Qlt_bool_true, !Qlt_bool_false. intros H1 H2. split; lra.
Qed.

(** ** Slices and frames *)

Section slices.
Context {A : Type}.
Implicit Types l : list A.

Lemma slice_bound_le (n : nat) (k : Z) : slice_bound n k <= n.
Proof. unfold slice_bound. destruct (k <? 0)%Z eqn:E; lia. Qed.

Lemma slice_to_from k l : slice_to k l ++ slice_from k l = l.
Proof. apply take_drop. Qed.

Lemma length_slice_to k l : length (slice_to k l) = slice_bound (length l) k.
Proof.
  unfold slice_to. rewrite length_take. pose proof (slice_bound_le (length l) k). lia.
Qed.

Lemma lookup_slice_to k l i x : slice_to k l !! i = Some x -> l !! i = Some x.
Proof. unfold slice_to. rewrite lookup_take_Some. tauto. Qed.

Lemma lookup_slice_from k l i :
  slice_from k l !! i = l !! (length (slice_to k l) + i).
Proof. rewrite length_slice_to. unfold slice_from. apply lookup_drop. Qed.

End slices.

Lemma StronglySorted_seq (a n : nat) : StronglySorted lt (seq a n).
Proof.
  revert a. induction n as [|n IH]; intros a; simpl; constructor; auto.
  apply Forall_forall. intros x Hx. apply elem_of_seq in Hx. lia.
Qed.

Lemma StronglySorted_filter {A} (R : relation A) (f : A -> bool) (l : list A) :
  StronglySorted R l -> StronglySorted R (List.filter f l).
Proof.
  induction 1 as [|x l Hl IH Hx]; simpl; [constructor|].
  destruct (f x); [|assumption].
  constructor; [assumption|].
  rewrite Forall_forall in Hx |- *. intros y Hy.
  apply Hx. apply list_elem_of_In in Hy. apply filter_In in Hy.
  apply list_elem_of_In. tauto.
Qed.

(** Selecting the labels [0 .. n-1] at positions below [n] gives the
    positions back. *)
Lemma select_seq_filter (f : nat -> bool) (n : nat) :
  (fun p => seq 0 n !!! p) <$> List.filter f (seq 0 n) = List.filter f (seq 0 n).
Proof.
  rewrite <- (list_fmap_id (List.filter f (seq 0 n))) at 2.
  apply list_fmap_ext. intros i p Hp.
  assert (In p (List.filter f (seq 0 n))) as Hin
    by (apply list_elem_of_In; eapply list_elem_of_lookup_2; eassumption).
  apply filter_In in Hin as [Hin _]. apply in_seq in Hin.
  rewrite lookup_total_seq_lt; simpl; lia.
Qed.

Lemma index_setitem name v d : index (setitem name v d) = index d.
Proof. reflexivity. Qed.

Lemma index_add_lags (d : DataFrame) (l : list nat) :
  index (foldl (fun d i => setitem (lag_name i) (shift (Z.of_nat i) (getitem "Close" d)) d)
               d l) = index d.
Proof.
  revert d. induction l as [|i l IH]; intros d; simpl; [reflexivity|].
  rewrite IH. reflexivity.
Qed.

Lemma index_dropna (d : DataFrame) (n : nat) :
  index d = seq 0 n ->
  index (dropna d) = List.filter (row_complete d) (seq 0 n).
Proof.
  intros H. unfold dropna, take_rows, len, select; cbn [index].
  rewrite H, length_seq. apply select_seq_filter.
Qed.

Lemma index_with_target (self : ModelTrainer.t) :
  index (ModelTrainer.with_target self) = seq 0 (length (ModelTrainer.df self)).
Proof.
  unfold ModelTrainer.with_target, ModelTrainer.with_lags.
  rewrite index_setitem. rewrite index_add_lags. reflexivity.
Qed.

Lemma index_drop_columns names d : index (drop_columns names d) = index d.
Proof. reflexivity. Qed.

Lemma index_iloc_to k d : index (iloc_to k d) = slice_to k (index d).
Proof. reflexivity. Qed.

Lemma index_iloc_from k d : index (iloc_from k d) = slice_from k (index d).
Proof. reflexivity. Qed.

(** The row labels of the supervised table are the positions of the
    complete rows, in increasing order. *)
Lemma index_features (self : ModelTrainer.t) :
  index (ModelTrainer.features self)
  = List.filter (row_complete (ModelTrainer.with_target self))
                (seq 0 (length (ModelTrainer.df self))).
Proof.
  unfold ModelTrainer.features. rewrite index_drop_columns.
  unfold ModelTrainer.df_processed. apply index_dropna, index_with_target.
Qed.

Lemma index_features_sorted (self : ModelTrainer.t) :
  StronglySorted lt (index (ModelTrainer.features self)).
Proof.
  rewrite index_features. apply StronglySorted_filter, StronglySorted_seq.
Qed.

Lemma index_target (self : ModelTrainer.t) :
  s_index (ModelTrainer.target self) = index (ModelTrainer.features self).
Proof.
  unfold ModelTrainer.target, ModelTrainer.features.
  rewrite index_drop_columns. unfold series_of. reflexivity.
Qed.

(** The four tables, each as a slice at the same position. *)
Lemma prepare_ml_data_eq (self : ModelTrainer.t) :
  let X := ModelTrainer.features self in
  let y := ModelTrainer.target self in
  let k := ModelTrainer.split_idx self (len X) in
  ModelTrainer.prepare_ml_data self
  = {| ModelTrainer.X_train := iloc_to k X;
       ModelTrainer.X_test := iloc_from k X;
       ModelTrainer.y_train := series_iloc_to k y;
       ModelTrainer.y_test := series_iloc_from k y |}.
Proof. reflexivity. Qed.

Lemma split_index (X : DataFrame) (k : Z) :
  index (iloc_to k X) = take (slice_bound (len X) k) (index X)
  /\ index (iloc_from k X) = drop (slice_bound (len X) k) (index X).
Proof. split; reflexivity. Qed.

(** The two parts of a table cut at [k]: every label of the second part
    is greater than every label of the first when the labels increase. *)
Lemma split_labels_ordered (X : DataFrame) (k : Z) :
  StronglySorted lt (index X) ->
  forall i j, i ∈ index (iloc_to k X) -> j ∈ index (iloc_from k X) -> i < j.
Proof.
  intros Hsorted i j Hi Hj.
  eapply (StronglySorted_app_1_elem_of lt); [|exact Hi|exact Hj].
  rewrite index_iloc_to, index_iloc_from, slice_to_from. exact Hsorted.
Qed.

Lemma split_targets_aligned (X : DataFrame) (y : Series) (k : Z) :
  s_index y = index X ->
  s_index (series_iloc_to k y) = index (iloc_to k X)
  /\ s_index (series_iloc_from k y) = index (iloc_from k X).
Proof.
  intros H. unfold series_iloc_to, series_iloc_from; cbn [s_index].
  rewrite index_iloc_to, index_iloc_from, H. split; reflexivity.
Qed.

(** The two parts of a series cut at [k]. *)
Lemma split_positions_ordered {A} (data : list A) (k : Z) :
  slice_to k data ++ slice_from k data = data
  /\ (forall i j x y, slice_to k data !! i = Some x -> slice_from k data !! j = Some y ->
        data !! i = Some x
        /\ data !! (length (slice_to k data) + j) = Some y
        /\ i < length (slice_to k data) + j).
Proof.
  split; [apply slice_to_from|].
  intros i j x y Hx Hy.
  split; [eapply lookup_slice_to; eassumption|].
  split; [rewrite <- lookup_slice_from; assumption|].
  apply lookup_lt_Some in Hx. lia.
Qed.

(** ** C1: the chronological split *)

(** The two parts of the raw series in [train_arima]. *)
Lemma arima_split_eq (self : ModelTrainer.t) :
  let data := ModelTrainer.df self in
  let k := ModelTrainer.split_idx self (length data) in
  ModelTrainer.arima_split self
  = (take (slice_bound (length data) k) data, drop (slice_bound (length data) k) data).
Proof. reflexivity. Qed.

(** C1 as stated fails in one respect: the split position is not always
    the floor of [len * (1 - test_size)].  The code computes the product
    in double arithmetic, where it can fall just short of an integer:
    with 90 supervised rows (121 prices) and a test size of 0.3 it
    computes [int(90 * (1 - 0.3)) = 62], and puts 62 rows in the train
    part, where the floor of [90 * 0.7] is 63; with 10 rows and a test
    size of 0.9 it computes 0 where the floor is 1. *)
Lemma C1_counterexample :
  len (ModelTrainer.features long_trainer) = 90
  /\ ModelTrainer.split_idx long_trainer 90 = 62%Z
  /\ Qfloor (inject_Z 90 * (1 - ModelTrainer.test_size long_trainer)) = 63%Z
  /\ len (ModelTrainer.X_train (ModelTrainer.prepare_ml_data long_trainer)) = 62
  /\ ModelTrainer.split_idx mostly_test 10 = 0%Z
  /\ Qfloor (inject_Z 10 * (1 - ModelTrainer.test_size mostly_test)) = 1%Z.
Proof. vm_compute. repeat split. Qed.

(** C1, amended.  For every price series and every test size between 0
    and 1, [prepare_ml_data] cuts the supervised table at the position
    [k = int(len * (1 - test_size))] that the code computes in double
    arithmetic (which need not be the floor of the exact product): the
    train part is the rows before [k], the test part the rows from [k]
    on, and the targets are cut at the same place.  [train_arima] cuts
    the raw close series the same way, at
    [int(len(data) * (1 - test_size))].  In both, every test row or
    observation comes strictly after every train row or observation. *)
Theorem C1_chronological_split (self : ModelTrainer.t) :
  let d := ModelTrainer.prepare_ml_data self in
  let X := ModelTrainer.features self in
  let k := ModelTrainer.split_idx self (len X) in
  let data := ModelTrainer.df self in
  let k' := ModelTrainer.split_idx self (length data) in
  let train_data := (ModelTrainer.arima_split self).1 in
  let test_data := (ModelTrainer.arima_split self).2 in
  (0 <= ModelTrainer.test_size self)%Q -> (ModelTrainer.test_size self <= 1)%Q ->
  (index (ModelTrainer.X_train d) = take (slice_bound (len X) k) (index X)
   /\ index (ModelTrainer.X_test d) = drop (slice_bound (len X) k) (index X))
  /\ (forall i j, i ∈ index (ModelTrainer.X_train d) ->
                  j ∈ index (ModelTrainer.X_test d) -> i < j)
  /\ (s_index (ModelTrainer.y_train d) = index (ModelTrainer.X_train d)
      /\ s_index (ModelTrainer.y_test d) = index (ModelTrainer.X_test d))
  /\ (train_data = take (slice_bound (length data) k') data
      /\ test_data = drop (slice_bound (length data) k') data)
  /\ train_data ++ test_data = data
  /\ (forall i j x y, train_data !! i = Some x -> test_data !! j = Some y ->
        data !! i = Some x
        /\ data !! (length train_data + j) = Some y
        /\ i < length train_data + j).
Proof.
  intros d X k data k' train_data test_data _ _.
  pose proof (index_features_sorted self) as Hsorted.
  pose proof (index_target self) as Htarget.
  subst d. rewrite prepare_ml_data_eq.
  cbn [ModelTrainer.X_train ModelTrainer.X_test ModelTrainer.y_train ModelTrainer.y_test].
  fold X in Hsorted, Htarget |- *. fold k.
  split; [apply (split_index X k)|].
  split; [apply (split_labels_ordered X k Hsorted)|].
  split; [apply (split_targets_aligned X _ k Htarget)|].
  subst train_data test_data. rewrite arima_split_eq. cbn [fst snd]. fold data. fold k'.
  split; [split; reflexivity|].
  apply (split_positions_ordered data k').
Qed.

Lemma C1_chronological_split_witness :
  30 ∈ index (ModelTrainer.X_train (ModelTrainer.prepare_ml_data sample_trainer))
  /\ 37 ∈ index (ModelTrainer.X_test (ModelTrainer.prepare_ml_data sample_trainer))
  /\ 30 < 37
  /\ (ModelTrainer.arima_split sample_trainer).1 = take 32 sample_close.
Proof.
  assert (30 ∈ index (ModelTrainer.X_train (ModelTrainer.prepare_ml_data sample_trainer)))
    as H30 by (vm_compute; apply list_elem_of_here).
  assert (37 ∈ index (ModelTrainer.X_test (ModelTrainer.prepare_ml_data sample_trainer)))
    as H37 by (vm_compute; apply list_elem_of_here).
  destruct (C1_chronological_split sample_trainer) as (_ & Horder & _ & [Htrain _] & _).
  - vm_compute. discriminate.
  - vm_compute. discriminate.
  - split; [exact H30|]. split; [exact H37|].
    split; [exact (Horder 30 37 H30 H37)|].
    rewrite Htrain. vm_compute. reflexivity.
Defined.

(** ** The lag columns *)

(** The columns after the loop over [range(1, 31)], for any [Close]
    column [c]. *)
Lemma columns_add_lags (idx : list nat) (c : list cell) :
  columns (foldl (fun d i => setitem (lag_name i) (shift (Z.of_nat i) (getitem "Close" d)) d)
                 {| index := idx; columns := [("Close"%string, c)] |} (seq 1 30))
  = ("Close"%string, c) :: ((fun i => (lag_name i, shift (Z.of_nat i) c)) <$> seq 1 30).
Proof. vm_compute. reflexivity. Qed.

Lemma assign_target (c v : list cell) (f : nat -> list cell) :
  assign_column "target" v (("Close"%string, c) :: ((fun i => (lag_name i, f i)) <$> seq 1 30))
  = ("Close"%string, c) :: ((fun i => (lag_name i, f i)) <$> seq 1 30) ++ [("target"%string, v)].
Proof. vm_compute. reflexivity. Qed.

Lemma filter_target_close (c v : list cell) (f : nat -> list cell) :
  List.filter (fun c : string * list cell => negb (name_in ["target"; "Close"]%string c.1))
    (("Close"%string, c) :: ((fun i => (lag_name i, f i)) <$> seq 1 30) ++ [("target"%string, v)])
  = (fun i => (lag_name i, f i)) <$> seq 1 30.
Proof. vm_compute. reflexivity. Qed.

Lemma filter_close (c : list cell) (f : nat -> list cell) :
  List.filter (fun c : string * list cell => negb (name_in ["Close"]%string c.1))
    (("Close"%string, c) :: ((fun i => (lag_name i, f i)) <$> seq 1 30))
  = (fun i => (lag_name i, f i)) <$> seq 1 30.
Proof. vm_compute. reflexivity. Qed.

Lemma columns_setitem name v d : columns (setitem name v d) = assign_column name v (columns d).
Proof. reflexivity. Qed.

Lemma columns_dropna d :
  columns (dropna d)
  = (fun c : string * list cell =>
       (c.1, select (List.filter (row_complete d) (seq 0 (len d))) c.2)) <$> columns d.
Proof. reflexivity. Qed.

Lemma columns_drop_columns names d :
  columns (drop_columns names d)
  = List.filter (fun c : string * list cell => negb (name_in names c.1)) (columns d).
Proof. reflexivity. Qed.

Lemma columns_iloc_to k d :
  columns (iloc_to k d) = (fun c : string * list cell => (c.1, slice_to k c.2)) <$> columns d.
Proof. reflexivity. Qed.

Lemma columns_iloc_from k d :
  columns (iloc_from k d) = (fun c : string * list cell => (c.1, slice_from k c.2)) <$> columns d.
Proof. reflexivity. Qed.

Lemma length_shift (k : Z) (col : list cell) : length (shift k col) = length col.
Proof.
  unfold shift. destruct (0 <=? k)%Z.
  - rewrite length_take, length_app, length_replicate.
    apply Nat.min_l, Nat.le_add_l.
  - rewrite length_app, length_drop, length_replicate.
    generalize (Z.to_nat (- k)) (length col). intros a b.
    destruct (Nat.le_ge_cases a b).
    + rewrite Nat.min_l by assumption. apply Nat.sub_add; assumption.
    + rewrite Nat.min_r by assumption.
      replace (b - a) with 0; [reflexivity|]. symmetry. apply Nat.sub_0_le; assumption.
Qed.

Lemma lookup_total_Some_fmap (close : list Q) (k : nat) :
  (Some <$> close) !!! k = close !! k.
Proof.
  rewrite list_lookup_total_alt, list_lookup_fmap.
  destruct (close !! k); reflexivity.
Qed.

(** [Close.shift(i)] at time [t] is the price [i] steps back. *)
Lemma shift_lookup_total (close : list Q) (i t : nat) :
  t < length close ->
  shift (Z.of_nat i) (Some <$> close) !!! t = lag_cell close t i.
Proof.
  intros Ht. unfold shift, lag_cell.
  destruct (0 <=? Z.of_nat i)%Z eqn:E; [|apply Z.leb_gt in E; lia].
  rewrite Nat2Z.id, length_fmap, lookup_total_take_lt by lia.
  destruct (i <=? t) eqn:Hit.
  - apply Nat.leb_le in Hit.
    rewrite lookup_total_app_r by (rewrite length_replicate; lia).
    rewrite length_replicate. apply lookup_total_Some_fmap.
  - apply Nat.leb_gt in Hit.
    rewrite lookup_total_app_l by (rewrite length_replicate; lia).
    apply lookup_total_replicate_2. lia.
Qed.

Lemma select_lookup_total {A} `{Inhabited A} (ps : list nat) (l : list A) (j t : nat) :
  ps !! j = Some t -> select ps l !!! j = l !!! t.
Proof.
  intros Hj. apply list_lookup_total_correct.
  unfold select. rewrite list_lookup_fmap, Hj. reflexivity.
Qed.

Lemma length_select {A} `{Inhabited A} (ps : list nat) (l : list A) :
  length (select ps l) = length ps.
Proof. unfold select. apply length_fmap. Qed.

Lemma lookup_column_head name v rest : lookup_column name ((name, v) :: rest) = v.
Proof. simpl. rewrite String.eqb_refl. reflexivity. Qed.

Lemma fmap_frame_columns (g : list cell -> list cell) (c v : list cell) (f : nat -> list cell) :
  (fun col : string * list cell => (col.1, g col.2))
    <$> (("Close"%string, c) :: ((fun i => (lag_name i, f i)) <$> seq 1 30)
           ++ [("target"%string, v)])
  = ("Close"%string, g c) :: ((fun i => (lag_name i, g (f i))) <$> seq 1 30)
      ++ [("target"%string, g v)].
Proof. vm_compute. reflexivity. Qed.

Lemma fmap_lag_columns (g : list cell -> list cell) (f : nat -> list cell) :
  (fun col : string * list cell => (col.1, g col.2))
    <$> ((fun i => (lag_name i, f i)) <$> seq 1 30)
  = (fun i => (lag_name i, g (f i))) <$> seq 1 30.
Proof. vm_compute. reflexivity. Qed.

Lemma fmap_close_lag_columns (g : list cell -> list cell) (c : list cell) (f : nat -> list cell) :
  (fun col : string * list cell => (col.1, g col.2))
    <$> (("Close"%string, c) :: ((fun i => (lag_name i, f i)) <$> seq 1 30))
  = ("Close"%string, g c) :: ((fun i => (lag_name i, g (f i))) <$> seq 1 30).
Proof. vm_compute. reflexivity. Qed.

Lemma names_lag_columns (f : nat -> list cell) :
  fst <$> ((fun i => (lag_name i, f i)) <$> seq 1 30) = lag_name <$> seq 1 30.
Proof. vm_compute. reflexivity. Qed.

Lemma row_lag_columns (f : nat -> list cell) (p : nat) :
  (fun c : string * list cell => c.2 !!! p) <$> ((fun i => (lag_name i, f i)) <$> seq 1 30)
  = (fun i => f i !!! p) <$> seq 1 30.
Proof. rewrite <- list_fmap_compose. reflexivity. Qed.

Lemma row_complete_column (d : DataFrame) (p : nat) (name : string) (col : list cell) :
  row_complete d p = true -> In (name, col) (columns d) -> is_number (col !! p) = true.
Proof.
  unfold row_complete. rewrite forallb_forall. intros H Hin. apply (H _ Hin).
Qed.

Section trainer_columns.
Variable self : ModelTrainer.t.
Let close := ModelTrainer.df self.
Let X := ModelTrainer.features self.

Lemma columns_trainer_lags :
  columns (ModelTrainer.with_lags self)
  = ("Close"%string, Some <$> close)
      :: ((fun i => (lag_name i, shift (Z.of_nat i) (Some <$> close))) <$> seq 1 30).
Proof. unfold ModelTrainer.with_lags, frame_of_close. apply columns_add_lags. Qed.

Lemma columns_with_target :
  columns (ModelTrainer.with_target self)
  = ("Close"%string, Some <$> close)
      :: ((fun i => (lag_name i, shift (Z.of_nat i) (Some <$> close))) <$> seq 1 30)
      ++ [("target"%string, shift (-1) (Some <$> close))].
Proof.
  unfold ModelTrainer.with_target. rewrite columns_setitem.
  unfold getitem. rewrite columns_trainer_lags, lookup_column_head.
  apply (assign_target _ _ (fun i => shift (Z.of_nat i) (Some <$> close))).
Qed.

(** The feature table holds the thirty lag columns and nothing else. *)
Lemma columns_features :
  columns X
  = (fun i => (lag_name i, select (index X) (shift (Z.of_nat i) (Some <$> close))))
      <$> seq 1 30.
Proof.
  unfold X at 1. unfold ModelTrainer.features. rewrite columns_drop_columns.
  unfold ModelTrainer.df_processed. rewrite columns_dropna.
  unfold len. rewrite index_with_target, length_seq.
  fold close. unfold X. rewrite index_features. fold close.
  rewrite columns_with_target.
  generalize (List.filter (row_complete (ModelTrainer.with_target self)) (seq 0 (length close))).
  intros keep.
  rewrite (fmap_frame_columns (select keep) _ _ (fun i => shift (Z.of_nat i) (Some <$> close))).
  apply (filter_target_close _ _ (fun i => select keep (shift (Z.of_nat i) (Some <$> close)))).
Qed.

Lemma features_label (j t : nat) :
  index X !! j = Some t ->
  t < length close /\ row_complete (ModelTrainer.with_target self) t = true.
Proof.
  intros Hj.
  assert (In t (index X)) as Hin
    by (apply list_elem_of_In; eapply list_elem_of_lookup_2; eassumption).
  unfold X in Hin. rewrite index_features in Hin.
  apply filter_In in Hin as [Hlt Hrow]. apply in_seq in Hlt.
  split; [apply Hlt|exact Hrow].
Qed.

Lemma lag_column_in (i : nat) (c v : list cell) (f : nat -> list cell) :
  1 <= i <= 30 ->
  In (lag_name i, f i)
     (("Close"%string, c) :: ((fun i => (lag_name i, f i)) <$> seq 1 30) ++ [("target"%string, v)]).
Proof.
  intros Hi.
  apply list_elem_of_In, list_elem_of_further, elem_of_app. left.
  apply (list_elem_of_fmap_2 (fun i => (lag_name i, f i))).
  apply elem_of_seq. lia.
Qed.

Lemma complete_row_number (i t : nat) :
  1 <= i <= 30 ->
  row_complete (ModelTrainer.with_target self) t = true ->
  is_number (shift (Z.of_nat i) (Some <$> close) !! t) = true.
Proof.
  intros Hi Hrow.
  apply (row_complete_column _ _ (lag_name i) _ Hrow).
  rewrite columns_with_target.
  apply (lag_column_in i _ _ (fun i => shift (Z.of_nat i) (Some <$> close)) Hi).
Qed.

(** A row of the feature table carries the label of a time [t] that has
    thirty earlier observations, and its cells are the thirty prices
    before [t]. *)
Lemma features_row (j t : nat) :
  index X !! j = Some t ->
  30 <= t
  /\ forall i, select (index X) (shift (Z.of_nat i) (Some <$> close)) !!! j = lag_cell close t i.
Proof.
  intros Hj. destruct (features_label j t Hj) as [Hlt Hrow].
  split.
  - assert (is_number (Some (lag_cell close t 30)) = true) as Hnum.
    { rewrite <- (shift_lookup_total close 30 t Hlt).
      rewrite <- list_lookup_lookup_total_lt
        by (rewrite length_shift, length_fmap; exact Hlt).
      apply complete_row_number; [lia|exact Hrow]. }
    unfold lag_cell in Hnum.
    destruct (30 <=? t) eqn:E; [apply Nat.leb_le in E; exact E|discriminate].
  - intros i. rewrite (select_lookup_total _ _ j t Hj).
    apply shift_lookup_total, Hlt.
Qed.

Lemma column_names_X_train k : column_names (iloc_to k X) = lag_name <$> seq 1 30.
Proof.
  unfold column_names. rewrite columns_iloc_to, columns_features.
  rewrite (fmap_lag_columns (slice_to k)). apply names_lag_columns.
Qed.

Lemma column_names_X_test k : column_names (iloc_from k X) = lag_name <$> seq 1 30.
Proof.
  unfold column_names. rewrite columns_iloc_from, columns_features.
  rewrite (fmap_lag_columns (slice_from k)). apply names_lag_columns.
Qed.

Lemma row_X_train k j t :
  index (iloc_to k X) !! j = Some t ->
  row_at (iloc_to k X) j = lag_row close t /\ 30 <= t.
Proof.
  rewrite index_iloc_to. intros Hj.
  unfold slice_to in Hj. apply lookup_take_Some in Hj as [Hj Hlt].
  destruct (features_row j t Hj) as [Ht Hcells].
  split; [|exact Ht].
  unfold row_at. rewrite columns_iloc_to, columns_features.
  rewrite (fmap_lag_columns (slice_to k)), row_lag_columns.
  unfold lag_row. apply list_fmap_ext. intros _ i _.
  unfold slice_to. rewrite length_select.
  rewrite lookup_total_take_lt by exact Hlt. apply Hcells.
Qed.

Lemma row_X_test k j t :
  index (iloc_from k X) !! j = Some t ->
  row_at (iloc_from k X) j = lag_row close t /\ 30 <= t.
Proof.
  rewrite index_iloc_from. intros Hj.
  unfold slice_from in Hj. rewrite lookup_drop in Hj.
  destruct (features_row _ t Hj) as [Ht Hcells].
  split; [|exact Ht].
  unfold row_at. rewrite columns_iloc_from, columns_features.
  rewrite (fmap_lag_columns (slice_from k)), row_lag_columns.
  unfold lag_row. apply list_fmap_ext. intros _ i _.
  unfold slice_from. rewrite length_select.
  rewrite lookup_total_drop. apply Hcells.
Qed.

End trainer_columns.

Section seed.
Variables (W : DataFrame) (close : list Q).
Hypothesis W_index : index W = seq 0 (length close).
Hypothesis W_columns :
  columns W
  = ("Close"%string, Some <$> close)
      :: ((fun i => (lag_name i, shift (Z.of_nat i) (Some <$> close))) <$> seq 1 30).
Hypothesis close_nonempty : close <> [].

(** The last row of a lagged frame, without its [Close] cell. *)
Lemma last_row_of_lagged :
  py_first (values (drop_columns ["Close"%string] (iloc_from (-1) W)))
  = Ok (lag_row close (length close - 1)).
Proof.
  assert (0 < length close) as Hlen by (destruct close; [congruence|simpl; lia]).
  assert (slice_bound (length close) (-1) = length close - 1) as Hb
    by (unfold slice_bound; simpl; lia).
  unfold values, len.
  rewrite index_drop_columns, index_iloc_from, W_index.
  assert (length (slice_from (-1) (seq 0 (length close))) = 1) as ->.
  { unfold slice_from. rewrite length_drop, length_seq, Hb. lia. }
  cbn [seq fmap list_fmap py_first]. f_equal.
  unfold row_at. rewrite columns_drop_columns, columns_iloc_from, W_columns.
  rewrite (fmap_close_lag_columns (slice_from (-1)) _
             (fun i => shift (Z.of_nat i) (Some <$> close))).
  rewrite (filter_close _ (fun i => slice_from (-1) (shift (Z.of_nat i) (Some <$> close)))).
  rewrite row_lag_columns.
  unfold lag_row. apply list_fmap_ext. intros _ i _.
  unfold slice_from. rewrite lookup_total_drop, length_shift, length_fmap, Hb, Nat.add_0_r.
  apply shift_lookup_total. lia.
Qed.

End seed.

(** The seed vector of the forecaster. *)
Lemma get_last_features_eq (self : Forecaster.t) :
  Forecaster.historical_data self <> [] ->
  Forecaster._get_last_features self
  = Ok (lag_row (Forecaster.historical_data self)
                (length (Forecaster.historical_data self) - 1)).
Proof.
  intros Hne.
  apply (last_row_of_lagged (Forecaster.with_lags self) (Forecaster.historical_data self)).
  - unfold Forecaster.with_lags. rewrite index_add_lags. reflexivity.
  - unfold Forecaster.with_lags, frame_of_close. apply columns_add_lags.
  - exact Hne.
Qed.

(** ** C2: the feature vectors *)

(** C2 as stated fails: on forty prices the vectors the trainer trains on
    have the thirty lag columns only, none of the rolling mean, rolling
    standard deviation or price change columns of the specified layout,
    and the seed vector of the forecaster has thirty entries. *)
Lemma C2_counterexample :
  let d := ModelTrainer.prepare_ml_data sample_trainer in
  column_names (ModelTrainer.X_train d) <> spec_feature_columns
  /\ name_in (column_names (ModelTrainer.X_train d)) "rolling_mean_7" = false
  /\ name_in (column_names (ModelTrainer.X_train d)) "rolling_std_7" = false
  /\ name_in (column_names (ModelTrainer.X_train d)) "price_change" = false
  /\ (exists seed, Forecaster._get_last_features (sample_forecaster None) = Ok seed
                   /\ length seed = 30).
Proof.
  vm_compute. repeat split; try discriminate.
  eexists. split; reflexivity.
Qed.

(** C2, amended.  For every price series, the vectors the trainer trains
    and tests on and the seed vector of the forecaster are built by the
    same lag construction, written out in [prepare_ml_data] and again in
    [_get_last_features]: the columns are exactly [lag_1 .. lag_30], the
    vector of a row labelled [t] is the thirty prices before [t] (and
    [t] has thirty predecessors), and the seed is the same vector taken
    at the last observation.  No rolling mean, rolling standard deviation
    or price change is part of a vector. *)
Theorem C2_lag_vectors (trainer : ModelTrainer.t) (fc : Forecaster.t) :
  let d := ModelTrainer.prepare_ml_data trainer in
  column_names (ModelTrainer.X_train d) = lag_name <$> seq 1 30
  /\ column_names (ModelTrainer.X_test d) = lag_name <$> seq 1 30
  /\ (forall j t, index (ModelTrainer.X_train d) !! j = Some t ->
        row_at (ModelTrainer.X_train d) j = lag_row (ModelTrainer.df trainer) t /\ 30 <= t)
  /\ (forall j t, index (ModelTrainer.X_test d) !! j = Some t ->
        row_at (ModelTrainer.X_test d) j = lag_row (ModelTrainer.df trainer) t /\ 30 <= t)
  /\ (Forecaster.historical_data fc <> [] ->
        Forecaster._get_last_features fc
        = Ok (lag_row (Forecaster.historical_data fc)
                      (length (Forecaster.historical_data fc) - 1))).
Proof.
  intros d. subst d. rewrite prepare_ml_data_eq.
  cbn [ModelTrainer.X_train ModelTrainer.X_test].
  split; [apply column_names_X_train|].
  split; [apply column_names_X_test|].
  split; [apply row_X_train|].
  split; [apply row_X_test|].
  apply get_last_features_eq.
Qed.

Lemma C2_lag_vectors_witness :
  Forecaster._get_last_features (sample_forecaster None) = Ok (lag_row sample_close 39)
  /\ forall j t,
       index (ModelTrainer.X_test (ModelTrainer.prepare_ml_data sample_trainer)) !! j = Some t ->
       row_at (ModelTrainer.X_test (ModelTrainer.prepare_ml_data sample_trainer)) j
       = lag_row sample_close t /\ 30 <= t.
Proof.
  pose proof (C2_lag_vectors sample_trainer (sample_forecaster None)) as H.
  cbv zeta in H. destruct H as (_ & _ & _ & Htest & Hseed).
  split; [|exact Htest].
  apply Hseed. discriminate.
Defined.

(** ** C3 and C10: the selection of the best model *)

Section selection.
Variables (lib : ModelTrainer.learners) (self : ModelTrainer.t).

(** The first three training functions return three values, whatever the
    library does. *)
Lemma train_random_forest_tuple :
  exists m rmse mape,
    ModelTrainer.train_random_forest lib self = Ok (Tuple3 m rmse mape)
    /\ forall x, m = Some x -> type_name x = "RandomForestRegressor"%string.
Proof.
  unfold ModelTrainer.train_random_forest.
  destruct (ModelTrainer.random_forest lib (ModelTrainer.prepare_ml_data self))
    as [[[predict rmse] mape]|e]; cbn.
  - do 3 eexists. split; [reflexivity|]. intros x [= <-]. reflexivity.
  - do 3 eexists. split; [reflexivity|]. discriminate.
Qed.

Lemma train_ridge_regression_tuple :
  exists m rmse mape,
    ModelTrainer.train_ridge_regression lib self = Ok (Tuple3 m rmse mape)
    /\ forall x, m = Some x -> type_name x = "Ridge"%string.
Proof.
  unfold ModelTrainer.train_ridge_regression.
  destruct (ModelTrainer.ridge lib (ModelTrainer.prepare_ml_data self))
    as [[[predict rmse] mape]|e]; cbn.
  - do 3 eexists. split; [reflexivity|]. intros x [= <-]. reflexivity.
  - do 3 eexists. split; [reflexivity|]. discriminate.
Qed.

Lemma train_arima_tuple :
  exists m rmse mape,
    ModelTrainer.train_arima lib self = Ok (Tuple3 m rmse mape)
    /\ forall x, m = Some x -> type_name x = "ARIMAResultsWrapper"%string.
Proof.
  unfold ModelTrainer.train_arima.
  destruct (ModelTrainer.arima_split self) as [train_data test_data].
  destruct (ModelTrainer.arima lib train_data test_data) as [[[fc rmse] mape]|e]; cbn.
  - do 3 eexists. split; [reflexivity|]. intros x [= <-]. reflexivity.
  - do 3 eexists. split; [reflexivity|]. discriminate.
Qed.

(** The fourth returns four. *)
Lemma train_simple_lstm_tuple :
  exists m rmse mape label,
    ModelTrainer.train_simple_lstm lib self = Ok (Tuple4 m rmse mape label).
Proof.
  unfold ModelTrainer.train_simple_lstm.
  destruct (ModelTrainer.linear_regression lib (ModelTrainer.prepare_ml_data self))
    as [[[predict rmse] mape]|e]; cbn; do 4 eexists; reflexivity.
Qed.

End selection.

(** A candidate whose result does not unpack leaves the loop variables as
    they were. *)
Lemma select_step_tuple4 st name m rmse mape label :
  ModelTrainer.select_step st (name, Ok (Tuple4 m rmse mape label)) = st.
Proof. reflexivity. Qed.

(** One iteration on a three-value result: the name changes only to the
    candidate's name, the model only to the candidate's model. *)
Lemma select_step_tuple3 st name m rmse mape :
  let st' := ModelTrainer.select_step st (name, Ok (Tuple3 m rmse mape)) in
  ((m = None \/ xlt rmse (ModelTrainer.best_rmse st) = false)
   /\ ModelTrainer.best_model st' = ModelTrainer.best_model st
   /\ ModelTrainer.best_rmse st' = ModelTrainer.best_rmse st
   /\ ModelTrainer.best_model_name st' = ModelTrainer.best_model_name st)
  \/ (m <> None
      /\ xlt rmse (ModelTrainer.best_rmse st) = true
      /\ ModelTrainer.best_model st' = m
      /\ ModelTrainer.best_rmse st' = rmse
      /\ ModelTrainer.best_model_name st' = name).
Proof.
  unfold ModelTrainer.select_step. cbn [mbind result_bind unpack3].
  destruct (bool_decide (m <> None)) eqn:Hm; cbn [andb].
  - destruct (xlt rmse (ModelTrainer.best_rmse st)) eqn:Hlt; cbn.
    + right. apply bool_decide_eq_true in Hm. auto.
    + left. auto.
  - left. cbn. apply bool_decide_eq_false in Hm.
    split; [left; destruct m; [exfalso; apply Hm; discriminate|reflexivity]|auto].
Qed.

(** If every candidate that returns three values returns no model, the
    persistence fallback is selected. *)
Lemma select_loop_all_fail cands st :
  Forall (fun c : string * result py_tuple =>
            match c.2 with
            | Ok (Tuple3 (Some _) _ _) => False
            | _ => True
            end) cands ->
  ModelTrainer.best_model st = None ->
  ModelTrainer.best_model (foldl ModelTrainer.select_step st cands) = None.
Proof.
  intros Hall. revert st. induction Hall as [|[name call] cands Hc _ IH]; intros st Hst.
  - exact Hst.
  - cbn [foldl]. apply IH.
    destruct call as [[m rmse mape|m rmse mape label]|e]; cbn in Hc |- *; try exact Hst.
    destruct m; [contradiction|]. cbn. exact Hst.
Qed.

Lemma scored_Some_inv c n m r :
  scored c = Some (n, m, r) -> exists mape, c = (n, Ok (Tuple3 (Some m) r mape)).
Proof.
  destruct c as [name [[[x|] rmse mape|? ? ? ?]|e]]; cbn; try discriminate.
  intros [= -> -> ->]. eexists. reflexivity.
Qed.

(** A candidate the loop does not score leaves model, RMSE and name as
    they were. *)
Lemma select_step_unscored st c :
  scored c = None ->
  ModelTrainer.best_model (ModelTrainer.select_step st c) = ModelTrainer.best_model st
  /\ ModelTrainer.best_rmse (ModelTrainer.select_step st c) = ModelTrainer.best_rmse st
  /\ ModelTrainer.best_model_name (ModelTrainer.select_step st c)
     = ModelTrainer.best_model_name st.
Proof.
  destruct c as [name [[[x|] rmse mape|? ? ? ?]|e]]; cbn; try discriminate; auto.
Qed.

Lemma selection_invariant_snoc cands st c :
  selection_invariant cands st ->
  selection_invariant (cands ++ [c]) (ModelTrainer.select_step st c).
Proof.
  intros Hinv. unfold selection_invariant in *.
  assert (forall j c' (P : Prop),
            (cands ++ [c]) !! j = Some c' ->
            (cands !! j = Some c' -> j < length cands -> P) ->
            (j = length cands -> c' = c -> P) -> P) as Hcase.
  { intros j c' P Hj Hold Hnew.
    destruct (decide (j < length cands)) as [Hlt|Hge].
    - rewrite lookup_app_l in Hj by exact Hlt. auto.
    - rewrite lookup_app_r in Hj by lia.
      destruct (j - length cands) as [|n] eqn:Hn; [|destruct n; discriminate Hj].
      injection Hj as <-. apply Hnew; [lia|reflexivity]. }
  destruct (scored c) as [[[n m] r]|] eqn:Hsc.
  2:{ destruct (select_step_unscored st c Hsc) as (-> & -> & ->).
      destruct (ModelTrainer.best_model st) as [bm|].
      - destruct Hinv as (i & ci & Hi & Hci & Hall).
        exists i, ci. split; [apply lookup_app_l_Some, Hi|]. split; [exact Hci|].
        intros j c' n' m' r' Hj Hs. apply (Hcase j c' _ Hj).
        + intros Hj' _. apply (Hall _ _ _ _ _ Hj' Hs).
        + intros _ ->. congruence.
      - destruct Hinv as [Hinf Hall]. split; [exact Hinf|].
        intros j c' n' m' r' Hj Hs. apply (Hcase j c' _ Hj).
        + intros Hj' _. apply (Hall _ _ _ _ _ Hj' Hs).
        + intros _ ->. congruence. }
  destruct (scored_Some_inv _ _ _ _ Hsc) as [mape ->].
  destruct (select_step_tuple3 st n (Some m) r mape) as
    [([Hnone|Hnlt] & Em & Er & En)|(_ & Hlt & Em & Er & En)]; cbv zeta in *;
    [discriminate Hnone| |].
  - (* not lower than the best so far: no change *)
    rewrite Em, Er, En.
    destruct (ModelTrainer.best_model st) as [bm|].
    + destruct Hinv as (i & ci & Hi & Hci & Hall).
      exists i, ci. split; [apply lookup_app_l_Some, Hi|]. split; [exact Hci|].
      intros j c' n' m' r' Hj Hs. apply (Hcase j c' _ Hj).
      * intros Hj' _. apply (Hall _ _ _ _ _ Hj' Hs).
      * intros -> ->. rewrite Hsc in Hs. injection Hs as <- <- <-.
        split; [exact Hnlt|]. intros Hji. apply lookup_lt_Some in Hi. lia.
    + destruct Hinv as [Hinf Hall]. split; [exact Hinf|].
      intros j c' n' m' r' Hj Hs. apply (Hcase j c' _ Hj).
      * intros Hj' _. apply (Hall _ _ _ _ _ Hj' Hs).
      * intros _ ->. rewrite Hsc in Hs. injection Hs as <- <- <-.
        rewrite <- Hinf. exact Hnlt.
  - (* strictly lower: the candidate becomes the best *)
    rewrite Em, Er, En.
    exists (length cands), (n, Ok (Tuple3 (Some m) r mape)).
    split; [apply list_lookup_middle; reflexivity|]. split; [exact Hsc|].
    intros j c' n' m' r' Hj Hs. apply (Hcase j c' _ Hj).
    + intros Hj' Hlen.
      assert (xlt r' (ModelTrainer.best_rmse st) = false) as Hold.
      { destruct (ModelTrainer.best_model st) as [bm|].
        - destruct Hinv as (i & ci & _ & _ & Hall). apply (Hall _ _ _ _ _ Hj' Hs).
        - destruct Hinv as [Hinf Hall]. rewrite Hinf. apply (Hall _ _ _ _ _ Hj' Hs). }
      destruct (xlt_below _ _ _ Hlt Hold) as [H1 H2]. split; [exact H2|]. intros _. exact H1.
    + intros -> ->. rewrite Hsc in Hs. injection Hs as <- <- <-.
      split; [apply xlt_irrefl|]. intros Hji. lia.
Qed.

(** The selection loop returns the first candidate whose RMSE no scored
    candidate beats, among the candidates whose training function
    returned three values with a model; it returns no model when no such
    candidate has an RMSE below infinity. *)
Lemma select_loop_lowest (cands : list (string * result py_tuple)) :
  selection_invariant cands (ModelTrainer.select_loop cands).
Proof.
  unfold ModelTrainer.select_loop.
  induction cands as [|c cands IH] using rev_ind.
  - split; [reflexivity|]. intros j c n m r Hj. rewrite lookup_nil in Hj. discriminate.
  - rewrite foldl_app. cbn [foldl]. apply selection_invariant_snoc, IH.
Qed.

(** The second half of C3: when the random forest, the ridge regression
    and ARIMA all fail to fit, the persistence triple is returned (the
    source spells the name ['Persistence']), and nothing is raised. *)
Lemma train_and_select_best_all_fail (lib : ModelTrainer.learners) (self : ModelTrainer.t) e1 e2 e3 :
  ModelTrainer.random_forest lib (ModelTrainer.prepare_ml_data self) = Raise e1 ->
  ModelTrainer.ridge lib (ModelTrainer.prepare_ml_data self) = Raise e2 ->
  ModelTrainer.arima lib (ModelTrainer.arima_split self).1 (ModelTrainer.arima_split self).2
    = Raise e3 ->
  ModelTrainer.train_and_select_best lib self = (None, Inf, "Persistence"%string).
Proof.
  intros H1 H2 H3.
  unfold ModelTrainer.train_and_select_best, ModelTrainer.select_best, ModelTrainer.select_loop.
  rewrite select_loop_all_fail; [reflexivity| |reflexivity].
  unfold ModelTrainer.models_to_train.
  destruct (train_simple_lstm_tuple lib self) as (m & r & p & l & ->).
  unfold ModelTrainer.train_random_forest, ModelTrainer.train_ridge_regression,
    ModelTrainer.train_arima.
  destruct (ModelTrainer.arima_split self) as [a b]. cbn [fst snd] in H3.
  rewrite H1, H2, H3. cbn.
  repeat constructor.
Qed.

(** C3 fails on the code.  With every fit successful and the lowest RMSE
    (1) reached by the linear regression of the [LSTM] entry, that
    training function does return its model and its RMSE, yet
    [train_and_select_best] returns the ridge regression with RMSE 2. *)
Theorem C3_lowest_rmse_not_returned (self : ModelTrainer.t) :
  (exists predict,
     ModelTrainer.train_simple_lstm lowest_error_linear self
     = Ok (Tuple4 (Some (Sklearn LinearRegression predict)) (Finite 1) (Finite 1)
             "Linear Regression (LSTM placeholder)"))
  /\ (exists predict,
        ModelTrainer.train_and_select_best lowest_error_linear self
        = (Some (Sklearn Ridge predict), Finite 2, "Ridge Regression"%string))
  /\ xlt (Finite 1) (Finite 2) = true.
Proof.
  split; [eexists; reflexivity|].
  split; [eexists; reflexivity|].
  reflexivity.
Qed.

(** C10.  Whatever the price series and the fitting library do, the
    [LSTM] entry returns four values, its iteration of the selection loop
    raises at the unpacking and leaves the loop variables untouched, and
    the name [train_and_select_best] returns is one of ['Random Forest'],
    ['Ridge Regression'], ['ARIMA'] and ['Persistence'], never ['LSTM'];
    the returned model is never the linear regression of that entry. *)
Theorem C10_lstm_never_selected (lib : ModelTrainer.learners) (self : ModelTrainer.t) :
  (exists m rmse mape label,
     ModelTrainer.train_simple_lstm lib self = Ok (Tuple4 m rmse mape label)
     /\ unpack3 (Tuple4 m rmse mape label) = Raise ValueError)
  /\ (forall st, ModelTrainer.select_step st ("LSTM"%string, ModelTrainer.train_simple_lstm lib self)
                 = st)
  /\ (let name := (ModelTrainer.train_and_select_best lib self).2 in
      (name = "Random Forest" \/ name = "Ridge Regression" \/ name = "ARIMA"
       \/ name = "Persistence")%string
      /\ name <> "LSTM"%string)
  /\ (forall m, (ModelTrainer.train_and_select_best lib self).1.1 = Some m ->
                type_name m <> "LinearRegression"%string).
Proof.
  destruct (train_simple_lstm_tuple lib self) as (m4 & r4 & p4 & l4 & H4).
  destruct (train_random_forest_tuple lib self) as (m1 & r1 & p1 & H1 & T1).
  destruct (train_ridge_regression_tuple lib self) as (m2 & r2 & p2 & H2 & T2).
  destruct (train_arima_tuple lib self) as (m3 & r3 & p3 & H3 & T3).
  split; [do 4 eexists; split; [exact H4|reflexivity]|].
  split; [intros st; rewrite H4; apply select_step_tuple4|].
  unfold ModelTrainer.train_and_select_best, ModelTrainer.select_best,
    ModelTrainer.select_loop, ModelTrainer.models_to_train.
  rewrite H1, H2, H3, H4. cbn [foldl]. rewrite select_step_tuple4.
  set (s0 := ModelTrainer.selection_init).
  pose proof (select_step_tuple3 s0 "Random Forest" m1 r1 p1) as S1.
  set (s1 := ModelTrainer.select_step s0 _) in *.
  pose proof (select_step_tuple3 s1 "Ridge Regression" m2 r2 p2) as S2.
  set (s2 := ModelTrainer.select_step s1 _) in *.
  pose proof (select_step_tuple3 s2 "ARIMA" m3 r3 p3) as S3.
  set (s3 := ModelTrainer.select_step s2 _) in *.
  cbv zeta in S1, S2, S3.
  assert (ModelTrainer.best_model s0 = None /\ True) as S0 by (split; [reflexivity|exact I]).
  clearbody s0 s1 s2 s3.
  assert (forall x, ModelTrainer.best_model s3 = Some x ->
            (ModelTrainer.best_model_name s3 = "Random Forest"
             \/ ModelTrainer.best_model_name s3 = "Ridge Regression"
             \/ ModelTrainer.best_model_name s3 = "ARIMA")%string
            /\ type_name x <> "LinearRegression"%string) as Hsel.
  { intros x Hx.
    destruct S3 as [(_ & E3 & _ & N3)|(_ & _ & E3 & _ & N3)].
    2:{ rewrite N3. split; [auto|]. rewrite E3 in Hx. rewrite (T3 x Hx). discriminate. }
    rewrite E3 in Hx. rewrite N3.
    destruct S2 as [(_ & E2 & _ & N2)|(_ & _ & E2 & _ & N2)].
    2:{ rewrite N2. split; [auto|]. rewrite E2 in Hx. rewrite (T2 x Hx). discriminate. }
    rewrite E2 in Hx. rewrite N2.
    destruct S1 as [(_ & E1 & _ & N1)|(_ & _ & E1 & _ & N1)].
    2:{ rewrite N1. split; [auto|]. rewrite E1 in Hx. rewrite (T1 x Hx). discriminate. }
    rewrite E1 in Hx. destruct S0 as [S0 _]. congruence. }
  destruct (ModelTrainer.best_model s3) as [x|] eqn:Hbest; cbn [fst snd].
  - destruct (Hsel x eq_refl) as [Hname Htype].
    split.
    + split; [tauto|]. destruct Hname as [-> | [-> | ->]]; discriminate.
    + intros m [= <-]. exact Htype.
  - split; [split; [tauto|discriminate]|]. discriminate.
Qed.

Lemma C10_lstm_never_selected_witness :
  (ModelTrainer.train_and_select_best lowest_error_linear sample_trainer).2
    = "Ridge Regression"%string
  /\ forall m,
       (ModelTrainer.train_and_select_best lowest_error_linear sample_trainer).1.1 = Some m ->
       type_name m <> "LinearRegression"%string.
Proof.
  destruct (C10_lstm_never_selected lowest_error_linear sample_trainer) as (_ & _ & _ & H).
  split; [reflexivity|exact H].
Defined.

(** ** C4 and C9: recursive forecasting *)

Lemma for_each_app {S A} (body : S -> A -> result S) (xs ys : list A) (st : S) :
  for_each body (xs ++ ys) st
  = match for_each body xs st with
    | Ok st' => for_each body ys st'
    | Raise e => Raise e
    end.
Proof.
  revert st. induction xs as [|x xs IH]; intros st; simpl; [reflexivity|].
  destruct (body st x); [apply IH|reflexivity].
Qed.

(** The loop of [_recursive_forecast_ml] after [k + 1] iterations is one
    more step after [k] iterations. *)
Lemma recursive_loop_S (self : Forecaster.t) (k : nat) :
  Forecaster.recursive_loop self (S k)
  = match Forecaster.recursive_loop self k with
    | Ok st => Forecaster.forecast_step self st
    | Raise e => Raise e
    end.
Proof.
  unfold Forecaster.recursive_loop.
  destruct (Forecaster._get_last_features self) as [cf|e]; [|reflexivity].
  cbn [mbind result_bind].
  rewrite seq_S, for_each_app. cbn [for_each].
  destruct (for_each _ (seq 0 k) _) as [st|e]; [|reflexivity].
  destruct (Forecaster.forecast_step self st); reflexivity.
Qed.

(** Once an iteration has failed, so has every longer run. *)
Lemma recursive_loop_raise (self : Forecaster.t) (k n : nat) (e : exn) :
  k <= n -> Forecaster.recursive_loop self k = Raise e ->
  Forecaster.recursive_loop self n = Raise e.
Proof.
  induction 1 as [|n Hle IH]; intros Hk; [exact Hk|].
  rewrite recursive_loop_S, (IH Hk). reflexivity.
Qed.

(** [_update_features] on a vector of thirty entries. *)
Lemma update_features_30 (cf : list cell) (p : Q) :
  length cf = 30 ->
  Forecaster._update_features cf p = Ok (Some p :: take 29 cf).
Proof.
  intros Hlen.
  do 30 (destruct cf as [|? cf]; [discriminate Hlen|]).
  destruct cf; [|discriminate Hlen].
  vm_compute. reflexivity.
Qed.

Lemma get_last_features_length (self : Forecaster.t) (cf : list cell) :
  Forecaster._get_last_features self = Ok cf -> length cf = 30.
Proof.
  destruct (Forecaster.historical_data self) as [|x l] eqn:Hhist.
  - assert (Forecaster._get_last_features self = Raise IndexError) as ->; [|discriminate].
    unfold Forecaster._get_last_features, values, len.
    rewrite index_drop_columns, index_iloc_from.
    unfold Forecaster.with_lags. rewrite index_add_lags, Hhist. reflexivity.
  - rewrite get_last_features_eq by (rewrite Hhist; discriminate).
    intros [= <-]. unfold lag_row. rewrite length_fmap, length_seq. reflexivity.
Qed.

(** Every state of the loop holds as many predictions as iterations were
    run, and a feature vector of thirty entries. *)
Lemma recursive_loop_shape (self : Forecaster.t) (k : nat) (st : list Q * list cell) :
  Forecaster.recursive_loop self k = Ok st -> length st.1 = k /\ length st.2 = 30.
Proof.
  revert st. induction k as [|k IH]; intros st.
  - unfold Forecaster.recursive_loop.
    destruct (Forecaster._get_last_features self) as [cf|e] eqn:Hcf; [|discriminate].
    cbn. intros [= <-]. split; [reflexivity|]. eapply get_last_features_length, Hcf.
  - rewrite recursive_loop_S.
    destruct (Forecaster.recursive_loop self k) as [[fcst cf]|e]; [|discriminate].
    destruct (IH _ eq_refl) as [Hf Hc]. cbn [fst snd] in Hf, Hc.
    unfold Forecaster.forecast_step.
    destruct (Forecaster.predict_next self cf) as [p|e]; [|discriminate].
    cbn [mbind result_bind]. rewrite (update_features_30 cf p Hc).
    intros [= <-]. cbn [fst snd]. split.
    + rewrite length_app, Hf. simpl. lia.
    + simpl. rewrite length_take, Hc. reflexivity.
Qed.

Lemma recursive_forecast_length (self : Forecaster.t) (days : Z) :
  length (Forecaster._recursive_forecast_ml self days) = Z.to_nat days.
Proof.
  unfold Forecaster._recursive_forecast_ml.
  destruct (Forecaster.recursive_loop self (Z.to_nat days)) as [st|e] eqn:Hloop.
  - apply (recursive_loop_shape _ _ _ Hloop).
  - apply length_replicate.
Qed.

(** With a scikit-learn model, [forecast] returns what
    [_recursive_forecast_ml] returns. *)
Lemma forecast_sklearn (self : Forecaster.t) (days : Z) cls predict :
  Forecaster.model self = Some (Sklearn cls predict) ->
  Forecaster.forecast self days
  = Ok (Forecaster._recursive_forecast_ml self days, Forecaster.current_price self).
Proof.
  intros Hm. unfold Forecaster.forecast. rewrite Hm. destruct cls; reflexivity.
Qed.

(** The sample forecasters are what [__init__] builds on the sample
    series. *)
Lemma init_sample (m : option Model) :
  Forecaster.init m sample_close = Ok (sample_forecaster m).
Proof. reflexivity. Qed.

(** C4 as stated fails.  On the sample series the model predicts 5 at the
    first step and fails at the second; of the three days asked for, the
    claim keeps the 5 and fills two days, the code returns the current
    price 139 three times. *)
Lemma C4_counterexample :
  exists features,
    Forecaster.recursive_loop failing_forecaster 1 = Ok ([5%Q], features)
    /\ Forecaster.forecast_step failing_forecaster ([5%Q], features) = Raise LibraryError
    /\ Forecaster._recursive_forecast_ml failing_forecaster 3 = [139; 139; 139]%Q
    /\ Forecaster._recursive_forecast_ml failing_forecaster 3 <> ([5] ++ replicate 2 139)%Q.
Proof.
  eexists. split; [vm_compute; reflexivity|].
  split; [vm_compute; reflexivity|].
  split; [vm_compute; reflexivity|].
  vm_compute. discriminate.
Qed.

(** C4, amended.  If a prediction step fails during recursive
    forecasting, the failure is caught inside [_recursive_forecast_ml]
    and the whole horizon is filled with the current price: the
    predictions produced before the failing step are discarded, and the
    returned path has exactly [days] entries ([forecast] returns that
    path for a scikit-learn model). *)
Theorem C4_failure_fills_whole_horizon
    (self : Forecaster.t) (days : Z) (k : nat) (st : list Q * list cell) (e : exn) :
  (Z.of_nat k < days)%Z ->
  Forecaster.recursive_loop self k = Ok st ->
  Forecaster.forecast_step self st = Raise e ->
  Forecaster._recursive_forecast_ml self days
    = replicate (Z.to_nat days) (Forecaster.current_price self)
  /\ Z.of_nat (length (Forecaster._recursive_forecast_ml self days)) = days
  /\ (forall cls predict, Forecaster.model self = Some (Sklearn cls predict) ->
        Forecaster.forecast self days
        = Ok (replicate (Z.to_nat days) (Forecaster.current_price self),
              Forecaster.current_price self)).
Proof.
  intros Hk Hloop Hstep.
  assert (Forecaster.recursive_loop self (Z.to_nat days) = Raise e) as Hfail.
  { apply (recursive_loop_raise self (S k)); [lia|].
    rewrite recursive_loop_S, Hloop. exact Hstep. }
  assert (Forecaster._recursive_forecast_ml self days
          = replicate (Z.to_nat days) (Forecaster.current_price self)) as Heq.
  { unfold Forecaster._recursive_forecast_ml. rewrite Hfail. reflexivity. }
  split; [exact Heq|].
  split.
  - rewrite recursive_forecast_length. lia.
  - intros cls predict Hm. rewrite (forecast_sklearn self days cls predict Hm), Heq.
    reflexivity.
Qed.

Lemma C4_failure_fills_whole_horizon_witness :
  Forecaster._recursive_forecast_ml failing_forecaster 3
    = replicate 3 (Forecaster.current_price failing_forecaster)
  /\ Z.of_nat (length (Forecaster._recursive_forecast_ml failing_forecaster 3)) = 3%Z.
Proof.
  destruct (C4_failure_fills_whole_horizon failing_forecaster 3 1
              ([5%Q], Some 5%Q :: take 29 (lag_row sample_close 39)) LibraryError)
    as (H1 & H2 & _).
  - lia.
  - vm_compute. reflexivity.
  - vm_compute. reflexivity.
  - split; [exact H1|exact H2].
Defined.

(** C9.  In recursive forecasting, at every state the loop reaches, a
    prediction step that obtains a prediction [p] completes, appends [p]
    to the forecast, and leaves a feature vector whose [lag_1] is [p]
    and whose [lag_i], for [1 < i <= 30], is the [lag_{i-1}] of the
    vector before the step. *)
Theorem C9_lag_shift
    (self : Forecaster.t) (k : nat) (forecast : list Q) (features : list cell) (p : Q) :
  Forecaster.recursive_loop self k = Ok (forecast, features) ->
  Forecaster.predict_next self features = Ok p ->
  exists features',
    Forecaster._update_features features p = Ok features'
    /\ Forecaster.forecast_step self (forecast, features) = Ok (forecast ++ [p], features')
    /\ Forecaster.recursive_loop self (S k) = Ok (forecast ++ [p], features')
    /\ length features' = 30
    /\ features' !! 0 = Some (Some p)
    /\ forall i, 1 < i <= 30 -> features' !! (i - 1) = features !! (i - 2).
Proof.
  intros Hloop Hp.
  destruct (recursive_loop_shape _ _ _ Hloop) as [_ Hlen]. cbn [snd] in Hlen.
  pose proof (update_features_30 features p Hlen) as Hup.
  assert (Forecaster.forecast_step self (forecast, features)
          = Ok (forecast ++ [p], Some p :: take 29 features)) as Hstep.
  { unfold Forecaster.forecast_step. rewrite Hp. cbn [mbind result_bind].
    rewrite Hup. reflexivity. }
  exists (Some p :: take 29 features).
  split; [exact Hup|].
  split; [exact Hstep|].
  split; [rewrite recursive_loop_S, Hloop; exact Hstep|].
  split; [simpl; rewrite length_take, Hlen; reflexivity|].
  split; [reflexivity|].
  intros i Hi. destruct i as [|[|i]]; [lia|lia|].
  replace (S (S i) - 1) with (S i) by lia. replace (S (S i) - 2) with i by lia.
  simpl. apply lookup_take_lt. lia.
Qed.

Lemma C9_lag_shift_witness :
  exists features',
    Forecaster._update_features (lag_row sample_close 39) 5 = Ok features'
    /\ features' !! 0 = Some (Some 5%Q)
    /\ forall i, 1 < i <= 30 -> features' !! (i - 1) = lag_row sample_close 39 !! (i - 2).
Proof.
  destruct (C9_lag_shift failing_forecaster 0 [] (lag_row sample_close 39) 5)
    as (f & Hup & _ & _ & _ & H0 & Hshift).
  - vm_compute. reflexivity.
  - vm_compute. reflexivity.
  - exists f. split; [exact Hup|]. split; [exact H0|exact Hshift].
Defined.

(** ** C5: the worked scenario *)

(** C5 as stated fails: with window 1 the scan stops before the last
    day, so day 6 (price 80) is not among the detected minima. *)
Lemma C5_counterexample :
  point_in (6, 80%Q) (InvestmentStrategist.find_local_extrema scenario 1).1 = false
  /\ py_range 1 (InvestmentStrategist.days scenario - 1) = [1; 2; 3; 4; 5].
Proof. split; vm_compute; reflexivity. Qed.

(** C5, amended.  On the forecast [100, 90, 80, 90, 100, 90, 80] with
    window 1, extrema detection finds exactly one local minimum, at day 2
    (price 80), and one local maximum, at day 4 (price 100); the signals
    are exactly buy at day 2 and sell at day 4; with 1000 invested the
    simulation buys 12.5 shares at 80, sells them at 100, and ends with
    final value 1250, profit 250 and profit percent 25. *)
Theorem C5_scenario :
  InvestmentStrategist.find_local_extrema scenario 1 = ([(2, 80%Q)], [(4, 100%Q)])
  /\ InvestmentStrategist.generate_trading_signals [(2, 80%Q)] [(4, 100%Q)]
     = [(buy, 2, 80%Q); (sell, 4, 100%Q)]
  /\ exists gain info bought proceeds,
       InvestmentStrategist.calculate_profit scenario [(buy, 2, 80%Q); (sell, 4, 100%Q)]
       = Ok (Computed gain info)
       /\ (gain == 250)%Q
       /\ transactions info = [Purchase 2 80 bought; Sale 4 100 proceeds]
       /\ (bought == 125 # 10)%Q
       /\ (proceeds == 1250)%Q
       /\ (initial_investment info == 1000)%Q
       /\ (final_value info == 1250)%Q
       /\ (profit info == 250)%Q
       /\ (profit_percent info == 25)%Q.
Proof.
  split; [vm_compute; reflexivity|].
  split; [vm_compute; reflexivity|].
  do 4 eexists.
  split; [vm_compute; reflexivity|].
  cbn [transactions initial_investment final_value profit profit_percent].
  split; [reflexivity|].
  split; [reflexivity|].
  repeat split; reflexivity.
Qed.

(** ** C6: alternation of the signals *)

Lemma alternates_nil : alternates [].
Proof. intros i s H. rewrite lookup_nil in H. discriminate. Qed.

Lemma alternates_snoc (signals : list signal) (s : signal) :
  alternates signals ->
  signal_action s = (if Nat.even (length signals) then buy else sell) ->
  alternates (signals ++ [s]).
Proof.
  intros Halt Hs i x Hx.
  destruct (decide (i < length signals)) as [Hlt|Hge].
  - rewrite lookup_app_l in Hx by exact Hlt. apply Halt, Hx.
  - rewrite lookup_app_r in Hx by lia.
    destruct (i - length signals) as [|n] eqn:Hn; [|destruct n; discriminate Hx].
    injection Hx as <-. replace i with (length signals) by lia. exact Hs.
Qed.

Lemma signal_step_invariant (buy_points sell_points : list point)
    (st : list signal * action) (pt : point) :
  signals_invariant st ->
  signals_invariant (InvestmentStrategist.signal_step buy_points sell_points st pt).
Proof.
  destruct st as [signals current]. intros [Halt Hcur]. cbn [fst snd] in Halt, Hcur.
  unfold InvestmentStrategist.signal_step.
  destruct (point_in pt buy_points && negb (action_eqb current buy)) eqn:Hbuy.
  - apply andb_prop in Hbuy as [_ Hb]. apply negb_true_iff in Hb.
    rewrite Hb in Hcur. symmetry in Hcur. apply negb_false_iff in Hcur.
    split; cbn [fst snd].
    + apply alternates_snoc; [exact Halt|]. rewrite Hcur. reflexivity.
    + rewrite length_app, Nat.add_1_r, Nat.even_succ, <- Nat.negb_even, Hcur. reflexivity.
  - destruct (point_in pt sell_points && action_eqb current buy) eqn:Hsell.
    + apply andb_prop in Hsell as [_ Hb].
      rewrite Hb in Hcur. symmetry in Hcur. apply negb_true_iff in Hcur.
      split; cbn [fst snd].
      * apply alternates_snoc; [exact Halt|]. rewrite Hcur. reflexivity.
      * rewrite length_app, Nat.add_1_r, Nat.even_succ, <- Nat.negb_even, Hcur. reflexivity.
    + split; assumption.
Qed.

Lemma signal_loop_invariant (buy_points sell_points points : list point)
    (st : list signal * action) :
  signals_invariant st ->
  signals_invariant (foldl (InvestmentStrategist.signal_step buy_points sell_points) st points).
Proof.
  revert st. induction points as [|pt points IH]; intros st Hst; [exact Hst|].
  cbn [foldl]. apply IH, signal_step_invariant, Hst.
Qed.

Lemma generate_trading_signals_alternates (buy_points sell_points : list point) :
  alternates (InvestmentStrategist.generate_trading_signals buy_points sell_points).
Proof.
  unfold InvestmentStrategist.generate_trading_signals.
  apply signal_loop_invariant. split; [apply alternates_nil|reflexivity].
Qed.

(** C6.  Whatever minima and maxima are given, the signals
    [generate_trading_signals] produces strictly alternate starting with
    a buy: the first signal, if there is one, is a buy, no two
    consecutive signals have the same action, and every action is a buy
    or a sell. *)
Theorem C6_signals_alternate (buy_points sell_points : list point) :
  let signals := InvestmentStrategist.generate_trading_signals buy_points sell_points in
  (forall s, head signals = Some s -> signal_action s = buy)
  /\ (forall i a b, signals !! i = Some a -> signals !! S i = Some b ->
        signal_action a <> signal_action b)
  /\ (forall s, s ∈ signals -> signal_action s = buy \/ signal_action s = sell).
Proof.
  intros signals.
  pose proof (generate_trading_signals_alternates buy_points sell_points) as Halt.
  fold signals in Halt. clearbody signals.
  split; [|split].
  - intros s Hs. rewrite head_lookup in Hs. apply (Halt 0 s Hs).
  - intros i a b Ha Hb. rewrite (Halt _ _ Ha), (Halt _ _ Hb), Nat.even_succ, <- Nat.negb_even.
    destruct (Nat.even i); discriminate.
  - intros s Hs. apply list_elem_of_lookup in Hs as [i Hi].
    rewrite (Halt _ _ Hi). destruct (Nat.even i); auto.
Qed.

Lemma C6_signals_alternate_witness :
  head (InvestmentStrategist.generate_trading_signals [(2, 80%Q)] [(4, 100%Q)])
    = Some (buy, 2, 80%Q)
  /\ signal_action (buy, 2, 80%Q) = buy
  /\ InvestmentStrategist.generate_trading_signals [(2, 80%Q)] [(4, 100%Q)] !! 1
       = Some (sell, 4, 100%Q)
  /\ signal_action (buy, 2, 80%Q) <> signal_action (sell, 4, 100%Q).
Proof.
  destruct (C6_signals_alternate [(2, 80%Q)] [(4, 100%Q)]) as (Hhead & Hcons & _).
  assert (head (InvestmentStrategist.generate_trading_signals [(2, 80%Q)] [(4, 100%Q)])
          = Some (buy, 2, 80%Q)) as H0 by (vm_compute; reflexivity).
  assert (InvestmentStrategist.generate_trading_signals [(2, 80%Q)] [(4, 100%Q)] !! 1
          = Some (sell, 4, 100%Q)) as H1 by (vm_compute; reflexivity).
  split; [exact H0|]. split; [apply Hhead, H0|]. split; [exact H1|].
  apply (Hcons 0); [vm_compute; reflexivity|exact H1].
Defined.

(** ** C7: the portfolio simulation *)

(** One signal at a positive price keeps the portfolio all cash or all
    shares, and does not raise. *)
Lemma trade_invariant (st : InvestmentStrategist.portfolio) (s : signal) :
  fully_cash_or_invested st -> (0 < signal_price s)%Q ->
  exists st', InvestmentStrategist.trade st s = Ok st' /\ fully_cash_or_invested st'.
Proof.
  destruct s as [[a day] price]. unfold signal_price; cbn [snd].
  intros Hinv Hprice. unfold InvestmentStrategist.trade.
  destruct (action_eqb a buy && Qlt_bool 0 (InvestmentStrategist.cash st)) eqn:Hbuy.
  - apply andb_prop in Hbuy as [_ Hcash]. apply Qlt_bool_true in Hcash.
    rewrite (py_div_positive _ _ Hprice). cbn [mbind result_bind].
    eexists. split; [reflexivity|].
    right; cbn [InvestmentStrategist.cash InvestmentStrategist.shares].
    split; [reflexivity|].
    destruct Hinv as [[_ Hs]|[Hc _]].
    + rewrite Hs, Qplus_0_l. apply Qlt_shift_div_l; [exact Hprice|].
      rewrite Qmult_0_l. exact Hcash.
    + rewrite Hc in Hcash. exfalso. apply (Qlt_irrefl 0), Hcash.
  - destruct (action_eqb a sell && Qlt_bool 0 (InvestmentStrategist.shares st)) eqn:Hsell.
    + apply andb_prop in Hsell as [_ Hshares]. apply Qlt_bool_true in Hshares.
      eexists. split; [reflexivity|].
      left; cbn [InvestmentStrategist.cash InvestmentStrategist.shares].
      split; [|reflexivity].
      rewrite <- (Qmult_0_l price). apply Qmult_lt_compat_r; assumption.
    + eexists. split; [reflexivity|exact Hinv].
Qed.

Lemma trades_invariant (signals : list signal) (st : InvestmentStrategist.portfolio) :
  fully_cash_or_invested st ->
  Forall (fun s => (0 < signal_price s)%Q) signals ->
  exists st', for_each InvestmentStrategist.trade signals st = Ok st'
              /\ fully_cash_or_invested st'.
Proof.
  intros Hinv Hall. revert st Hinv.
  induction Hall as [|s signals Hs _ IH]; intros st Hinv.
  - exists st. split; [reflexivity|exact Hinv].
  - destruct (trade_invariant st s Hinv Hs) as (st1 & Htrade & Hinv1).
    cbn [for_each]. rewrite Htrade. apply IH, Hinv1.
Qed.

Lemma portfolio_init_invariant (self : InvestmentStrategist.t) :
  (0 < InvestmentStrategist.investment_amount self)%Q ->
  fully_cash_or_invested (InvestmentStrategist.portfolio_init self).
Proof. intros H. left. split; [exact H|reflexivity]. Qed.

Lemma py_div_nonzero (a b : Q) : ~ (b == 0)%Q -> py_div a b = Ok (a / b)%Q.
Proof.
  intros Hb. unfold py_div. destruct (Qeq_bool b 0) eqn:E; [|reflexivity].
  apply Qeq_bool_eq in E. contradiction.
Qed.








(** ** C8: failures inside the strategist *)

(** Where the fallback itself completes, [generate_recommendations]
    returns normally: whatever the main path raises is caught. *)
Lemma generate_recommendations_returns (self : InvestmentStrategist.t) (p : Q) :
  head (InvestmentStrategist.forecast_prices self) = Some p ->
  ~ (p == 0)%Q ->
  ~ (InvestmentStrategist.investment_amount self == 0)%Q ->
  exists r, InvestmentStrategist.generate_recommendations self = Ok r.
Proof.
  intros Hhead Hp Hamount.
  assert (forall a b, ~ (b == 0)%Q -> py_div a b = Ok (a / b)%Q) as Hdiv.
  { intros a b Hb. unfold py_div. destruct (Qeq_bool b 0) eqn:E; [|reflexivity].
    apply Qeq_bool_eq in E. contradiction. }
  assert (exists r, InvestmentStrategist._generate_fallback_recommendations self = Ok r)
    as [r Hr].
  { unfold InvestmentStrategist._generate_fallback_recommendations.
    destruct (InvestmentStrategist.forecast_prices self) as [|x l] eqn:Hfp; [discriminate|].
    injection Hhead as ->. cbn [py_first mbind result_bind].
    unfold py_last. destruct (last (p :: l)) as [final|] eqn:Hlast.
    2:{ apply last_None in Hlast. discriminate. }
    cbn [mbind result_bind]. rewrite (Hdiv _ _ Hp). cbn [mbind result_bind].
    rewrite (Hdiv _ _ Hamount). cbn [mbind result_bind]. eexists. reflexivity. }
  unfold InvestmentStrategist.generate_recommendations.
  match goal with |- context [try_except ?b _] => destruct b as [r'|e] end.
  - exists r'. reflexivity.
  - exists r. exact Hr.
Qed.

(** C8 fails on the code.  On an empty forecast path the fallback raises
    [IndexError] at [forecast_prices[0]]; the handler of
    [generate_recommendations] calls the fallback again, outside any
    [try], and the exception leaves the function.  On a single-point
    path at price zero the same happens with [ZeroDivisionError]. *)
Theorem C8_fallback_failure_propagates (amount : Q) :
  InvestmentStrategist.generate_recommendations (empty_forecast amount) = Raise IndexError
  /\ InvestmentStrategist._generate_fallback_recommendations (empty_forecast amount)
     = Raise IndexError
  /\ InvestmentStrategist.generate_recommendations (zero_forecast amount)
     = Raise ZeroDivisionError.
Proof. repeat split; reflexivity. Qed.

(** * Further properties of the code *)

(** ** model_trainer.py: the supervised table *)

Lemma shift_back_one (col : list cell) :
  shift (-1) col = drop 1 col ++ replicate (Nat.min 1 (length col)) None.
Proof. reflexivity. Qed.

(** [Close.shift(-1)] at time [t] is the next price, NaN at the last
    time. *)
Lemma shift_back_lookup (close : list Q) (t : nat) :
  t < length close -> shift (-1) (Some <$> close) !! t = Some (close !! (t + 1) : cell).
Proof.
  intros Ht. rewrite shift_back_one, length_fmap.
  destruct (decide (t + 1 < length close)) as [H|H].
  - rewrite lookup_app_l by (rewrite length_drop, length_fmap; lia).
    rewrite lookup_drop, list_lookup_fmap. replace (1 + t) with (t + 1) by lia.
    destruct (close !! (t + 1)) eqn:E; [reflexivity|].
    apply lookup_ge_None in E. lia.
  - rewrite lookup_app_r by (rewrite length_drop, length_fmap; lia).
    rewrite length_drop, length_fmap.
    rewrite (lookup_ge_None_2 close (t + 1)) by lia.
    rewrite Nat.min_l by lia.
    replace (t - (length close - 1)) with 0 by lia. reflexivity.
Qed.

Lemma forallb_fmap {A B} (f : B -> bool) (g : A -> B) (l : list A) :
  forallb f (g <$> l) = forallb (fun x => f (g x)) l.
Proof. induction l as [|x l IH]; simpl; [reflexivity|]. f_equal. exact IH. Qed.

Lemma row_complete_frame (d : DataFrame) (c v : list cell) (f : nat -> list cell) (p : nat) :
  columns d = ("Close"%string, c) :: ((fun i => (lag_name i, f i)) <$> seq 1 30)
                ++ [("target"%string, v)] ->
  row_complete d p
  = is_number (c !! p)
    && (forallb (fun i => is_number (f i !! p)) (seq 1 30) && is_number (v !! p)).
Proof.
  intros H. unfold row_complete. rewrite H. cbn [forallb].
  rewrite forallb_app, forallb_fmap. cbn [forallb snd]. rewrite andb_true_r. reflexivity.
Qed.

Lemma lags_complete (close : list Q) (t : nat) :
  t < length close ->
  forallb (fun i => is_number (shift (Z.of_nat i) (Some <$> close) !! t)) (seq 1 30) = true
  <-> 30 <= t.
Proof.
  intros Ht.
  assert (forall i, shift (Z.of_nat i) (Some <$> close) !! t = Some (lag_cell close t i)) as Hcell.
  { intros i. rewrite <- (shift_lookup_total close i t Ht).
    apply list_lookup_lookup_total_lt. rewrite length_shift, length_fmap. exact Ht. }
  rewrite forallb_forall. split.
  - intros H. specialize (H 30). rewrite Hcell in H. unfold lag_cell in H.
    destruct (30 <=? t) eqn:E; [apply Nat.leb_le in E; exact E|].
    assert (In 30 (seq 1 30)) as Hin by (apply in_seq; lia).
    specialize (H Hin). discriminate.
  - intros H i Hi. apply in_seq in Hi. rewrite Hcell. unfold lag_cell.
    destruct (i <=? t) eqn:E; [|apply Nat.leb_gt in E; lia].
    destruct (close !! (t - i)) eqn:E'; [reflexivity|].
    apply lookup_ge_None in E'. lia.
Qed.

(** A row of the lagged table is kept by [dropna] exactly when it has
    thirty earlier prices and one later price. *)
Lemma row_complete_with_target (self : ModelTrainer.t) (t : nat) :
  t < length (ModelTrainer.df self) ->
  row_complete (ModelTrainer.with_target self) t = true
  <-> 30 <= t /\ t + 1 < length (ModelTrainer.df self).
Proof.
  intros Ht.
  rewrite (row_complete_frame _ _ _
             (fun i => shift (Z.of_nat i) (Some <$> ModelTrainer.df self)) t
             (columns_with_target self)).
  rewrite !andb_true_iff, (lags_complete _ _ Ht).
  rewrite (shift_back_lookup _ _ Ht), list_lookup_fmap.
  destruct (ModelTrainer.df self !! t) eqn:E;
    [|apply lookup_ge_None in E; lia].
  cbn [fmap option_fmap option_map is_number].
  destruct (ModelTrainer.df self !! (t + 1)) eqn:E'.
  - apply lookup_lt_Some in E'. intuition.
  - apply lookup_ge_None in E'. intuition; try discriminate; lia.
Qed.

Lemma filter_seq_interval (f : nat -> bool) (a b n : nat) :
  b <= n -> (forall t, t < n -> f t = true <-> a <= t < b) ->
  List.filter f (seq 0 n) = seq a (b - a).
Proof.
  revert b. induction n as [|n IH]; intros b Hb Hf.
  - replace (b - a) with 0 by lia. reflexivity.
  - rewrite seq_S, List.filter_app. cbn [List.filter Nat.add].
    destruct (f n) eqn:E.
    + apply (Hf n) in E; [|lia].
      rewrite (IH n) by (try lia; intros t Ht; rewrite (Hf t) by lia; lia).
      replace (b - a) with (S (n - a)) by lia.
      rewrite seq_S. replace (a + (n - a)) with n by lia. reflexivity.
    + assert (~ (a <= n < b)) as Hn
        by (intros H; apply (Hf n) in H; [congruence|lia]).
      rewrite app_nil_r.
      destruct (decide (b <= n)) as [Hle|Hgt].
      * apply IH; [exact Hle|]. intros t Ht. apply Hf. lia.
      * rewrite (IH n) by (try lia; intros t Ht; rewrite (Hf t) by lia; lia).
        replace (n - a) with 0 by lia. replace (b - a) with 0 by lia. reflexivity.
Qed.

Lemma index_features_interval (self : ModelTrainer.t) :
  index (ModelTrainer.features self) = seq 30 (length (ModelTrainer.df self) - 31).
Proof.
  rewrite index_features.
  rewrite (filter_seq_interval _ 30 (length (ModelTrainer.df self) - 1)).
  - f_equal. lia.
  - lia.
  - intros t Ht. rewrite (row_complete_with_target self t Ht). lia.
Qed.

(** X1.  For a series of [n] prices the supervised table has one row for
    each time [t] with thirty earlier prices and one later price, that is
    [30 <= t <= n - 2], labelled [t] and in increasing order: [n - 31]
    rows, none when [n <= 31].  The train and the test part hold these
    rows once each, the train rows first. *)
Theorem supervised_table_rows (self : ModelTrainer.t) :
  let n := length (ModelTrainer.df self) in
  let d := ModelTrainer.prepare_ml_data self in
  index (ModelTrainer.features self) = seq 30 (n - 31)
  /\ len (ModelTrainer.features self) = n - 31
  /\ index (ModelTrainer.X_train d) ++ index (ModelTrainer.X_test d) = seq 30 (n - 31)
  /\ len (ModelTrainer.X_train d) + len (ModelTrainer.X_test d) = n - 31.
Proof.
  intros n d.
  assert (index (ModelTrainer.X_train d) ++ index (ModelTrainer.X_test d)
          = index (ModelTrainer.features self)) as Hsplit.
  { subst d. rewrite prepare_ml_data_eq.
    cbn [ModelTrainer.X_train ModelTrainer.X_test].
    rewrite index_iloc_to, index_iloc_from. apply slice_to_from. }
  pose proof (index_features_interval self) as Hidx. fold n in Hidx.
  split; [exact Hidx|].
  split; [unfold len; rewrite Hidx; apply length_seq|].
  split; [rewrite Hsplit; exact Hidx|].
  unfold len. rewrite <- length_app, Hsplit, Hidx. apply length_seq.
Qed.







(** ** model_trainer.py: the selection *)

(** What the selection loop returns with a model is one of its
    candidates. *)
Lemma selected_candidate (cands : list (string * result py_tuple)) m rmse name :
  ModelTrainer.select_best cands = (Some m, rmse, name) ->
  exists i mape,
    cands !! i = Some (name, Ok (Tuple3 (Some m) rmse mape))
    /\ forall j name' m' rmse' mape',
         cands !! j = Some (name', Ok (Tuple3 (Some m') rmse' mape')) ->
         xlt rmse' rmse = false /\ (j < i -> xlt rmse rmse' = true).
Proof.
  unfold ModelTrainer.select_best.
  pose proof (select_loop_lowest cands) as Hinv. unfold selection_invariant in Hinv.
  destruct (ModelTrainer.best_model (ModelTrainer.select_loop cands)) as [m0|];
    [|discriminate].
  intros [= -> <- <-]. destruct Hinv as (i & c & Hi & Hs & Hall).
  apply scored_Some_inv in Hs as [mape ->].
  exists i, mape. split; [exact Hi|].
  intros j name' m' rmse' mape' Hj. apply (Hall j _ name' m' rmse' Hj). reflexivity.
Qed.

Lemma selected_none (cands : list (string * result py_tuple)) :
  (ModelTrainer.select_best cands).1.1 = None ->
  ModelTrainer.select_best cands = (None, Inf, "Persistence"%string)
  /\ forall j name' m' rmse' mape',
       cands !! j = Some (name', Ok (Tuple3 (Some m') rmse' mape')) -> rmse' = Inf.
Proof.
  unfold ModelTrainer.select_best.
  pose proof (select_loop_lowest cands) as Hinv. unfold selection_invariant in Hinv.
  destruct (ModelTrainer.best_model (ModelTrainer.select_loop cands)) as [m0|];
    [discriminate|].
  intros _. split; [reflexivity|]. destruct Hinv as [_ Hall].
  intros j name' m' rmse' mape' Hj.
  specialize (Hall j _ name' m' rmse' Hj eq_refl).
  destruct rmse'; [discriminate|reflexivity].
Qed.

(** X3.  When [train_and_select_best] returns a model, it is the model of
    one of its candidates, returned with that candidate's name and RMSE;
    no candidate that returned three values with a model has a lower
    RMSE, and every such candidate listed before it has a strictly higher
    one (ties go to the earlier candidate).  When it returns no model, it
    returns [(None, inf, 'Persistence')], and every such candidate has an
    infinite RMSE. *)
Theorem selected_model_has_lowest_rmse (lib : ModelTrainer.learners) (self : ModelTrainer.t) :
  (forall m rmse name,
     ModelTrainer.train_and_select_best lib self = (Some m, rmse, name) ->
     exists i mape,
       ModelTrainer.models_to_train lib self !! i
       = Some (name, Ok (Tuple3 (Some m) rmse mape))
       /\ forall j name' m' rmse' mape',
            ModelTrainer.models_to_train lib self !! j
            = Some (name', Ok (Tuple3 (Some m') rmse' mape')) ->
            xlt rmse' rmse = false /\ (j < i -> xlt rmse rmse' = true))
  /\ ((ModelTrainer.train_and_select_best lib self).1.1 = None ->
      ModelTrainer.train_and_select_best lib self = (None, Inf, "Persistence"%string)
      /\ forall j name' m' rmse' mape',
           ModelTrainer.models_to_train lib self !! j
           = Some (name', Ok (Tuple3 (Some m') rmse' mape')) -> rmse' = Inf).
Proof.
  unfold ModelTrainer.train_and_select_best. split.
  - intros m rmse name. apply selected_candidate.
  - apply selected_none.
Qed.

Lemma selected_model_has_lowest_rmse_witness :
  exists i mape,
    ModelTrainer.models_to_train lowest_error_linear sample_trainer !! i
    = Some ("Ridge Regression"%string,
            Ok (Tuple3 (Some (Sklearn Ridge (fun _ => Ok 0%Q))) (Finite 2) mape))
    /\ forall j name' m' rmse' mape',
         ModelTrainer.models_to_train lowest_error_linear sample_trainer !! j
         = Some (name', Ok (Tuple3 (Some m') rmse' mape')) ->
         xlt rmse' (Finite 2) = false /\ (j < i -> xlt (Finite 2) rmse' = true).
Proof.
  apply (proj1 (selected_model_has_lowest_rmse lowest_error_linear sample_trainer)).
  vm_compute. reflexivity.
Defined.

Lemma results_select_step_tuple3 (st : ModelTrainer.selection) name m rmse mape :
  ModelTrainer.results (ModelTrainer.select_step st (name, Ok (Tuple3 m rmse mape)))
  = <[name := (rmse, mape)]> (ModelTrainer.results st).
Proof.
  unfold ModelTrainer.select_step. cbn [mbind result_bind unpack3].
  destruct (bool_decide (m <> None) && xlt rmse (ModelTrainer.best_rmse st)); reflexivity.
Qed.

(** What each of the first three training functions returns, by the
    outcome of its library call. *)
Lemma train_random_forest_outcome (lib : ModelTrainer.learners) (self : ModelTrainer.t) :
  ModelTrainer.train_random_forest lib self
  = match ModelTrainer.random_forest lib (ModelTrainer.prepare_ml_data self) with
    | Ok (predict, rmse, mape) =>
        Ok (Tuple3 (Some (Sklearn RandomForestRegressor predict)) rmse mape)
    | Raise _ => Ok (Tuple3 None Inf Inf)
    end.
Proof.
  unfold ModelTrainer.train_random_forest.
  destruct (ModelTrainer.random_forest lib (ModelTrainer.prepare_ml_data self))
    as [[[predict rmse] mape]|e]; reflexivity.
Qed.

Lemma train_ridge_regression_outcome (lib : ModelTrainer.learners) (self : ModelTrainer.t) :
  ModelTrainer.train_ridge_regression lib self
  = match ModelTrainer.ridge lib (ModelTrainer.prepare_ml_data self) with
    | Ok (predict, rmse, mape) => Ok (Tuple3 (Some (Sklearn Ridge predict)) rmse mape)
    | Raise _ => Ok (Tuple3 None Inf Inf)
    end.
Proof.
  unfold ModelTrainer.train_ridge_regression.
  destruct (ModelTrainer.ridge lib (ModelTrainer.prepare_ml_data self))
    as [[[predict rmse] mape]|e]; reflexivity.
Qed.

Lemma train_arima_outcome (lib : ModelTrainer.learners) (self : ModelTrainer.t) :
  ModelTrainer.train_arima lib self
  = match ModelTrainer.arima lib (ModelTrainer.arima_split self).1
            (ModelTrainer.arima_split self).2 with
    | Ok (forecast, rmse, mape) => Ok (Tuple3 (Some (ARIMAResultsWrapper forecast)) rmse mape)
    | Raise _ => Ok (Tuple3 None Inf Inf)
    end.
Proof.
  unfold ModelTrainer.train_arima.
  destruct (ModelTrainer.arima_split self) as [a b]. cbn [fst snd].
  destruct (ModelTrainer.arima lib a b) as [[[forecast rmse] mape]|e]; reflexivity.
Qed.

Lemma results_after_loop (lib : ModelTrainer.learners) (self : ModelTrainer.t) :
  ModelTrainer.results (ModelTrainer.select_loop (ModelTrainer.models_to_train lib self))
  = <["ARIMA"%string :=
        fit_errors (ModelTrainer.arima lib (ModelTrainer.arima_split self).1
                      (ModelTrainer.arima_split self).2)]>
      (<["Ridge Regression"%string :=
           fit_errors (ModelTrainer.ridge lib (ModelTrainer.prepare_ml_data self))]>
         (<["Random Forest"%string :=
              fit_errors (ModelTrainer.random_forest lib (ModelTrainer.prepare_ml_data self))]>
            ∅)).
Proof.
  unfold ModelTrainer.select_loop, ModelTrainer.models_to_train. cbn [foldl].
  rewrite train_random_forest_outcome, train_ridge_regression_outcome, train_arima_outcome.
  destruct (train_simple_lstm_tuple lib self) as (m4 & r4 & p4 & l4 & ->).
  rewrite select_step_tuple4.
  destruct (ModelTrainer.random_forest lib (ModelTrainer.prepare_ml_data self))
    as [[[f1 r1] p1]|e1];
  destruct (ModelTrainer.ridge lib (ModelTrainer.prepare_ml_data self))
    as [[[f2 r2] p2]|e2];
  destruct (ModelTrainer.arima lib (ModelTrainer.arima_split self).1
              (ModelTrainer.arima_split self).2) as [[[f3 r3] p3]|e3];
  rewrite !results_select_step_tuple3; reflexivity.
Qed.

(** X4.  After the selection loop [self.results] has an entry for
    ['Random Forest'], ['Ridge Regression'] and ['ARIMA'] and for no other
    name (none for ['LSTM']); each entry is the RMSE and MAPE of that fit,
    or [(inf, inf)] when the fit failed. *)
Theorem results_record_every_fit (lib : ModelTrainer.learners) (self : ModelTrainer.t) :
  let st := ModelTrainer.select_loop (ModelTrainer.models_to_train lib self) in
  let d := ModelTrainer.prepare_ml_data self in
  (forall name, is_Some (ModelTrainer.results st !! name)
                <-> name = "Random Forest"%string \/ name = "Ridge Regression"%string
                    \/ name = "ARIMA"%string)
  /\ ModelTrainer.results st !! "LSTM"%string = None
  /\ ModelTrainer.results st !! "Random Forest"%string
     = Some (fit_errors (ModelTrainer.random_forest lib d))
  /\ ModelTrainer.results st !! "Ridge Regression"%string
     = Some (fit_errors (ModelTrainer.ridge lib d))
  /\ ModelTrainer.results st !! "ARIMA"%string
     = Some (fit_errors (ModelTrainer.arima lib (ModelTrainer.arima_split self).1
                           (ModelTrainer.arima_split self).2)).
Proof.
  intros st d. subst st d. rewrite results_after_loop.
  generalize (fit_errors (ModelTrainer.random_forest lib (ModelTrainer.prepare_ml_data self))).
  generalize (fit_errors (ModelTrainer.ridge lib (ModelTrainer.prepare_ml_data self))).
  generalize (fit_errors (ModelTrainer.arima lib (ModelTrainer.arima_split self).1
                            (ModelTrainer.arima_split self).2)).
  intros e3 e2 e1.
  split; [|split; [|split; [|split]]].
  - intros name. rewrite !lookup_insert_is_Some', lookup_empty.
    split.
    + intros [<-|[<-|[<-|H]]]; auto. destruct H as [x H]. discriminate.
    + intros [-> | [-> | ->]]; auto.
  - rewrite !lookup_insert_ne by discriminate. apply lookup_empty.
  - rewrite !lookup_insert_ne by discriminate. apply lookup_insert_eq.
  - rewrite lookup_insert_ne by discriminate. apply lookup_insert_eq.
  - apply lookup_insert_eq.
Qed.

(** A candidate of [train_and_select_best] that carries a model. *)
Lemma models_to_train_model (lib : ModelTrainer.learners) (self : ModelTrainer.t)
    i name m rmse mape :
  ModelTrainer.models_to_train lib self !! i = Some (name, Ok (Tuple3 (Some m) rmse mape)) ->
  (name = "Random Forest"%string /\ exists p, m = Sklearn RandomForestRegressor p)
  \/ (name = "Ridge Regression"%string /\ exists p, m = Sklearn Ridge p)
  \/ (name = "ARIMA"%string /\ exists f, m = ARIMAResultsWrapper f).
Proof.
  unfold ModelTrainer.models_to_train.
  rewrite train_random_forest_outcome, train_ridge_regression_outcome, train_arima_outcome.
  destruct (train_simple_lstm_tuple lib self) as (m4 & r4 & p4 & l4 & ->).
  destruct i as [|[|[|[|i]]]]; cbn [lookup list_lookup]; intros H.
  - left. destruct (ModelTrainer.random_forest lib (ModelTrainer.prepare_ml_data self))
      as [[[f1 r1] p1]|e1]; inversion H; subst. split; [reflexivity|]. eexists; reflexivity.
  - right; left. destruct (ModelTrainer.ridge lib (ModelTrainer.prepare_ml_data self))
      as [[[f1 r1] p1]|e1]; inversion H; subst. split; [reflexivity|]. eexists; reflexivity.
  - right; right.
    destruct (ModelTrainer.arima lib (ModelTrainer.arima_split self).1
                (ModelTrainer.arima_split self).2)
      as [[[f1 r1] p1]|e1]; inversion H; subst. split; [reflexivity|]. eexists; reflexivity.
  - discriminate.
  - discriminate.
Qed.

(** [forecast] with a fitted ARIMA model. *)
Lemma forecast_arima (self : Forecaster.t) (days : Z) f :
  Forecaster.model self = Some (ARIMAResultsWrapper f) ->
  Forecaster.forecast self days
  = Ok (match f days with
        | Ok path => path
        | Raise _ => replicate (Z.to_nat days) (Forecaster.current_price self)
        end, Forecaster.current_price self).
Proof.
  intros Hm. unfold Forecaster.forecast. rewrite Hm.
  cbn [type_name model_forecast].
  replace (contains "arima" (lower "ARIMAResultsWrapper")) with true
    by (vm_compute; reflexivity).
  cbn [orb]. destruct (f days); reflexivity.
Qed.

(** [forecast] without a model. *)
Lemma forecast_persistence (self : Forecaster.t) (days : Z) :
  Forecaster.model self = None ->
  Forecaster.forecast self days
  = Ok (replicate (Z.to_nat days) (Forecaster.current_price self),
        Forecaster.current_price self).
Proof. intros Hm. unfold Forecaster.forecast. rewrite Hm. reflexivity. Qed.

(** X5.  Whatever [train_and_select_best] returns is forecast by the
    branch of [Forecaster.forecast] written for it: a model named
    ['Random Forest'] or ['Ridge Regression'] is a scikit-learn regressor
    and is forecast recursively, a model named ['ARIMA'] is forecast by
    its own [forecast] method (by repeating the current price when that
    raises), and no model, named ['Persistence'], by repeating the current
    price. *)
Theorem selected_model_dispatch (lib : ModelTrainer.learners) (self : ModelTrainer.t)
    (fc : Forecaster.t) (days : Z) (m : option Model) (rmse : xfloat) (name : string) :
  ModelTrainer.train_and_select_best lib self = (m, rmse, name) ->
  Forecaster.model fc = m ->
  let persistence := replicate (Z.to_nat days) (Forecaster.current_price fc) in
  ((name = "Random Forest"%string /\ exists p, m = Some (Sklearn RandomForestRegressor p))
   \/ (name = "Ridge Regression"%string /\ exists p, m = Some (Sklearn Ridge p)))
  /\ Forecaster.forecast fc days
     = Ok (Forecaster._recursive_forecast_ml fc days, Forecaster.current_price fc)
  \/ (name = "ARIMA"%string
      /\ exists f, m = Some (ARIMAResultsWrapper f)
         /\ Forecaster.forecast fc days
            = Ok (match f days with Ok path => path | Raise _ => persistence end,
                  Forecaster.current_price fc))
  \/ (name = "Persistence"%string /\ m = None /\ rmse = Inf
      /\ Forecaster.forecast fc days = Ok (persistence, Forecaster.current_price fc)).
Proof.
  intros Hsel Hm persistence. destruct m as [m|].
  - unfold ModelTrainer.train_and_select_best in Hsel.
    apply selected_candidate in Hsel as (i & mape & Hi & _).
    apply models_to_train_model in Hi as [[-> [p ->]] | [[-> [p ->]] | [-> [f ->]]]].
    + left. split; [left; split; [reflexivity|eexists; reflexivity]|].
      apply (forecast_sklearn fc days _ _ Hm).
    + left. split; [right; split; [reflexivity|eexists; reflexivity]|].
      apply (forecast_sklearn fc days _ _ Hm).
    + right; left. split; [reflexivity|]. exists f. split; [reflexivity|].
      apply (forecast_arima fc days f Hm).
  - right; right.
    destruct (selected_none (ModelTrainer.models_to_train lib self)) as [Hp _].
    { unfold ModelTrainer.train_and_select_best in Hsel. rewrite Hsel. reflexivity. }
    unfold ModelTrainer.train_and_select_best in Hsel.
    rewrite Hsel in Hp. injection Hp as -> ->.
    repeat split. apply (forecast_persistence fc days Hm).
Qed.

Lemma selected_model_dispatch_witness :
  Forecaster.forecast (sample_forecaster None) 3 = Ok ([139; 139; 139]%Q, 139%Q).
Proof.
  destruct (selected_model_dispatch failing_learners sample_trainer (sample_forecaster None) 3
              None Inf "Persistence"%string) as [[[[H _]|[H _]] _]|[[H _]|(_ & _ & _ & H)]].
  - vm_compute. reflexivity.
  - reflexivity.
  - discriminate H.
  - discriminate H.
  - discriminate H.
  - exact H.
Defined.

(** ** forecaster.py *)



Lemma recursive_loop_0 (self : Forecaster.t) :
  Forecaster.recursive_loop self 0
  = match Forecaster._get_last_features self with
    | Ok seed => Ok ([], seed)
    | Raise e => Raise e
    end.
Proof.
  unfold Forecaster.recursive_loop.
  destruct (Forecaster._get_last_features self); reflexivity.
Qed.

Lemma forecast_step_30 (self : Forecaster.t) (path : list Q) (features : list cell) :
  length features = 30 ->
  Forecaster.forecast_step self (path, features)
  = match Forecaster.predict_next self features with
    | Ok p => Ok (path ++ [p], Some p :: take 29 features)
    | Raise e => Raise e
    end.
Proof.
  intros Hlen. unfold Forecaster.forecast_step.
  destruct (Forecaster.predict_next self features) as [p|e]; [|reflexivity].
  cbn [mbind result_bind]. rewrite (update_features_30 _ p Hlen). reflexivity.
Qed.

Lemma rolled_nil (seed : list cell) : length seed = 30 -> rolled seed [] = seed.
Proof. intros H. unfold rolled. cbn [rev fmap list_fmap app]. apply take_ge. lia. Qed.

Lemma rolled_snoc (seed : list cell) (path : list Q) (p : Q) :
  rolled seed (path ++ [p]) = Some p :: take 29 (rolled seed path).
Proof.
  unfold rolled. rewrite rev_app_distr. cbn [rev app fmap list_fmap take].
  f_equal. rewrite take_take. reflexivity.
Qed.

(** The state of the loop of [_recursive_forecast_ml] after [k]
    iterations that did not fail. *)
Lemma recursive_loop_state (self : Forecaster.t) (seed : list cell) (k : nat) :
  Forecaster._get_last_features self = Ok seed ->
  forall path features,
    Forecaster.recursive_loop self k = Ok (path, features) ->
    length path = k
    /\ features = rolled seed path
    /\ forall i p, path !! i = Some p ->
         Forecaster.predict_next self (rolled seed (take i path)) = Ok p.
Proof.
  intros Hseed. pose proof (get_last_features_length self seed Hseed) as Hlen.
  induction k as [|k IH]; intros path features Hloop.
  - rewrite recursive_loop_0, Hseed in Hloop. injection Hloop as <- <-.
    split; [reflexivity|]. split; [symmetry; apply rolled_nil, Hlen|].
    intros i p Hi. rewrite lookup_nil in Hi. discriminate.
  - rewrite recursive_loop_S in Hloop.
    destruct (Forecaster.recursive_loop self k) as [[path0 features0]|e] eqn:Hk;
      [|discriminate].
    destruct (IH path0 features0 eq_refl) as (Hk0 & Hf0 & Hp0).
    assert (length features0 = 30) as Hlen0
      by apply (recursive_loop_shape self k _ Hk).
    rewrite (forecast_step_30 self path0 features0 Hlen0) in Hloop.
    destruct (Forecaster.predict_next self features0) as [p|e] eqn:Hp; [|discriminate].
    injection Hloop as <- <-.
    split; [rewrite length_app; simpl; lia|].
    split; [rewrite rolled_snoc, Hf0; reflexivity|].
    intros i q Hi.
    destruct (decide (i < length path0)) as [Hlt|Hge].
    + rewrite lookup_app_l in Hi by exact Hlt.
      rewrite take_app_le by lia. apply (Hp0 i q Hi).
    + apply lookup_lt_Some in Hi as Hlt. rewrite length_app in Hlt. simpl in Hlt.
      assert (i = length path0) as -> by lia.
      rewrite list_lookup_middle in Hi by reflexivity. injection Hi as <-.
      rewrite take_app_length, <- Hf0. exact Hp.
Qed.

(** X7.  Recursive forecasting feeds every prediction back: when no step
    fails, the forecast for day [i] is what the model predicts from the
    vector made of the earlier forecasts, newest first, followed by the
    seed vector and cut to thirty entries; the path has [days] entries;
    and the vector the loop holds after [k] steps is made the same way
    from the first [k] forecasts. *)
Theorem recursive_forecast_feeds_back (self : Forecaster.t) (days : Z)
    (seed : list cell) (st : list Q * list cell) :
  Forecaster._get_last_features self = Ok seed ->
  Forecaster.recursive_loop self (Z.to_nat days) = Ok st ->
  Forecaster._recursive_forecast_ml self days = st.1
  /\ length st.1 = Z.to_nat days
  /\ st.2 = rolled seed st.1
  /\ forall i p, st.1 !! i = Some p ->
       Forecaster.predict_next self (rolled seed (take i st.1)) = Ok p.
Proof.
  intros Hseed Hloop. destruct st as [path features].
  split; [unfold Forecaster._recursive_forecast_ml; rewrite Hloop; reflexivity|].
  apply (recursive_loop_state self seed _ Hseed path features Hloop).
Qed.

Lemma recursive_forecast_feeds_back_witness :
  Forecaster._recursive_forecast_ml constant_forecaster 2 = [7; 7]%Q
  /\ Forecaster.predict_next constant_forecaster (rolled (lag_row sample_close 39) [7%Q])
     = Ok 7%Q.
Proof.
  destruct (recursive_forecast_feeds_back constant_forecaster 2 (lag_row sample_close 39)
              ([7; 7]%Q, rolled (lag_row sample_close 39) [7; 7]%Q))
    as (Hpath & _ & _ & Hpred).
  - vm_compute. reflexivity.
  - vm_compute. reflexivity.
  - split; [exact Hpath|]. apply (Hpred 1 7%Q). reflexivity.
Defined.

(** X8.  [_update_features] on a vector of any length: with at least
    thirty entries the new price is put first, the first twenty-nine
    entries follow it and the entries from position thirty on stay where
    they are (the old entry 29 is dropped); with fewer than thirty entries
    the function raises [IndexError]. *)
Theorem update_features_bounds (current_features : list cell) (new_price : Q) :
  (30 <= length current_features ->
   Forecaster._update_features current_features new_price
   = Ok (Some new_price :: take 29 current_features ++ drop 30 current_features))
  /\ (length current_features < 30 ->
      Forecaster._update_features current_features new_price = Raise IndexError).
Proof.
  split; intros H.
  - do 30 (destruct current_features as [|? current_features]; [simpl in H; lia|]).
    vm_compute. reflexivity.
  - do 30 (destruct current_features as [|? current_features]; [vm_compute; reflexivity|]).
    simpl in H. lia.
Qed.

Lemma update_features_bounds_witness :
  Forecaster._update_features (replicate 31 (Some 1%Q)) 2
  = Ok (Some 2%Q :: take 29 (replicate 31 (Some 1%Q)) ++ drop 30 (replicate 31 (Some 1%Q)))
  /\ Forecaster._update_features [Some 1%Q] 2 = Raise IndexError.
Proof.
  split.
  - apply (proj1 (update_features_bounds (replicate 31 (Some 1%Q)) 2)). simpl. lia.
  - apply (proj2 (update_features_bounds [Some 1%Q] 2)). simpl. lia.
Defined.

(** X9.  The seed vector of a non-empty history of [n] prices has thirty
    entries; entry [lag_i] is the price [i] steps before the last one
    when the history reaches that far back ([i < n]) and NaN otherwise.
    So the seed is free of NaN exactly when the history has at least 31
    prices.  On an empty history [_get_last_features] raises
    [IndexError]. *)
Theorem seed_vector_cells (self : Forecaster.t) :
  let hist := Forecaster.historical_data self in
  let n := length hist in
  (hist = [] -> Forecaster._get_last_features self = Raise IndexError)
  /\ (hist <> [] ->
      exists seed,
        Forecaster._get_last_features self = Ok seed
        /\ length seed = 30
        /\ (forall i, 1 <= i <= 30 ->
             seed !! (i - 1) = Some (if decide (i < n) then hist !! (n - 1 - i) else None))
        /\ (Forall (fun c : cell => is_Some c) seed <-> 31 <= n)).
Proof.
  intros hist n. split; intros Hh.
  - destruct self as [m h p]. cbn in hist. subst hist. subst h. vm_compute. reflexivity.
  - exists (lag_row hist (n - 1)).
    assert (0 < n) as Hn by (subst n; destruct hist; [congruence|simpl; lia]).
    assert (forall i, 1 <= i <= 30 ->
              lag_row hist (n - 1) !! (i - 1)
              = Some (if decide (i < n) then hist !! (n - 1 - i) else None)) as Hcell.
    { intros i Hi. unfold lag_row. rewrite list_lookup_fmap.
      rewrite lookup_seq_lt by lia. cbn [fmap option_fmap option_map]. f_equal.
      replace (1 + (i - 1)) with i by lia. unfold lag_cell.
      destruct (decide (i < n)) as [Hlt|Hge].
      - destruct (i <=? n - 1) eqn:E; [reflexivity|apply Nat.leb_gt in E; lia].
      - destruct (i <=? n - 1) eqn:E; [apply Nat.leb_le in E; lia|reflexivity]. }
    split; [apply get_last_features_eq, Hh|].
    split; [unfold lag_row; rewrite length_fmap; apply length_seq|].
    split; [exact Hcell|].
    rewrite Forall_lookup. split.
    + intros H. specialize (H 29 _ (Hcell 30 ltac:(lia))).
      destruct (decide (30 < n)) as [Hlt|Hge]; [lia|]. destruct H as [x H]. discriminate.
    + intros Hlen j c Hj.
      assert (j < 30) as Hj30.
      { pose proof (lookup_lt_Some _ _ _ Hj) as Hlt. unfold lag_row in Hlt.
        rewrite length_fmap, length_seq in Hlt. exact Hlt. }
      specialize (Hcell (S j) ltac:(lia)).
      replace (S j - 1) with j in Hcell by lia.
      pose proof (eq_trans (eq_sym Hj) Hcell) as Heq. injection Heq as ->.
      destruct (decide (S j < n)) as [Hlt|Hge]; [|lia].
      apply lookup_lt_is_Some_2. lia.
Qed.

Lemma seed_vector_cells_witness :
  Forecaster._get_last_features
    {| Forecaster.model := None; Forecaster.historical_data := [];
       Forecaster.current_price := 0 |} = Raise IndexError
  /\ exists seed,
       Forecaster._get_last_features (sample_forecaster None) = Ok seed
       /\ seed !! 0 = Some (Some 138%Q) /\ Forall (fun c : cell => is_Some c) seed.
Proof.
  split.
  - apply (proj1 (seed_vector_cells
                    {| Forecaster.model := None; Forecaster.historical_data := [];
                       Forecaster.current_price := 0 |})).
    reflexivity.
  - destruct (proj2 (seed_vector_cells (sample_forecaster None)))
      as (seed & Hseed & _ & Hcell & Hall).
    + discriminate.
    + exists seed. split; [exact Hseed|].
      split; [apply (Hcell 1); lia|].
      apply Hall. vm_compute. lia.
Defined.

(** ** strategist.py: the turning points *)

(** The loop of [find_local_extrema] keeps the days that pass its two
    tests. *)
Lemma extrema_loop (prices : list Q) (window : nat) (l : list nat) (b s : list point) :
  foldl (InvestmentStrategist.extrema_step prices window) (b, s) l
  = (b ++ ((fun i => (i, prices !!! i)) <$> List.filter (lowest_within prices window) l),
     s ++ ((fun i => (i, prices !!! i)) <$> List.filter (highest_within prices window) l)).
Proof.
  revert b s. induction l as [|i l IH]; intros b s.
  - cbn [foldl List.filter fmap list_fmap]. rewrite !app_nil_r. reflexivity.
  - cbn [foldl List.filter].
    assert (InvestmentStrategist.extrema_step prices window (b, s) i
            = (if lowest_within prices window i then b ++ [(i, prices !!! i)] else b,
               if highest_within prices window i then s ++ [(i, prices !!! i)] else s))
      as -> by reflexivity.
    rewrite IH.
    destruct (lowest_within prices window i), (highest_within prices window i);
      cbn [fmap list_fmap]; rewrite <- ?app_assoc; reflexivity.
Qed.

Lemma find_local_extrema_eq (self : InvestmentStrategist.t) (window : nat) :
  InvestmentStrategist.find_local_extrema self window
  = ((fun i => (i, InvestmentStrategist.forecast_prices self !!! i))
       <$> List.filter (lowest_within (InvestmentStrategist.forecast_prices self) window)
             (py_range window (InvestmentStrategist.days self - window)),
     (fun i => (i, InvestmentStrategist.forecast_prices self !!! i))
       <$> List.filter (highest_within (InvestmentStrategist.forecast_prices self) window)
             (py_range window (InvestmentStrategist.days self - window))).
Proof. unfold InvestmentStrategist.find_local_extrema. apply extrema_loop. Qed.

Lemma py_slice_forallb {A} (f : A -> bool) (a b : nat) (l : list A) :
  forallb f (py_slice a b l) = true
  <-> forall j x, a <= j < b -> l !! j = Some x -> f x = true.
Proof.
  unfold py_slice. rewrite forallb_forall. split.
  - intros H j x Hj Hl. apply H, list_elem_of_In, list_elem_of_lookup.
    exists (j - a). rewrite lookup_take_lt by lia. rewrite lookup_drop.
    replace (a + (j - a)) with j by lia. exact Hl.
  - intros H x Hin. apply list_elem_of_In, list_elem_of_lookup in Hin as [k Hk].
    apply lookup_take_Some in Hk as [Hk Hlt]. rewrite lookup_drop in Hk.
    apply (H (a + k) x); [lia|exact Hk].
Qed.

Lemma lowest_within_spec (prices : list Q) (window i : nat) :
  i < length prices ->
  lowest_within prices window i = true
  <-> forall j q, i - window <= j <= i + window -> prices !! j = Some q ->
        (prices !!! i <= q)%Q.
Proof.
  intros Hi. unfold lowest_within. rewrite andb_true_iff, !py_slice_forallb. split.
  - intros [Hb Ha] j q Hj Hq.
    destruct (lt_eq_lt_dec j i) as [[Hlt|Heq]|Hgt].
    + apply Qle_bool_iff, (Hb j q); [lia|exact Hq].
    + subst j. rewrite (list_lookup_total_correct _ _ _ Hq). apply Qle_refl.
    + apply Qle_bool_iff, (Ha j q); [lia|exact Hq].
  - intros H. split; intros j q Hj Hq; apply Qle_bool_iff, (H j q); try lia; exact Hq.
Qed.

Lemma highest_within_spec (prices : list Q) (window i : nat) :
  i < length prices ->
  highest_within prices window i = true
  <-> forall j q, i - window <= j <= i + window -> prices !! j = Some q ->
        (q <= prices !!! i)%Q.
Proof.
  intros Hi. unfold highest_within. rewrite andb_true_iff, !py_slice_forallb. split.
  - intros [Hb Ha] j q Hj Hq.
    destruct (lt_eq_lt_dec j i) as [[Hlt|Heq]|Hgt].
    + apply Qle_bool_iff, (Hb j q); [lia|exact Hq].
    + subst j. rewrite (list_lookup_total_correct _ _ _ Hq). apply Qle_refl.
    + apply Qle_bool_iff, (Ha j q); [lia|exact Hq].
  - intros H. split; intros j q Hj Hq; apply Qle_bool_iff, (H j q); try lia; exact Hq.
Qed.

(** The members of a list of detected points. *)
Lemma detected_point (prices : list Q) (test : nat -> bool) (window n i : nat) (p : Q) :
  (i, p) ∈ (fun i => (i, prices !!! i)) <$> List.filter test (py_range window (n - window))
  <-> (window <= i /\ i + window < n) /\ test i = true /\ p = prices !!! i.
Proof.
  rewrite list_elem_of_fmap. unfold py_range. split.
  - intros (k & [= -> ->] & Hk). apply list_elem_of_In, filter_In in Hk as [Hk Ht].
    apply in_seq in Hk. split; [lia|]. split; [exact Ht|reflexivity].
  - intros (Hi & Ht & ->). exists i. split; [reflexivity|].
    apply list_elem_of_In, filter_In. split; [apply in_seq; lia|exact Ht].
Qed.

Lemma detected_days_sorted (prices : list Q) (test : nat -> bool) (a n : nat) :
  StronglySorted lt (fst <$> ((fun i => (i, prices !!! i)) <$> List.filter test (seq a n))).
Proof.
  rewrite <- list_fmap_compose.
  replace (fst ∘ (fun i => (i, prices !!! i)) <$> List.filter test (seq a n))
    with (List.filter test (seq a n))
    by (rewrite <- (list_fmap_id (List.filter test (seq a n))) at 1;
        apply list_fmap_ext; intros; reflexivity).
  apply StronglySorted_filter, StronglySorted_seq.
Qed.

(** X10.  [find_local_extrema] returns as buy points exactly the days
    that are local minima of the path for the window, each with its
    price, and as sell points exactly the local maxima; a day nearer than
    [window] to either end of the path is never returned.  Both lists are
    in strictly increasing day order. *)
Theorem find_local_extrema_spec (self : InvestmentStrategist.t) (window : nat) :
  let prices := InvestmentStrategist.forecast_prices self in
  let found := InvestmentStrategist.find_local_extrema self window in
  (forall i p, (i, p) ∈ found.1 <-> local_min prices window i /\ p = prices !!! i)
  /\ (forall i p, (i, p) ∈ found.2 <-> local_max prices window i /\ p = prices !!! i)
  /\ StronglySorted lt (fst <$> found.1)
  /\ StronglySorted lt (fst <$> found.2).
Proof.
  intros prices found. subst found. rewrite find_local_extrema_eq. fold prices.
  cbn [fst snd]. unfold InvestmentStrategist.days. fold prices.
  split; [|split; [|split]].
  - intros i p. rewrite detected_point. unfold local_min. split.
    + intros (Hi & Ht & ->). split; [|reflexivity].
      split; [lia|]. split; [lia|]. apply lowest_within_spec; [lia|exact Ht].
    + intros ((Hw & Hi & H) & ->). split; [lia|]. split; [|reflexivity].
      apply lowest_within_spec; [lia|exact H].
  - intros i p. rewrite detected_point. unfold local_max. split.
    + intros (Hi & Ht & ->). split; [|reflexivity].
      split; [lia|]. split; [lia|]. apply highest_within_spec; [lia|exact Ht].
    + intros ((Hw & Hi & H) & ->). split; [lia|]. split; [|reflexivity].
      apply highest_within_spec; [lia|exact H].
  - apply detected_days_sorted.
  - apply detected_days_sorted.
Qed.

Lemma Qle_bool_opp (p q : Q) : Qle_bool (- p) (- q) = Qle_bool q p.
Proof.
  apply eq_true_iff_eq. rewrite !Qle_bool_iff. split; intros H; lra.
Qed.

Lemma forallb_ext_in {A} (f g : A -> bool) (l : list A) :
  (forall x, In x l -> f x = g x) -> forallb f l = forallb g l.
Proof.
  induction l as [|x l IH]; intros H; [reflexivity|]. cbn [forallb].
  rewrite (H x) by (left; reflexivity). f_equal. apply IH. intros y Hy. apply H. right. exact Hy.
Qed.

Lemma py_slice_fmap {A B} (f : A -> B) (a b : nat) (l : list A) :
  py_slice a b (f <$> l) = f <$> py_slice a b l.
Proof. unfold py_slice. rewrite fmap_take, fmap_drop. reflexivity. Qed.

Lemma lowest_within_opp (prices : list Q) (window i : nat) :
  i < length prices ->
  lowest_within (Qopp <$> prices) window i = highest_within prices window i.
Proof.
  intros Hi. unfold lowest_within, highest_within.
  rewrite (list_lookup_total_fmap Qopp prices i Hi), !py_slice_fmap, !forallb_fmap.
  f_equal; apply forallb_ext_in; intros q _; apply Qle_bool_opp.
Qed.

Lemma highest_within_opp (prices : list Q) (window i : nat) :
  i < length prices ->
  highest_within (Qopp <$> prices) window i = lowest_within prices window i.
Proof.
  intros Hi. unfold lowest_within, highest_within.
  rewrite (list_lookup_total_fmap Qopp prices i Hi), !py_slice_fmap, !forallb_fmap.
  f_equal; apply forallb_ext_in; intros q _;
    rewrite <- (Qle_bool_opp q (prices !!! i)); reflexivity.
Qed.

Lemma detected_opp (prices : list Q) (test test' : nat -> bool) (window : nat) :
  (forall i, i < length prices -> test' i = test i) ->
  (fun i => (i, (Qopp <$> prices) !!! i))
    <$> List.filter test' (py_range window (length prices - window))
  = mirror ((fun i => (i, prices !!! i))
              <$> List.filter test (py_range window (length prices - window))).
Proof.
  intros Htest. unfold mirror. rewrite <- list_fmap_compose.
  assert (forall i, In i (py_range window (length prices - window)) -> i < length prices)
    as Hrange by (intros i Hi; apply in_seq in Hi; lia).
  rewrite (filter_ext_in test' test)
    by (intros i Hi; apply Htest, Hrange, Hi).
  apply list_fmap_ext. intros k i Hk. cbn [compose fst snd]. f_equal.
  apply list_lookup_total_fmap, Hrange.
  assert (In i (List.filter test (py_range window (length prices - window)))) as Hin
    by (apply list_elem_of_In; eapply list_elem_of_lookup_2; exact Hk).
  apply filter_In in Hin. tauto.
Qed.

(** X11.  Minima and maxima are detected by mirrored tests: on the path
    with every price negated, [find_local_extrema] returns as buy points
    the sell points of the original path and as sell points its buy
    points, each with its price negated. *)
Theorem find_local_extrema_negated (self : InvestmentStrategist.t) (window : nat) :
  InvestmentStrategist.find_local_extrema (negated self) window
  = (mirror (InvestmentStrategist.find_local_extrema self window).2,
     mirror (InvestmentStrategist.find_local_extrema self window).1).
Proof.
  rewrite !find_local_extrema_eq. cbn [fst snd].
  unfold negated, InvestmentStrategist.days. cbn [InvestmentStrategist.forecast_prices].
  rewrite length_fmap. f_equal.
  - apply detected_opp. intros i Hi. apply lowest_within_opp, Hi.
  - apply detected_opp. intros i Hi. apply highest_within_opp, Hi.
Qed.

Lemma filter_none {A} (f : A -> bool) (l : list A) :
  (forall x, In x l -> f x = false) -> List.filter f l = [].
Proof.
  induction l as [|x l IH]; intros H; [reflexivity|]. cbn [List.filter].
  rewrite (H x) by (left; reflexivity). apply IH. intros y Hy. apply H. right. exact Hy.
Qed.

(** On a strictly monotone path no day passes either test. *)
Lemma monotone_no_test (prices : list Q) (window i : nat) :
  1 <= window -> window <= i -> i + window < length prices ->
  strictly_increasing prices \/ strictly_decreasing prices ->
  lowest_within prices window i = false /\ highest_within prices window i = false.
Proof.
  intros Hw Hi Hlen Hmono.
  destruct (lookup_lt_is_Some_2 prices (i - 1) ltac:(lia)) as [a Ha].
  destruct (lookup_lt_is_Some_2 prices i ltac:(lia)) as [p Hp].
  destruct (lookup_lt_is_Some_2 prices (S i) ltac:(lia)) as [c Hc].
  assert (prices !! S (i - 1) = Some p) as Hp' by (replace (S (i - 1)) with i by lia; exact Hp).
  assert (prices !!! i = p) as Htot by (apply list_lookup_total_correct, Hp).
  split.
  - destruct (lowest_within prices window i) eqn:E; [exfalso|reflexivity].
    pose proof (proj1 (lowest_within_spec prices window i ltac:(lia)) E) as E'.
    clear E. rename E' into E. rewrite Htot in E.
    pose proof (E (i - 1) a ltac:(lia) Ha) as H1.
    pose proof (E (S i) c ltac:(lia) Hc) as H2.
    destruct Hmono as [Hinc|Hdec].
    + pose proof (Hinc (i - 1) a p Ha Hp'). lra.
    + pose proof (Hdec i p c Hp Hc). lra.
  - destruct (highest_within prices window i) eqn:E; [exfalso|reflexivity].
    pose proof (proj1 (highest_within_spec prices window i ltac:(lia)) E) as E'.
    clear E. rename E' into E. rewrite Htot in E.
    pose proof (E (i - 1) a ltac:(lia) Ha) as H1.
    pose proof (E (S i) c ltac:(lia) Hc) as H2.
    destruct Hmono as [Hinc|Hdec].
    + pose proof (Hinc i p c Hp Hc). lra.
    + pose proof (Hdec (i - 1) a p Ha Hp'). lra.
Qed.

Lemma monotone_no_extrema (self : InvestmentStrategist.t) (window : nat) :
  1 <= window ->
  strictly_increasing (InvestmentStrategist.forecast_prices self)
  \/ strictly_decreasing (InvestmentStrategist.forecast_prices self) ->
  InvestmentStrategist.find_local_extrema self window = ([], []).
Proof.
  intros Hw Hmono. rewrite find_local_extrema_eq. unfold InvestmentStrategist.days.
  rewrite !filter_none; [reflexivity| |];
    intros i Hi; apply in_seq in Hi;
    apply (monotone_no_test (InvestmentStrategist.forecast_prices self) window i);
    try lia; exact Hmono.
Qed.

Lemma generate_recommendations_no_points (self : InvestmentStrategist.t) :
  InvestmentStrategist.find_local_extrema self 3 = ([], []) ->
  InvestmentStrategist.generate_recommendations self
  = InvestmentStrategist._generate_fallback_recommendations self.
Proof.
  intros H. unfold InvestmentStrategist.generate_recommendations. rewrite H.
  destruct (InvestmentStrategist._generate_fallback_recommendations self); reflexivity.
Qed.

(** X12.  On a path that rises strictly every day, or falls strictly
    every day, [find_local_extrema] finds no point for any window of at
    least one day, and [generate_recommendations] returns what the
    buy-and-hold fallback returns. *)
Theorem monotone_forecast_buy_and_hold (self : InvestmentStrategist.t) (window : nat) :
  1 <= window ->
  strictly_increasing (InvestmentStrategist.forecast_prices self)
  \/ strictly_decreasing (InvestmentStrategist.forecast_prices self) ->
  InvestmentStrategist.find_local_extrema self window = ([], [])
  /\ InvestmentStrategist.generate_recommendations self
     = InvestmentStrategist._generate_fallback_recommendations self.
Proof.
  intros Hw Hmono. split; [apply monotone_no_extrema; assumption|].
  apply generate_recommendations_no_points, monotone_no_extrema; [lia|exact Hmono].
Qed.

Lemma monotone_forecast_buy_and_hold_witness :
  InvestmentStrategist.find_local_extrema rising 3 = ([], [])
  /\ InvestmentStrategist.generate_recommendations rising
     = InvestmentStrategist._generate_fallback_recommendations rising.
Proof.
  apply (monotone_forecast_buy_and_hold rising 3); [lia|].
  left. intros i p q Hp Hq.
  do 8 (destruct i as [|i];
        [first [discriminate Hq | injection Hp as <-; injection Hq as <-; reflexivity]|]).
  discriminate Hp.
Defined.

(** ** strategist.py: the signals *)

Lemma insert_by_day_perm (pt : point) (l : list point) : insert_by_day pt l ≡ₚ pt :: l.
Proof.
  induction l as [|q l IH]; [reflexivity|]. cbn [insert_by_day].
  destruct (pt.1 <? q.1); [reflexivity|]. rewrite IH. apply perm_swap.
Qed.

Lemma insert_by_day_sorted (pt : point) (l : list point) :
  StronglySorted (fun a b : point => a.1 <= b.1) l ->
  StronglySorted (fun a b : point => a.1 <= b.1) (insert_by_day pt l).
Proof.
  induction 1 as [|q l Hl IH Hq]; cbn [insert_by_day]; [repeat constructor|].
  destruct (pt.1 <? q.1) eqn:E.
  - apply Nat.ltb_lt in E. constructor; [constructor; assumption|].
    constructor; [lia|]. eapply Forall_impl; [exact Hq|]. intros x Hx. cbn in Hx |- *. lia.
  - apply Nat.ltb_ge in E. constructor; [exact IH|].
    rewrite insert_by_day_perm. constructor; [exact E|exact Hq].
Qed.

Lemma sorted_by_day_perm (l : list point) : sorted_by_day l ≡ₚ l.
Proof.
  unfold sorted_by_day.
  assert (forall acc, foldl (fun acc pt => insert_by_day pt acc) acc l ≡ₚ acc ++ l) as H.
  { induction l as [|pt l IH]; intros acc; cbn [foldl].
    - rewrite app_nil_r. reflexivity.
    - rewrite IH, insert_by_day_perm. apply Permutation_middle. }
  apply (H []).
Qed.

Lemma sorted_by_day_sorted (l : list point) :
  StronglySorted (fun a b : point => a.1 <= b.1) (sorted_by_day l).
Proof.
  unfold sorted_by_day.
  assert (forall acc, StronglySorted (fun a b : point => a.1 <= b.1) acc ->
            StronglySorted (fun a b : point => a.1 <= b.1)
              (foldl (fun acc pt => insert_by_day pt acc) acc l)) as H.
  { induction l as [|pt l IH]; intros acc Hacc; cbn [foldl]; [exact Hacc|].
    apply IH, insert_by_day_sorted, Hacc. }
  apply H. constructor.
Qed.

Lemma StronglySorted_snoc {A} (R : relation A) (l : list A) (x : A) :
  StronglySorted R l -> Forall (fun y => R y x) l -> StronglySorted R (l ++ [x]).
Proof.
  induction 1 as [|y l Hl IH Hy]; intros HF; cbn [app]; [repeat constructor|].
  inversion HF as [|? ? Hyx HF']; subst.
  constructor; [apply IH, HF'|].
  apply Forall_app. split; [exact Hy|]. repeat constructor. exact Hyx.
Qed.

(** What one iteration of the loop of [generate_trading_signals] does. *)
Lemma signal_step_cases (b s : list point) (signals : list signal) (cur : action) (pt : point) :
  let st' := InvestmentStrategist.signal_step b s (signals, cur) pt in
  (point_in pt b = true /\ action_eqb cur buy = false
   /\ st' = (signals ++ [(buy, pt.1, pt.2)], buy))
  \/ (point_in pt s = true /\ action_eqb cur buy = true
      /\ st' = (signals ++ [(sell, pt.1, pt.2)], sell))
  \/ ((point_in pt b = false \/ action_eqb cur buy = true) /\ st' = (signals, cur)).
Proof.
  unfold InvestmentStrategist.signal_step.
  destruct (point_in pt b) eqn:Hb, (action_eqb cur buy) eqn:Hc, (point_in pt s) eqn:Hs;
    cbn [andb negb]; auto 10.
Qed.

Lemma signal_loop_Forall (P : signal -> Prop) (b s pts : list point)
    (st : list signal * action) :
  Forall P st.1 ->
  (forall pt, pt ∈ pts -> point_in pt b = true -> P (buy, pt.1, pt.2)) ->
  (forall pt, pt ∈ pts -> point_in pt s = true -> P (sell, pt.1, pt.2)) ->
  Forall P (foldl (InvestmentStrategist.signal_step b s) st pts).1.
Proof.
  revert st. induction pts as [|pt pts IH]; intros [signals cur] Hst Hb Hs; [exact Hst|].
  cbn [foldl]. cbn [fst] in Hst.
  assert (pt ∈ pt :: pts) as Hpt by apply list_elem_of_here.
  assert (forall x, x ∈ pts -> x ∈ pt :: pts) as Hin by (intros x Hx; apply list_elem_of_further, Hx).
  destruct (signal_step_cases b s signals cur pt) as [(H1 & _ & ->)|[(H1 & _ & ->)|[_ ->]]];
    apply IH; cbn [fst]; auto.
  - apply Forall_app. split; [exact Hst|]. repeat constructor. apply Hb; assumption.
  - apply Forall_app. split; [exact Hst|]. repeat constructor. apply Hs; assumption.
Qed.

Lemma signal_loop_sorted (b s pts : list point) (st : list signal * action) :
  StronglySorted (fun x y : point => x.1 <= y.1) pts ->
  StronglySorted (fun x y : signal => signal_day x <= signal_day y) st.1 ->
  (forall x pt, x ∈ st.1 -> pt ∈ pts -> signal_day x <= pt.1) ->
  StronglySorted (fun x y : signal => signal_day x <= signal_day y)
    (foldl (InvestmentStrategist.signal_step b s) st pts).1.
Proof.
  revert st. induction pts as [|pt pts IH]; intros [signals cur] Hpts Hst Hle; [exact Hst|].
  cbn [foldl]. cbn [fst] in Hst, Hle.
  inversion Hpts as [|? ? Hpts' Hhead]; subst.
  assert (forall a, StronglySorted (fun x y : signal => signal_day x <= signal_day y)
                      (signals ++ [(a, pt.1, pt.2)])) as Hsnoc.
  { intros a. apply StronglySorted_snoc; [exact Hst|].
    apply Forall_forall. intros x Hx. apply (Hle x pt Hx), list_elem_of_here. }
  assert (forall a x pt', x ∈ signals ++ [(a, pt.1, pt.2)] -> pt' ∈ pts ->
            signal_day x <= pt'.1) as Hle'.
  { intros a x pt' Hx Hpt'. apply elem_of_app in Hx as [Hx|Hx].
    - apply (Hle x pt' Hx), list_elem_of_further, Hpt'.
    - apply list_elem_of_singleton in Hx. subst x. cbn.
      rewrite Forall_forall in Hhead. apply Hhead, Hpt'. }
  destruct (signal_step_cases b s signals cur pt) as [(_ & _ & ->)|[(_ & _ & ->)|[_ ->]]].
  - apply IH; cbn [fst]; [exact Hpts'|apply Hsnoc|apply (Hle' buy)].
  - apply IH; cbn [fst]; [exact Hpts'|apply Hsnoc|apply (Hle' sell)].
  - apply IH; cbn [fst]; [exact Hpts'|exact Hst|].
    intros x pt' Hx Hpt'. apply (Hle x pt' Hx), list_elem_of_further, Hpt'.
Qed.

Lemma signal_loop_grows (b s pts : list point) (st : list signal * action) :
  st.1 <> [] -> (foldl (InvestmentStrategist.signal_step b s) st pts).1 <> [].
Proof.
  revert st. induction pts as [|pt pts IH]; intros [signals cur] Hst; [exact Hst|].
  cbn [foldl]. cbn [fst] in Hst.
  destruct (signal_step_cases b s signals cur pt) as [(_ & _ & ->)|[(_ & _ & ->)|[_ ->]]];
    apply IH; cbn [fst]; try exact Hst; intros H; apply app_eq_nil in H as [_ H];
    discriminate.
Qed.

Lemma signal_loop_first_buy (b s pts : list point) (st : list signal * action) :
  (exists pt, pt ∈ pts /\ point_in pt b = true) ->
  action_eqb st.2 buy = false ->
  (foldl (InvestmentStrategist.signal_step b s) st pts).1 <> [].
Proof.
  revert st. induction pts as [|pt pts IH]; intros [signals cur] (x & Hx & Hxb) Hcur.
  - apply elem_of_nil in Hx. contradiction.
  - cbn [foldl]. cbn [snd] in Hcur.
    destruct (signal_step_cases b s signals cur pt)
      as [(_ & _ & ->)|[(_ & Hc & _)|[[Hb|Hc] ->]]]; try congruence.
    + apply signal_loop_grows. cbn [fst]. intros H. apply app_eq_nil in H as [_ H].
      discriminate.
    + apply IH; [|exact Hcur]. apply elem_of_cons in Hx as [->|Hx]; [congruence|].
      exists x. split; assumption.
Qed.

Lemma point_in_self (pt : point) (l : list point) : pt ∈ l -> point_in pt l = true.
Proof.
  intros H. unfold point_in. apply existsb_exists. exists pt.
  split; [apply list_elem_of_In, H|].
  rewrite Nat.eqb_refl. apply Qeq_bool_iff. reflexivity.
Qed.

(** The property of a signal in [generate_trading_signals]: it stands at
    one of the given points, a buy at a buy point and a sell at a sell
    point. *)
Lemma signals_at_points (b s : list point) :
  Forall (fun sig : signal =>
            (signal_day sig, signal_price sig) ∈ b ++ s
            /\ match signal_action sig with
               | buy => point_in (signal_day sig, signal_price sig) b = true
               | sell => point_in (signal_day sig, signal_price sig) s = true
               | hold => False
               end)
         (InvestmentStrategist.generate_trading_signals b s).
Proof.
  unfold InvestmentStrategist.generate_trading_signals.
  apply signal_loop_Forall; [constructor| |];
    intros [d p] Hpt Hin; rewrite sorted_by_day_perm in Hpt; split; assumption.
Qed.

Lemma signals_none_iff (b s : list point) :
  InvestmentStrategist.generate_trading_signals b s = [] <-> b = [].
Proof.
  split.
  - intros Hnil. destruct b as [|pt b]; [reflexivity|]. exfalso. revert Hnil.
    unfold InvestmentStrategist.generate_trading_signals.
    apply signal_loop_first_buy; [|reflexivity].
    exists pt. split; [|apply point_in_self, list_elem_of_here].
    rewrite sorted_by_day_perm. apply list_elem_of_here.
  - intros ->.
    pose proof (signals_at_points [] s) as Hall.
    pose proof (generate_trading_signals_alternates [] s) as Halt.
    destruct (InvestmentStrategist.generate_trading_signals [] s) as [|sig l]; [reflexivity|].
    inversion Hall as [|? ? [_ Hsig] _]; subst.
    rewrite (Halt 0 sig eq_refl) in Hsig. discriminate.
Qed.

(** X13.  Every signal of [generate_trading_signals] stands at one of the
    points it was given, a buy at a buy point and a sell at a sell point;
    the signals come in non-decreasing day order; and there is no signal
    at all exactly when there is no buy point. *)
Theorem trading_signals_from_points (buy_points sell_points : list point) :
  let signals := InvestmentStrategist.generate_trading_signals buy_points sell_points in
  Forall (fun sig : signal =>
            (signal_day sig, signal_price sig) ∈ buy_points ++ sell_points
            /\ match signal_action sig with
               | buy => point_in (signal_day sig, signal_price sig) buy_points = true
               | sell => point_in (signal_day sig, signal_price sig) sell_points = true
               | hold => False
               end) signals
  /\ StronglySorted (fun x y : signal => signal_day x <= signal_day y) signals
  /\ (signals = [] <-> buy_points = []).
Proof.
  intros signals. subst signals.
  split; [apply signals_at_points|]. split; [|apply signals_none_iff].
  unfold InvestmentStrategist.generate_trading_signals.
  apply signal_loop_sorted; [apply sorted_by_day_sorted|constructor|].
  intros x pt Hx. apply elem_of_nil in Hx. contradiction.
Qed.

(** ** strategist.py: the recommendation *)

(** The buy-and-hold fallback on a path whose first price and investment
    are not zero. *)
Lemma fallback_eq (self : InvestmentStrategist.t) (first last_price : Q) :
  head (InvestmentStrategist.forecast_prices self) = Some first ->
  last (InvestmentStrategist.forecast_prices self) = Some last_price ->
  ~ (first == 0)%Q ->
  ~ (InvestmentStrategist.investment_amount self == 0)%Q ->
  let amount := InvestmentStrategist.investment_amount self in
  let value := (amount / first * last_price)%Q in
  InvestmentStrategist._generate_fallback_recommendations self
  = Ok (BuyAndHold,
        {| initial_investment := amount;
           final_value := value;
           profit := value - amount;
           profit_percent := (value - amount) / amount * 100;
           transactions := [HoldPurchase first;
                            HoldSale (InvestmentStrategist.days self) last_price];
           total_profit := value - amount |}).
Proof.
  intros Hhead Hlast Hfirst Hamount amount value.
  unfold InvestmentStrategist._generate_fallback_recommendations.
  destruct (InvestmentStrategist.forecast_prices self) as [|x l] eqn:Hfp; [discriminate|].
  injection Hhead as ->. cbn [py_first mbind result_bind].
  unfold py_last. rewrite Hlast. cbn [mbind result_bind].
  rewrite (py_div_nonzero _ _ Hfirst). cbn [mbind result_bind].
  rewrite (py_div_nonzero _ _ Hamount). reflexivity.
Qed.

(** [generate_recommendations] by the signals of the path. *)
Lemma generate_recommendations_cases (self : InvestmentStrategist.t) :
  let found := InvestmentStrategist.find_local_extrema self 3 in
  let signals := InvestmentStrategist.generate_trading_signals found.1 found.2 in
  InvestmentStrategist.generate_recommendations self
  = match signals with
    | [] => InvestmentStrategist._generate_fallback_recommendations self
    | _ =>
        try_except
          (r ← InvestmentStrategist.calculate_profit self signals;
           match r with
           | Computed _ info =>
               Ok (InvestmentStrategist._format_recommendations signals found.1 found.2, info)
           | NoSignals => Raise TypeError
           end)
          (fun _ => InvestmentStrategist._generate_fallback_recommendations self)
    end.
Proof.
  intros found signals. subst signals found.
  unfold InvestmentStrategist.generate_recommendations.
  destruct (InvestmentStrategist.find_local_extrema self 3) as [b s]. cbn [fst snd].
  assert (forall r : result (recommendation * profit_info), try_except r (fun _ => r) = r)
    as Hsame by (intros [r|e]; reflexivity).
  destruct b as [|x b], s as [|y s].
  - apply Hsame.
  - destruct (InvestmentStrategist.generate_trading_signals [] (y :: s));
      [apply Hsame|reflexivity].
  - destruct (InvestmentStrategist.generate_trading_signals (x :: b) []);
      [apply Hsame|reflexivity].
  - destruct (InvestmentStrategist.generate_trading_signals (x :: b) (y :: s));
      [apply Hsame|reflexivity].
Qed.

(** [calculate_profit] after a run of the trading loop that did not
    raise. *)
Lemma calculate_profit_run (self : InvestmentStrategist.t) (signals : list signal)
    (st : InvestmentStrategist.portfolio) (last_price : Q) :
  signals <> [] ->
  for_each InvestmentStrategist.trade signals (InvestmentStrategist.portfolio_init self) = Ok st ->
  last (InvestmentStrategist.forecast_prices self) = Some last_price ->
  ~ (InvestmentStrategist.investment_amount self == 0)%Q ->
  let amount := InvestmentStrategist.investment_amount self in
  let value := if Qlt_bool 0 (InvestmentStrategist.shares st)
               then (InvestmentStrategist.shares st * last_price)%Q
               else InvestmentStrategist.cash st in
  exists gain info,
    InvestmentStrategist.calculate_profit self signals = Ok (Computed gain info)
    /\ initial_investment info = amount
    /\ final_value info = value
    /\ profit info = (value - amount)%Q
    /\ profit_percent info = ((value - amount) / amount * 100)%Q
    /\ total_profit info = (value - amount)%Q.
Proof.
  intros Hne Hrun Hlast Hamount amount value. subst amount value.
  destruct signals as [|s signals]; [congruence|].
  unfold InvestmentStrategist.calculate_profit. rewrite Hrun. cbn [mbind result_bind].
  unfold InvestmentStrategist.liquidate.
  destruct (Qlt_bool 0 (InvestmentStrategist.shares st)).
  - unfold py_last. rewrite Hlast. cbn [mbind result_bind InvestmentStrategist.cash].
    rewrite (py_div_nonzero _ _ Hamount). cbn [mbind result_bind].
    do 2 eexists. split; [reflexivity|]. cbn. repeat split; reflexivity.
  - cbn [mbind result_bind]. rewrite (py_div_nonzero _ _ Hamount). cbn [mbind result_bind].
    do 2 eexists. split; [reflexivity|]. cbn. repeat split; reflexivity.
Qed.






Lemma last_replicate {A} (n : nat) (x : A) : 0 < n -> last (replicate n x) = Some x.
Proof.
  intros Hn. rewrite last_lookup, length_replicate. apply lookup_replicate_2. lia.
Qed.


(** ** data_loader.py *)

Lemma dropna_single (idx : list nat) (name : string) (col : list cell) :
  dropna {| index := idx; columns := [(name, col)] |}
  = {| index := select (numbers_at col (length idx)) idx;
       columns := [(name, select (numbers_at col (length idx)) col)] |}.
Proof.
  unfold dropna, take_rows, numbers_at, len. cbn [index columns fmap list_fmap fst snd].
  assert (forall p,
            row_complete {| index := idx; columns := [(name, col)] |} p
            = is_number (col !! p)) as Hrow
    by (intros p; unfold row_complete; cbn; apply andb_true_r).
  rewrite (filter_ext _ _ Hrow). reflexivity.
Qed.

(** The cells selected at the positions that hold a number are
    numbers. *)
Lemma select_numbers (col : list cell) (n : nat) :
  exists close : list Q,
    select (numbers_at col n) col = Some <$> close
    /\ length close = length (numbers_at col n).
Proof.
  unfold numbers_at.
  assert (Forall (fun p => is_number (col !! p) = true)
            (List.filter (fun p => is_number (col !! p)) (seq 0 n))) as Hall.
  { apply Forall_forall. intros p Hp. apply list_elem_of_In, filter_In in Hp. tauto. }
  induction Hall as [|p keep Hp _ (close & IH & Hlen)].
  - exists []. split; reflexivity.
  - destruct (col !! p) as [[q|]|] eqn:E; try discriminate.
    exists (q :: close). unfold select in IH |- *. cbn [fmap list_fmap length].
    rewrite (list_lookup_total_correct _ _ _ E).
    split; [f_equal; exact IH|f_equal; exact Hlen].
Qed.

(** [load_data] on a downloaded frame that is not empty and has a
    [Close] column. *)
Lemma load_data_eq (raw : DataFrame) :
  DataLoader.empty raw = false ->
  name_in (column_names raw) "Close" = true ->
  let keep := numbers_at (getitem "Close" raw) (len raw) in
  DataLoader.load_data (Some raw)
  = if length keep <? 100 then None
    else Some {| index := select keep (index raw);
                 columns := [("Close"%string, select keep (getitem "Close" raw))] |}.
Proof.
  intros Hempty Hclose keep.
  unfold DataLoader.load_data, DataLoader.load_body, DataLoader.close_only.
  rewrite Hempty, Hclose, dropna_single. fold (len raw). fold keep.
  unfold len at 1 2. cbn [index]. rewrite length_select.
  destruct (length keep <? 100); reflexivity.
Qed.

(** X16.  A frame returned by [load_data] has exactly one column,
    [Close], holding a number in every row, and at least 100 rows: its
    rows are the rows of the downloaded frame whose [Close] is not NaN,
    in the same order and with the same labels.  So the frame the other
    components receive is never empty (the test [df.empty] of the caller
    never fires on it) and never holds NaN.  [load_data]
    returns [None] exactly when the download raised, or gave an empty
    frame, or a frame without a [Close] column, or fewer than 100 rows
    with a [Close] number. *)
Theorem load_data_frame (history : option DataFrame) :
  (forall df,
     DataLoader.load_data history = Some df ->
     exists raw close,
       history = Some raw
       /\ columns df = [("Close"%string, Some <$> close)]
       /\ length close = len df
       /\ 100 <= len df
       /\ DataLoader.empty df = false
       /\ index df = select (numbers_at (getitem "Close" raw) (len raw)) (index raw)
       /\ Some <$> close
          = select (numbers_at (getitem "Close" raw) (len raw)) (getitem "Close" raw))
  /\ (DataLoader.load_data history = None
      <-> history = None
          \/ exists raw,
               history = Some raw
               /\ (DataLoader.empty raw = true
                   \/ name_in (column_names raw) "Close" = false
                   \/ length (numbers_at (getitem "Close" raw) (len raw)) < 100)).
Proof.
  destruct history as [raw|].
  2:{ split; [intros df H; discriminate H|]. split; [intros _; left; reflexivity|reflexivity]. }
  destruct (DataLoader.empty raw) eqn:Hempty.
  { split; [intros df H; unfold DataLoader.load_data, DataLoader.load_body in H;
            rewrite Hempty in H; discriminate H|].
    split; [intros _; right; exists raw; auto|].
    intros _. unfold DataLoader.load_data, DataLoader.load_body. rewrite Hempty. reflexivity. }
  destruct (name_in (column_names raw) "Close") eqn:Hclose.
  2:{ split; [intros df H;
              unfold DataLoader.load_data, DataLoader.load_body, DataLoader.close_only in H;
              rewrite Hempty, Hclose in H; discriminate H|].
      split; [intros _; right; exists raw; auto|].
      intros _. unfold DataLoader.load_data, DataLoader.load_body, DataLoader.close_only.
      rewrite Hempty, Hclose. reflexivity. }
  rewrite (load_data_eq raw Hempty Hclose).
  destruct (select_numbers (getitem "Close" raw) (len raw)) as (close & Hsel & Hlen).
  set (keep := numbers_at (getitem "Close" raw) (len raw)) in *.
  destruct (length keep <? 100) eqn:E.
  - apply Nat.ltb_lt in E. split; [intros df H; discriminate H|].
    split; [intros _; right; exists raw; auto|reflexivity].
  - apply Nat.ltb_ge in E. split.
    + intros df [= <-]. exists raw, close. unfold DataLoader.empty. cbn [columns index].
      unfold len at 1 2 3. cbn [index]. rewrite length_select.
      split; [reflexivity|]. split; [rewrite Hsel; reflexivity|].
      split; [exact Hlen|]. split; [exact E|].
      split; [destruct (length keep); [inversion E|reflexivity]|].
      split; [reflexivity|]. symmetry. exact Hsel.
    + split; [discriminate|].
      intros [H|(raw' & [= <-] & [H|[H|H]])]; try discriminate; try congruence.
      exfalso. apply Nat.lt_nge in H. apply H. exact E.
Qed.

Lemma load_data_frame_witness :
  exists raw close,
    Some sample_history = Some raw
    /\ columns (take_rows (seq 1 100)
                  {| index := seq 0 101;
                     columns := [("Close"%string, None :: replicate 100 (Some 2%Q))] |})
       = [("Close"%string, Some <$> close)]
    /\ length close = 100.
Proof.
  destruct (proj1 (load_data_frame (Some sample_history))
              (take_rows (seq 1 100)
                 {| index := seq 0 101;
                    columns := [("Close"%string, None :: replicate 100 (Some 2%Q))] |}))
    as (raw & close & Hraw & Hcols & Hlen & _).
  - vm_compute. reflexivity.
  - exists raw, close. split; [exact Hraw|]. split; [exact Hcols|].
    rewrite Hlen. vm_compute. reflexivity.
Defined.

(** ** The default split *)

Section Doubles.
Local Open Scope Z_scope.

(** Shifting a mantissa right by one place halves it. *)
Lemma shr_1_m (mrs : SpecFloat.shr_record) :
  0 <= SpecFloat.shr_m mrs ->
  SpecFloat.shr_m (SpecFloat.shr_1 mrs) = SpecFloat.shr_m mrs / 2
  /\ 0 <= SpecFloat.shr_m (SpecFloat.shr_1 mrs).
Proof.
  destruct mrs as [m r s]. cbn [SpecFloat.shr_m]. intros Hm.
  rewrite <- Z.div2_div.
  destruct m as [|[p|p|]|p]; cbn; try lia; split; (reflexivity || lia).
Qed.

(** Shifting right by [k] places divides by [2^k]. *)
Lemma iter_pos_shr_m (k : positive) (mrs : SpecFloat.shr_record) :
  0 <= SpecFloat.shr_m mrs ->
  SpecFloat.shr_m (SpecFloat.iter_pos SpecFloat.shr_1 k mrs) = SpecFloat.shr_m mrs / 2 ^ Z.pos k
  /\ 0 <= SpecFloat.shr_m (SpecFloat.iter_pos SpecFloat.shr_1 k mrs).
Proof.
  revert mrs. induction k as [k IH|k IH|]; intros mrs Hm; cbn [SpecFloat.iter_pos].
  - destruct (shr_1_m mrs Hm) as [E1 H1].
    destruct (IH _ H1) as [E2 H2]. destruct (IH _ H2) as [E3 H3].
    split; [|exact H3]. rewrite E3, E2, E1.
    assert (0 < 2 ^ Z.pos k) as Hpow by (apply Z.pow_pos_nonneg; lia).
    rewrite !Z.div_div by lia. f_equal.
    replace (Z.pos k~1) with (1 + Z.pos k + Z.pos k) by lia.
    rewrite !Z.pow_add_r by lia. change (2 ^ 1) with 2. ring.
  - destruct (IH _ Hm) as [E2 H2]. destruct (IH _ H2) as [E3 H3].
    split; [|exact H3]. rewrite E3, E2.
    assert (0 < 2 ^ Z.pos k) as Hpow by (apply Z.pow_pos_nonneg; lia).
    rewrite !Z.div_div by lia. f_equal.
    replace (Z.pos k~0) with (Z.pos k + Z.pos k) by lia.
    rewrite Z.pow_add_r by lia. reflexivity.
  - apply shr_1_m, Hm.
Qed.

(** The number of binary digits of [p]. *)
Lemma digits2_pos_bounds (p : positive) :
  2 ^ (Z.pos (SpecFloat.digits2_pos p) - 1) <= Z.pos p < 2 ^ Z.pos (SpecFloat.digits2_pos p).
Proof.
  induction p as [p IH|p IH|]; cbn [SpecFloat.digits2_pos].
  - rewrite Pos2Z.inj_succ.
    replace (Z.succ (Z.pos (SpecFloat.digits2_pos p)) - 1)
      with (Z.succ (Z.pos (SpecFloat.digits2_pos p) - 1)) by lia.
    rewrite !Z.pow_succ_r by lia. lia.
  - rewrite Pos2Z.inj_succ.
    replace (Z.succ (Z.pos (SpecFloat.digits2_pos p)) - 1)
      with (Z.succ (Z.pos (SpecFloat.digits2_pos p) - 1)) by lia.
    rewrite !Z.pow_succ_r by lia. lia.
  - cbn. lia.
Qed.

Lemma digits2_pos_unique (p : positive) (n : Z) :
  2 ^ (n - 1) <= Z.pos p < 2 ^ n -> Z.pos (SpecFloat.digits2_pos p) = n.
Proof.
  intros Hn. pose proof (digits2_pos_bounds p) as Hd.
  set (d := Z.pos (SpecFloat.digits2_pos p)) in *.
  destruct (Z.lt_trichotomy d n) as [H|[H|H]]; [exfalso|exact H|exfalso].
  - pose proof (Z.pow_le_mono_r 2 d (n - 1) ltac:(lia) ltac:(lia)). lia.
  - pose proof (Z.pow_le_mono_r 2 n (d - 1) ltac:(lia) ltac:(lia)). lia.
Qed.

Lemma iter_xO (p d : positive) : Z.pos (Pos.iter xO p d) = Z.pos p * 2 ^ Z.pos d.
Proof.
  induction d as [|d IH] using Pos.peano_ind.
  - cbn. lia.
  - rewrite Pos.iter_succ, Pos2Z.inj_succ, Z.pow_succ_r by lia.
    replace (Z.pos (Pos.iter xO p d)~0) with (2 * Z.pos (Pos.iter xO p d)) by lia.
    rewrite IH. ring.
Qed.

(** A mantissa of 53 bits is not rounded. *)
Lemma binary_round_aux_canonical (s : bool) (m : positive) (e : Z) :
  2 ^ 52 <= Z.pos m < 2 ^ 53 -> -1074 <= e <= 971 ->
  SpecFloat.binary_round_aux 53 1024 s (Z.pos m) e SpecFloat.loc_Exact
  = SpecFloat.S754_finite s m e.
Proof.
  intros Hm He.
  assert (Z.pos (SpecFloat.digits2_pos m) = 53) as Hd by (apply digits2_pos_unique; exact Hm).
  assert (SpecFloat.fexp 53 1024 (53 + e) - e = 0) as Hf
    by (unfold SpecFloat.fexp, SpecFloat.emin; lia).
  unfold SpecFloat.binary_round_aux, SpecFloat.shr_fexp.
  cbn [SpecFloat.shr_record_of_loc SpecFloat.Zdigits2].
  rewrite Hd, Hf. cbn [SpecFloat.shr SpecFloat.shr_m SpecFloat.loc_of_shr_record
                        SpecFloat.round_nearest_even SpecFloat.Zdigits2
                        SpecFloat.shr_record_of_loc].
  rewrite Hd, Hf. cbn [SpecFloat.shr SpecFloat.shr_m].
  destruct (Z.leb_spec e (1024 - 53)); [reflexivity|lia].
Qed.


(** [float(p)] for [p < 2^53] is [p] itself, with a mantissa of 53 bits. *)
Lemma float_of_Z_pos (p : positive) :
  Z.pos p < 2 ^ 53 ->
  exists mz : positive,
    float_of_Z (Z.pos p)
    = SpecFloat.S754_finite false mz (Z.pos (SpecFloat.digits2_pos p) - 53)
    /\ Z.pos mz = Z.pos p * 2 ^ (53 - Z.pos (SpecFloat.digits2_pos p))
    /\ 2 ^ 52 <= Z.pos mz < 2 ^ 53.
Proof.
  intros Hp. pose proof (digits2_pos_bounds p) as Hd.
  unfold float_of_Z, SpecFloat.binary_normalize, SpecFloat.binary_round.
  remember (Z.pos (SpecFloat.digits2_pos p)) as d eqn:Heqd.
  assert (1 <= d) as Hd1 by lia.
  assert (d <= 53) as Hd53.
  { destruct (Z.le_gt_cases d 53) as [H|H]; [exact H|]. exfalso.
    pose proof (Z.pow_le_mono_r 2 53 (d - 1) ltac:(lia) ltac:(lia)). lia. }
  assert (SpecFloat.fexp 53 1024 (d + 0) = d - 53) as ->
    by (unfold SpecFloat.fexp, SpecFloat.emin; lia).
  unfold SpecFloat.shl_align.
  assert (2 ^ (d - 1) * 2 ^ (53 - d) = 2 ^ 52) as Hlow
    by (rewrite <- Z.pow_add_r by lia; f_equal; lia).
  assert (2 ^ d * 2 ^ (53 - d) = 2 ^ 53) as Hhigh
    by (rewrite <- Z.pow_add_r by lia; f_equal; lia).
  assert (0 < 2 ^ (53 - d)) as Hpos by (apply Z.pow_pos_nonneg; lia).
  assert (2 ^ 52 <= Z.pos p * 2 ^ (53 - d) < 2 ^ 53) as Hbounds.
  { rewrite <- Hlow, <- Hhigh. split.
    - apply Z.mul_le_mono_nonneg_r; lia.
    - apply Z.mul_lt_mono_pos_r; lia. }
  destruct (d - 53 - 0) as [|q|q] eqn:Hq; try lia.
  - assert (d = 53) as -> by lia.
    change (53 - 53) with 0 in *. change (2 ^ 0) with 1 in *.
    exists p. rewrite binary_round_aux_canonical by lia.
    split; [reflexivity|]. split; lia.
  - exists (Pos.iter xO p q).
    assert (Z.pos (Pos.iter xO p q) = Z.pos p * 2 ^ (53 - d)) as Hmz.
    { rewrite iter_xO. f_equal. f_equal. lia. }
    rewrite binary_round_aux_canonical by lia.
    split; [reflexivity|]. split; [exact Hmz|]. rewrite Hmz. exact Hbounds.
Qed.

(** Rounding to nearest keeps the truncated mantissa or takes the next
    one. *)
Lemma round_nearest_even_cases (mrs : SpecFloat.shr_record) :
  let m := SpecFloat.shr_m mrs in
  let m' := SpecFloat.round_nearest_even m (SpecFloat.loc_of_shr_record mrs) in
  m' = m \/ m' = m + 1.
Proof.
  destruct mrs as [m [|] [|]]; cbn; try (destruct (Z.even m)); auto.
Qed.

(** The second rounding step of [binary_round_aux], and the integer
    part of its result. *)
Lemma second_step_int (m' e' t : Z) :
  2 ^ 52 <= m' <= 2 ^ 53 -> e' = - t -> 0 < t -> -1074 <= e' ->
  py_int
    (let '(mrs'', e'') := SpecFloat.shr_fexp 53 1024 m' e' SpecFloat.loc_Exact in
     match SpecFloat.shr_m mrs'' with
     | Z0 => SpecFloat.S754_zero false
     | Z.pos m =>
         if Z.leb e'' (1024 - 53) then SpecFloat.S754_finite false m e''
         else SpecFloat.S754_infinity false
     | Z.neg _ => SpecFloat.S754_nan
     end)
  = m' / 2 ^ t.
Proof.
  intros Hm He Ht Hmin.
  destruct m' as [|mp|mp]; try lia.
  unfold SpecFloat.shr_fexp. cbn [SpecFloat.shr_record_of_loc SpecFloat.Zdigits2].
  destruct (Z.eq_dec (Z.pos mp) (2 ^ 53)) as [Htop|Hlt].
  - assert (mp = 9007199254740992%positive) as -> by (change (2 ^ 53) with 9007199254740992 in Htop; lia).
    change (Z.pos (SpecFloat.digits2_pos 9007199254740992)) with 54.
    assert (SpecFloat.fexp 53 1024 (54 + e') - e' = 1) as ->
      by (unfold SpecFloat.fexp, SpecFloat.emin; lia).
    cbn [SpecFloat.shr SpecFloat.iter_pos SpecFloat.shr_1 SpecFloat.shr_m orb].
    destruct (Z.leb_spec (e' + 1) (1024 - 53)); [|lia].
    cbn [py_int]. rewrite Z.shiftl_div_pow2 by lia.
    replace (- (e' + 1)) with (t - 1) by lia.
    replace (2 ^ t) with (2 * 2 ^ (t - 1))
      by (rewrite <- Z.pow_succ_r by lia; f_equal; lia).
    change (Z.pos 9007199254740992) with (2 * Z.pos 4503599627370496).
    assert (0 < 2 ^ (t - 1)) by (apply Z.pow_pos_nonneg; lia).
    rewrite Z.div_mul_cancel_l by lia. reflexivity.
  - assert (Z.pos (SpecFloat.digits2_pos mp) = 53) as ->
      by (apply digits2_pos_unique; change (53 - 1) with 52; lia).
    assert (SpecFloat.fexp 53 1024 (53 + e') - e' = 0) as ->
      by (unfold SpecFloat.fexp, SpecFloat.emin; lia).
    cbn [SpecFloat.shr SpecFloat.shr_m].
    destruct (Z.leb_spec e' (1024 - 53)); [|lia].
    cbn [py_int]. rewrite Z.shiftl_div_pow2 by lia.
    replace (- e') with t by lia. reflexivity.
Qed.

(** The product of two doubles whose exact product [M * 2^E] has [k]
    bits too many and lies below [2^53]: its integer part is that of
    the truncated mantissa or of the next one. *)
Lemma binary_round_aux_int (M : positive) (E k t : Z) :
  0 < k -> 0 < t ->
  2 ^ (52 + k) <= Z.pos M < 2 ^ (53 + k) ->
  E + k = - t -> -1074 <= E + k ->
  exists m',
    (m' = Z.pos M / 2 ^ k \/ m' = Z.pos M / 2 ^ k + 1)
    /\ py_int (SpecFloat.binary_round_aux 53 1024 false (Z.pos M) E SpecFloat.loc_Exact)
       = m' / 2 ^ t.
Proof.
  intros Hk Ht HM HE Hmin.
  assert (Z.pos (SpecFloat.digits2_pos M) = 53 + k) as Hd.
  { apply digits2_pos_unique. replace (53 + k - 1) with (52 + k) by lia. exact HM. }
  assert (SpecFloat.fexp 53 1024 (53 + k + E) - E = k) as Hf
    by (unfold SpecFloat.fexp, SpecFloat.emin; lia).
  assert (0 < 2 ^ k) as Hpow by (apply Z.pow_pos_nonneg; lia).
  assert (2 ^ 52 <= Z.pos M / 2 ^ k < 2 ^ 53) as Hq.
  { rewrite !Z.pow_add_r in HM by lia. split.
    - apply Z.div_le_lower_bound; lia.
    - apply Z.div_lt_upper_bound; lia. }
  destruct k as [|kp|kp]; try lia.
  destruct (iter_pos_shr_m kp (SpecFloat.Build_shr_record (Z.pos M) false false))
    as [Eq _]; [cbn; lia|].
  cbn [SpecFloat.shr_m] in Eq.
  unfold SpecFloat.binary_round_aux.
  unfold SpecFloat.shr_fexp at 1.
  cbn [SpecFloat.shr_record_of_loc SpecFloat.Zdigits2].
  rewrite Hd, Hf. cbn [SpecFloat.shr].
  remember (SpecFloat.iter_pos SpecFloat.shr_1 kp
              (SpecFloat.Build_shr_record (Z.pos M) false false)) as mrs eqn:Hmrs.
  pose proof (round_nearest_even_cases mrs) as Hcases. cbv zeta in Hcases.
  rewrite Eq in Hcases.
  exists (SpecFloat.round_nearest_even (SpecFloat.shr_m mrs) (SpecFloat.loc_of_shr_record mrs)).
  rewrite Eq. split; [exact Hcases|].
  apply second_step_int; lia.
Qed.


(** [1 - 0.2] in doubles is the double next above 0.8, and for fewer
    than [2^50] rows the rounded product with it has the integer part
    [floor(4 z / 5)]. *)
Lemma default_split_position (z : Z) :
  0 <= z < 2 ^ 50 ->
  py_int (float_mul (float_of_Z z)
            (float_sub (float_of_Z 1) (float_of_Q ModelTrainer.default_test_size)))
  = 4 * z / 5.
Proof.
  intros Hz.
  assert (float_sub (float_of_Z 1) (float_of_Q ModelTrainer.default_test_size)
          = SpecFloat.S754_finite false 7205759403792794 (-53)) as ->
    by (vm_compute; reflexivity).
  destruct z as [|p|p]; [reflexivity| |lia].
  destruct (float_of_Z_pos p) as (mz & -> & Hmz & Hb); [lia|].
  pose proof (digits2_pos_bounds p) as Hd.
  remember (Z.pos (SpecFloat.digits2_pos p)) as d eqn:Heqd.
  assert (1 <= d) as Hd1 by lia.
  assert (d <= 50) as Hd50.
  { destruct (Z.le_gt_cases d 50) as [H|H]; [exact H|]. exfalso.
    pose proof (Z.pow_le_mono_r 2 50 (d - 1) ltac:(lia) ltac:(lia)). lia. }
  unfold float_mul. cbn [SpecFloat.SFmul xorb].
  pose proof (digits2_pos_bounds (mz * 7205759403792794)) as HD.
  remember (Z.pos (SpecFloat.digits2_pos (mz * 7205759403792794))) as D eqn:HeqD.
  rewrite Pos2Z.inj_mul in HD.
  set (M := Z.pos mz * Z.pos 7205759403792794) in *.
  assert (2 ^ 104 <= M < 2 ^ 106) as HM by (subst M; lia).
  assert (105 <= D <= 106) as HD'.
  { split.
    - destruct (Z.le_gt_cases 105 D) as [H|H]; [exact H|]. exfalso.
      pose proof (Z.pow_le_mono_r 2 D 104 ltac:(lia) ltac:(lia)). lia.
    - destruct (Z.le_gt_cases D 106) as [H|H]; [exact H|]. exfalso.
      pose proof (Z.pow_le_mono_r 2 106 (D - 1) ltac:(lia) ltac:(lia)). lia. }
  set (k := D - 53). set (t := 106 - d - k).
  assert (2 ^ (52 + k) <= M < 2 ^ (53 + k)) as HMk.
  { subst k. replace (52 + (D - 53)) with (D - 1) by lia.
    replace (53 + (D - 53)) with D by lia. exact HD. }
  destruct (binary_round_aux_int (mz * 7205759403792794) (d - 53 + -53) k t)
    as (m' & Hm' & ->); try (subst t k; lia).
  rewrite Pos2Z.inj_mul in Hm'. fold M in Hm'.
  set (S := 2 ^ (53 - d)) in *. set (K := 2 ^ k) in *. set (B := 2 ^ t).
  set (c := 4 * Z.pos p / 5).
  pose proof (Z.div_mod (4 * Z.pos p) 5 ltac:(lia)) as Hdiv.
  pose proof (Z.mod_pos_bound (4 * Z.pos p) 5 ltac:(lia)) as Hmod.
  fold c in Hdiv.
  assert (8 <= S) as HS.
  { subst S. pose proof (Z.pow_le_mono_r 2 3 (53 - d) ltac:(lia) ltac:(lia)). lia. }
  assert (0 < K <= 2 ^ 53) as HK.
  { subst K. split; [apply Z.pow_pos_nonneg; subst k; lia|].
    apply Z.pow_le_mono_r; subst k; lia. }
  assert (0 < B) as HB by (subst B; apply Z.pow_pos_nonneg; subst t k; lia).
  assert (K * B = 2 ^ 53 * S) as HKB.
  { subst K B S. rewrite <- !Z.pow_add_r by (subst t k; lia). f_equal. subst t. lia. }
  assert (M = Z.pos p * 7205759403792794 * S) as HMS by (subst M; rewrite Hmz; ring).
  assert (c * 2 ^ 53 * S <= Z.pos p * 7205759403792794 * S) as F1
    by (apply Z.mul_le_mono_nonneg_r; lia).
  assert ((Z.pos p * 7205759403792794 + 2 ^ 50) * S < (c + 1) * 2 ^ 53 * S) as F2
    by (apply Z.mul_lt_mono_pos_r; lia).
  pose proof (Z.mul_div_le M K ltac:(lia)) as Hfloor.
  set (q := M / K) in *.
  assert (c * B <= q) as Hlow.
  { apply Z.div_le_lower_bound; [lia|].
    replace (K * (c * B)) with (c * (K * B)) by ring. rewrite HKB. lia. }
  assert (q + 1 < (c + 1) * B) as Hhigh.
  { destruct (Z.lt_ge_cases (q + 1) ((c + 1) * B)) as [H|H]; [exact H|]. exfalso.
    assert ((c + 1) * B * K <= (q + 1) * K) as H'
      by (apply Z.mul_le_mono_nonneg_r; lia).
    replace ((c + 1) * B * K) with ((c + 1) * (K * B)) in H' by ring.
    rewrite HKB in H'. lia. }
  symmetry. apply (Z.div_unique m' B c (m' - B * c)); lia.
Qed.

End Doubles.

(** With the default test size the split position, computed in doubles,
    is four fifths of the number of rows, rounded down, for every
    number of rows below [2^50]. *)
Lemma split_idx_default (self : ModelTrainer.t) (m : nat) :
  ModelTrainer.test_size self = ModelTrainer.default_test_size ->
  (Z.of_nat m < 2 ^ 50)%Z ->
  ModelTrainer.split_idx self m = Z.of_nat (4 * m / 5)
  /\ slice_bound m (ModelTrainer.split_idx self m) = 4 * m / 5.
Proof.
  intros Hts Hm.
  assert (ModelTrainer.split_idx self m = Z.of_nat (4 * m / 5)) as Hk.
  { unfold ModelTrainer.split_idx. rewrite Hts.
    rewrite Nat2Z.inj_div, Nat2Z.inj_mul.
    change (Z.of_nat 4) with 4%Z. change (Z.of_nat 5) with 5%Z.
    apply default_split_position. lia. }
  split; [exact Hk|].
  rewrite Hk. unfold slice_bound.
  destruct (Z.of_nat (4 * m / 5) <? 0)%Z eqn:E; [apply Z.ltb_lt in E; lia|].
  rewrite Nat2Z.id. apply Nat.min_l.
  apply Nat.Div0.div_le_upper_bound. lia.
Qed.

(** Some bound on the number of rows is needed: at 3000000000000001
    rows, between [2^51] and [2^52], the product rounds up to
    2400000000000001, one more than [floor(4 m / 5)]. *)
Lemma split_idx_default_rounds_up (self : ModelTrainer.t) (m : nat) :
  ModelTrainer.test_size self = ModelTrainer.default_test_size ->
  Z.of_nat m = 3000000000000001%Z ->
  ModelTrainer.split_idx self m = 2400000000000001%Z
  /\ (4 * Z.of_nat m / 5 = 2400000000000000)%Z.
Proof.
  intros Hts Hm. unfold ModelTrainer.split_idx. rewrite Hts, Hm.
  split; vm_compute; reflexivity.
Qed.

Lemma len_features (self : ModelTrainer.t) :
  len (ModelTrainer.features self) = length (ModelTrainer.df self) - 31.
Proof. unfold len. rewrite index_features_interval. apply length_seq. Qed.

Lemma len_iloc (X : DataFrame) (k : Z) :
  len (iloc_to k X) = slice_bound (len X) k
  /\ len (iloc_from k X) = len X - slice_bound (len X) k.
Proof.
  unfold len. rewrite index_iloc_to, index_iloc_from. split.
  - apply length_slice_to.
  - unfold slice_from. apply length_drop.
Qed.

(** X17.  With the default test size of 0.2 and fewer than [2^50] prices,
    [prepare_ml_data] puts the first four fifths (rounded down) of the
    [n - 31] supervised rows in the train part and the rest in the test
    part, and [train_arima] cuts the [n] raw prices the same way.  On a
    series of at least 100 prices, which is what [load_data] guarantees,
    none of the four parts is empty. *)
Theorem default_split_sizes (self : ModelTrainer.t) :
  let n := length (ModelTrainer.df self) in
  let d := ModelTrainer.prepare_ml_data self in
  ModelTrainer.test_size self = ModelTrainer.default_test_size ->
  (Z.of_nat n < 2 ^ 50)%Z ->
  len (ModelTrainer.X_train d) = 4 * (n - 31) / 5
  /\ len (ModelTrainer.X_test d) = (n - 31) - 4 * (n - 31) / 5
  /\ length (ModelTrainer.arima_split self).1 = 4 * n / 5
  /\ length (ModelTrainer.arima_split self).2 = n - 4 * n / 5
  /\ (100 <= n ->
      0 < len (ModelTrainer.X_train d) /\ 0 < len (ModelTrainer.X_test d)
      /\ 0 < length (ModelTrainer.arima_split self).1
      /\ 0 < length (ModelTrainer.arima_split self).2).
Proof.
  intros n d Hts Hn50.
  assert (len (ModelTrainer.X_train d) = 4 * (n - 31) / 5
          /\ len (ModelTrainer.X_test d) = (n - 31) - 4 * (n - 31) / 5) as [H1 H2].
  { subst d. rewrite prepare_ml_data_eq.
    cbn [ModelTrainer.X_train ModelTrainer.X_test].
    destruct (len_iloc (ModelTrainer.features self)
                (ModelTrainer.split_idx self (len (ModelTrainer.features self))))
      as [-> ->].
    rewrite len_features. fold n.
    destruct (split_idx_default self (n - 31) Hts ltac:(lia)) as [_ ->]. split; reflexivity. }
  assert (length (ModelTrainer.arima_split self).1 = 4 * n / 5
          /\ length (ModelTrainer.arima_split self).2 = n - 4 * n / 5) as [H3 H4].
  { unfold ModelTrainer.arima_split. cbn [fst snd]. fold n.
    unfold slice_from. rewrite length_slice_to, length_drop. fold n.
    destruct (split_idx_default self n Hts Hn50) as [_ ->]. split; reflexivity. }
  split; [exact H1|]. split; [exact H2|]. split; [exact H3|]. split; [exact H4|].
  intros Hn. rewrite H1, H2, H3, H4.
  pose proof (Nat.div_le_lower_bound (4 * (n - 31)) 5 55 ltac:(lia) ltac:(lia)) as Ha.
  pose proof (Nat.Div0.div_lt_upper_bound (4 * (n - 31)) 5 (n - 31) ltac:(lia)) as Hb.
  pose proof (Nat.div_le_lower_bound (4 * n) 5 80 ltac:(lia) ltac:(lia)) as Hc.
  pose proof (Nat.Div0.div_lt_upper_bound (4 * n) 5 n ltac:(lia)) as Hd.
  lia.
Qed.

Lemma default_split_sizes_witness :
  len (ModelTrainer.X_train (ModelTrainer.prepare_ml_data sample_trainer)) = 7
  /\ len (ModelTrainer.X_test (ModelTrainer.prepare_ml_data sample_trainer)) = 2.
Proof.
  destruct (default_split_sizes sample_trainer) as (H1 & H2 & _).
  - reflexivity.
  - vm_compute. reflexivity.
  - split; [exact H1|exact H2].
Defined.

(** ** strategist.py: a flat path *)

Lemma insert_by_day_middle (pt : point) (l1 l2 : list point) :
  Forall (fun q : point => q.1 <= pt.1) l1 ->
  match l2 with [] => True | q :: _ => pt.1 < q.1 end ->
  insert_by_day pt (l1 ++ l2) = l1 ++ pt :: l2.
Proof.
  intros Hl1 Hl2. induction Hl1 as [|q l1 Hq _ IH]; cbn [app insert_by_day].
  - destruct l2 as [|q l2]; [reflexivity|]. cbn [insert_by_day].
    apply Nat.ltb_lt in Hl2. rewrite Hl2. reflexivity.
  - assert ((pt.1 <? q.1) = false) as -> by (apply Nat.ltb_ge; exact Hq).
    rewrite IH. reflexivity.
Qed.

Lemma twice_snoc (l : list point) (x : point) : twice (l ++ [x]) = twice l ++ [x; x].
Proof. unfold twice. rewrite bind_app. cbn. reflexivity. Qed.

(** Sorting by day a list in strictly increasing day order followed by
    itself puts the two copies of every point side by side. *)
Lemma fold_insert_sorted_tail (pre post : list point) :
  StronglySorted (fun a b : point => a.1 < b.1) (pre ++ post) ->
  foldl (fun acc pt => insert_by_day pt acc) pre post = pre ++ post.
Proof.
  revert pre. induction post as [|x post IH]; intros pre Hs; cbn [foldl].
  - rewrite app_nil_r. reflexivity.
  - replace (insert_by_day x pre) with (pre ++ [x]).
    + rewrite IH; rewrite <- app_assoc; [reflexivity|exact Hs].
    + rewrite <- (app_nil_r pre) at 2. rewrite insert_by_day_middle; [reflexivity| |exact I].
      apply Forall_forall. intros q Hq.
      apply Nat.lt_le_incl.
      apply (StronglySorted_app_1_elem_of (fun a b : point => a.1 < b.1) pre (x :: post) q x Hs Hq).
      apply list_elem_of_here.
Qed.

Lemma fold_insert_twice (pre post : list point) :
  StronglySorted (fun a b : point => a.1 < b.1) (pre ++ post) ->
  foldl (fun acc pt => insert_by_day pt acc) (twice pre ++ post) post = twice (pre ++ post).
Proof.
  revert pre. induction post as [|x post IH]; intros pre Hs; cbn [foldl].
  - rewrite !app_nil_r. reflexivity.
  - replace (insert_by_day x (twice pre ++ x :: post)) with (twice (pre ++ [x]) ++ post).
    + rewrite IH; rewrite <- app_assoc; [reflexivity|exact Hs].
    + rewrite twice_snoc, <- app_assoc. cbn [app].
      replace (twice pre ++ x :: post) with ((twice pre ++ [x]) ++ post)
        by (rewrite <- app_assoc; reflexivity).
      rewrite insert_by_day_middle; [rewrite <- app_assoc; reflexivity| |].
      * apply Forall_app. split; [|repeat constructor].
        apply Forall_forall. intros q Hq. unfold twice in Hq.
        apply list_elem_of_bind in Hq as (y & Hq & Hy).
        assert (q = y) as -> by (repeat (apply elem_of_cons in Hq as [Hq|Hq]; [exact Hq|]);
                                 apply elem_of_nil in Hq; contradiction).
        apply Nat.lt_le_incl.
        apply (StronglySorted_app_1_elem_of (fun a b : point => a.1 < b.1)
                 pre (x :: post) y x Hs Hy), list_elem_of_here.
      * destruct post as [|y post]; [exact I|].
        apply StronglySorted_app_1_r in Hs. inversion Hs as [|? ? _ Hall]; subst.
        inversion Hall; subst. assumption.
Qed.

Lemma sorted_by_day_twice (pts : list point) :
  StronglySorted (fun a b : point => a.1 < b.1) pts ->
  sorted_by_day (pts ++ pts) = twice pts.
Proof.
  intros Hs. unfold sorted_by_day. rewrite foldl_app.
  rewrite (fold_insert_sorted_tail [] pts Hs). cbn [app].
  apply (fold_insert_twice [] pts Hs).
Qed.

(** The signal loop over the doubled points, when the buy points are
    also the sell points. *)
Lemma signal_loop_twice (pts l : list point) (signals : list signal) (cur : action) :
  (forall x, x ∈ l -> x ∈ pts) ->
  action_eqb cur buy = false ->
  exists cur',
    foldl (InvestmentStrategist.signal_step pts pts) (signals, cur) (twice l)
    = (signals ++ round_trips l, cur')
    /\ action_eqb cur' buy = false.
Proof.
  revert signals cur. induction l as [|x l IH]; intros signals cur Hin Hcur.
  - exists cur. cbn. rewrite app_nil_r. split; [reflexivity|exact Hcur].
  - assert (point_in x pts = true) as Hx by (apply point_in_self, Hin, list_elem_of_here).
    change (twice (x :: l)) with (x :: x :: twice l).
    change (round_trips (x :: l)) with ([(buy, x.1, x.2); (sell, x.1, x.2)] ++ round_trips l).
    cbn [foldl].
    assert (InvestmentStrategist.signal_step pts pts (signals, cur) x
            = (signals ++ [(buy, x.1, x.2)], buy)) as ->
      by (unfold InvestmentStrategist.signal_step; rewrite Hx, Hcur; reflexivity).
    assert (InvestmentStrategist.signal_step pts pts (signals ++ [(buy, x.1, x.2)], buy) x
            = ((signals ++ [(buy, x.1, x.2)]) ++ [(sell, x.1, x.2)], sell)) as ->
      by (unfold InvestmentStrategist.signal_step; rewrite Hx; reflexivity).
    destruct (IH ((signals ++ [(buy, x.1, x.2)]) ++ [(sell, x.1, x.2)]) sell) as (cur' & Heq & Hc).
    + intros y Hy. apply Hin, list_elem_of_further, Hy.
    + reflexivity.
    + exists cur'. split; [|exact Hc]. rewrite Heq. f_equal.
      rewrite <- !app_assoc. reflexivity.
Qed.

Lemma round_trips_signals (pts : list point) :
  StronglySorted (fun a b : point => a.1 < b.1) pts ->
  InvestmentStrategist.generate_trading_signals pts pts = round_trips pts.
Proof.
  intros Hs. unfold InvestmentStrategist.generate_trading_signals.
  rewrite (sorted_by_day_twice pts Hs).
  destruct (signal_loop_twice pts pts [] hold) as (cur' & -> & _); auto.
Qed.

Lemma filter_all {A} (f : A -> bool) (l : list A) :
  (forall x, In x l -> f x = true) -> List.filter f l = l.
Proof.
  induction l as [|x l IH]; intros H; [reflexivity|]. cbn [List.filter].
  rewrite (H x) by (left; reflexivity). f_equal. apply IH. intros y Hy. apply H. right. exact Hy.
Qed.

(** On a flat path every day passes both tests. *)
Lemma flat_tests (n : nat) (c : Q) (window i : nat) :
  i < n ->
  lowest_within (replicate n c) window i = true
  /\ highest_within (replicate n c) window i = true.
Proof.
  intros Hi.
  assert (replicate n c !!! i = c) as Htot by (apply lookup_total_replicate_2, Hi).
  split.
  - apply lowest_within_spec; [rewrite length_replicate; exact Hi|].
    intros j q _ Hq. apply lookup_replicate in Hq as [-> _]. rewrite Htot. apply Qle_refl.
  - apply highest_within_spec; [rewrite length_replicate; exact Hi|].
    intros j q _ Hq. apply lookup_replicate in Hq as [-> _]. rewrite Htot. apply Qle_refl.
Qed.

Lemma flat_extrema (n : nat) (c amount : Q) :
  InvestmentStrategist.find_local_extrema (flat n c amount) 3 = (inner_days n c, inner_days n c).
Proof.
  rewrite find_local_extrema_eq. unfold InvestmentStrategist.days, flat, inner_days, py_range.
  cbn [InvestmentStrategist.forecast_prices]. rewrite length_replicate.
  replace (n - 3 - 3) with (n - 6) by lia.
  assert (forall i, In i (seq 3 (n - 6)) -> i < n) as Hrange
    by (intros i Hi; apply in_seq in Hi; lia).
  rewrite !filter_all
    by (intros i Hi; apply (flat_tests n c 3 i), Hrange, Hi).
  assert ((fun i => (i, replicate n c !!! i)) <$> seq 3 (n - 6)
          = (fun i => (i, c)) <$> seq 3 (n - 6)) as ->; [|reflexivity].
  apply list_fmap_ext. intros k i Hk. f_equal.
  apply lookup_total_replicate_2, Hrange, list_elem_of_In.
  eapply list_elem_of_lookup_2. exact Hk.
Qed.

Lemma inner_days_sorted (n : nat) (c : Q) :
  StronglySorted (fun a b : point => a.1 < b.1) (inner_days n c).
Proof.
  unfold inner_days. generalize 3 (n - 6). intros a m. revert a.
  induction m as [|m IH]; intros a; cbn; constructor; [apply IH|].
  apply Forall_forall. intros q Hq. apply list_elem_of_fmap in Hq as (i & -> & Hi).
  apply elem_of_seq in Hi. cbn. lia.
Qed.

(** X18.  On a flat path (the same positive price on each of [n] days,
    as a persistence forecast is) every day from 3 to [n - 4] is returned
    both as a buy point and as a sell point, and the signals are a buy
    followed by a sell on each of these days in turn.  So with at least
    seven days and a positive investment [generate_recommendations]
    returns the strategy text listing these round trips at one price, not
    the buy-and-hold text; with fewer than seven days it returns the
    buy-and-hold text. *)
Theorem flat_forecast_round_trips (n : nat) (c amount : Q) :
  0 < n -> (0 < c)%Q -> (0 < amount)%Q ->
  InvestmentStrategist.find_local_extrema (flat n c amount) 3 = (inner_days n c, inner_days n c)
  /\ InvestmentStrategist.generate_trading_signals (inner_days n c) (inner_days n c)
     = round_trips (inner_days n c)
  /\ exists text info,
       InvestmentStrategist.generate_recommendations (flat n c amount) = Ok (text, info)
       /\ (n < 7 -> text = BuyAndHold)
       /\ (7 <= n ->
           text = Strategy (take 3 (inner_days n c)) (take 3 (inner_days n c))
                    (take 5 (round_trips (inner_days n c)))).
Proof.
  intros Hn Hc Hamount.
  pose proof (flat_extrema n c amount) as Hext.
  pose proof (round_trips_signals (inner_days n c) (inner_days_sorted n c)) as Hsig.
  split; [exact Hext|]. split; [exact Hsig|].
  assert (~ (amount == 0)%Q) as Hamount0 by (intros H; rewrite H in Hamount; lra).
  assert (head (InvestmentStrategist.forecast_prices (flat n c amount)) = Some c) as Hhead
    by (destruct n; [lia|reflexivity]).
  assert (last (InvestmentStrategist.forecast_prices (flat n c amount)) = Some c) as Hlast
    by (apply last_replicate, Hn).
  rewrite generate_recommendations_cases, Hext. cbn [fst snd]. rewrite Hsig.
  destruct (decide (n < 7)) as [Hlt|Hge].
  - assert (inner_days n c = []) as ->
      by (unfold inner_days; replace (n - 6) with 0 by lia; reflexivity).
    cbn [round_trips mbind list_bind].
    rewrite (fallback_eq _ c c Hhead Hlast); [|lra|exact Hamount0].
    do 2 eexists. split; [reflexivity|]. split; [reflexivity|]. lia.
  - assert (round_trips (inner_days n c) <> []) as Hne.
    { unfold inner_days. destruct (n - 6) as [|m] eqn:E; [lia|]. cbn. discriminate. }
    destruct (trades_invariant (round_trips (inner_days n c)) _
                (portfolio_init_invariant (flat n c amount) Hamount))
      as (st & Hrun & _).
    { unfold round_trips. apply Forall_forall. intros s Hs.
      apply list_elem_of_bind in Hs as (pt & Hs & Hpt).
      unfold inner_days in Hpt. apply list_elem_of_fmap in Hpt as (i & -> & _).
      repeat (apply elem_of_cons in Hs as [->|Hs]; [exact Hc|]).
      apply elem_of_nil in Hs. contradiction. }
    destruct (calculate_profit_run _ _ st c Hne Hrun Hlast Hamount0)
      as (gain & info & Hcalc & _).
    destruct (round_trips (inner_days n c)) as [|s rest] eqn:Hrt; [congruence|].
    rewrite Hcalc. cbn [mbind result_bind try_except].
    do 2 eexists. split; [reflexivity|]. split; [lia|]. intros _. reflexivity.
Qed.

Lemma flat_forecast_round_trips_witness :
  InvestmentStrategist.generate_trading_signals (inner_days 30 139) (inner_days 30 139)
  = round_trips (inner_days 30 139)
  /\ take 2 (round_trips (inner_days 30 139)) = [(buy, 3, 139%Q); (sell, 3, 139%Q)].
Proof.
  destruct (flat_forecast_round_trips 30 139 1000) as (_ & Hsig & _).
  - lia.
  - reflexivity.
  - reflexivity.
  - split; [exact Hsig|reflexivity].
Defined.
(** ** The value of a persistence forecast *)



